(** * Task Management API: a shallow embedding of the request handlers

    The handlers of [app/api], the guards of [app/middleware/auth.py] and
    the token service of [app/core/security.py] are embedded as functions
    over an explicit database state.  A table is the list of its rows in
    insertion order, a timestamp is a number of seconds ([Z]), a raised
    exception is the [Raise] case of [result], and a handler returns its
    result together with the committed database state: a handler that
    raises before its [db.commit()] leaves the state it was given. *)

From Stdlib Require Import ZArith Lia Ascii.
From stdpp Require Import base option list sorting gmap strings pretty.

Local Open Scope string_scope.
Local Open Scope list_scope.
Local Open Scope Z_scope.

(** ** Enumerations ([app/models/user.py], [app/models/task.py]) *)

Inductive UserRole := ADMIN | USER.
Inductive TaskStatus := TODO | IN_PROGRESS | DONE.
Inductive TaskPriority := LOW | MEDIUM | HIGH | URGENT.

#[global] Instance UserRole_eq_dec : EqDecision UserRole.
Proof. solve_decision. Defined.
#[global] Instance TaskStatus_eq_dec : EqDecision TaskStatus.
Proof. solve_decision. Defined.
#[global] Instance TaskPriority_eq_dec : EqDecision TaskPriority.
Proof. solve_decision. Defined.

(** [for status in TaskStatus], [for priority in TaskPriority]: the members
    in definition order, and the [.value] of each. *)
Definition TaskStatus_members : list TaskStatus := [TODO; IN_PROGRESS; DONE].
Definition TaskPriority_members : list TaskPriority := [LOW; MEDIUM; HIGH; URGENT].

Definition TaskStatus_value (s : TaskStatus) : string :=
  match s with TODO => "todo" | IN_PROGRESS => "in_progress" | DONE => "done" end.
Definition TaskPriority_value (p : TaskPriority) : string :=
  match p with LOW => "low" | MEDIUM => "medium" | HIGH => "high" | URGENT => "urgent" end.

(** ** Rows ([app/models]) *)

Module User.
Record t := mk {
  id : Z;
  email : string;
  username : string;
  hashed_password : string;
  role : UserRole;
  is_active : bool;
  created_at : Z;
  updated_at : Z
}.
End User.

Module Task.
Record t := mk {
  id : Z;
  title : string;
  description : option string;
  status : TaskStatus;
  priority : TaskPriority;
  due_date : option Z;
  assigned_user_id : option Z;
  created_by : Z;
  created_at : Z;
  updated_at : Z;
  is_deleted : bool
}.

#[global] Instance eq_dec : EqDecision t.
Proof. solve_decision. Defined.

(** Attribute assignments [task.field = v]. *)
Definition set_title (r : t) (v : string) : t :=
  mk (id r) v (description r) (status r) (priority r) (due_date r)
    (assigned_user_id r) (created_by r) (created_at r) (updated_at r) (is_deleted r).
Definition set_description (r : t) (v : option string) : t :=
  mk (id r) (title r) v (status r) (priority r) (due_date r)
    (assigned_user_id r) (created_by r) (created_at r) (updated_at r) (is_deleted r).
Definition set_status (r : t) (v : TaskStatus) : t :=
  mk (id r) (title r) (description r) v (priority r) (due_date r)
    (assigned_user_id r) (created_by r) (created_at r) (updated_at r) (is_deleted r).
Definition set_priority (r : t) (v : TaskPriority) : t :=
  mk (id r) (title r) (description r) (status r) v (due_date r)
    (assigned_user_id r) (created_by r) (created_at r) (updated_at r) (is_deleted r).
Definition set_due_date (r : t) (v : option Z) : t :=
  mk (id r) (title r) (description r) (status r) (priority r) v
    (assigned_user_id r) (created_by r) (created_at r) (updated_at r) (is_deleted r).
Definition set_assigned_user_id (r : t) (v : option Z) : t :=
  mk (id r) (title r) (description r) (status r) (priority r) (due_date r)
    v (created_by r) (created_at r) (updated_at r) (is_deleted r).
Definition set_updated_at (r : t) (v : Z) : t :=
  mk (id r) (title r) (description r) (status r) (priority r) (due_date r)
    (assigned_user_id r) (created_by r) (created_at r) v (is_deleted r).
Definition set_is_deleted (r : t) (v : bool) : t :=
  mk (id r) (title r) (description r) (status r) (priority r) (due_date r)
    (assigned_user_id r) (created_by r) (created_at r) (updated_at r) v.
End Task.

Module RefreshToken.
Record t := mk {
  id : Z;
  token : string;
  user_id : Z;
  expires_at : Z;
  is_revoked : bool;
  created_at : Z;
  replaced_by_token : option string
}.
End RefreshToken.

(** A value stored in the JSON columns of an audit row. *)
Inductive json := JNull | JBool (b : bool) | JInt (n : Z) | JStr (s : string).

Module AuditLog.
Record t := mk {
  id : Z;
  user_id : Z;
  task_id : option Z;
  action : string;
  old_values : option (gmap string json);
  new_values : option (gmap string json);
  timestamp : Z
}.
End AuditLog.

(** The four tables. *)
Record Db := mkDb {
  users : list User.t;
  tasks : list Task.t;
  refresh_tokens : list RefreshToken.t;
  audit_logs : list AuditLog.t
}.

(** ** Exceptions and results *)

Definition HTTP_400_BAD_REQUEST : Z := 400.
Definition HTTP_401_UNAUTHORIZED : Z := 401.
Definition HTTP_403_FORBIDDEN : Z := 403.
Definition HTTP_404_NOT_FOUND : Z := 404.

(** [HTTPException] is what the handlers raise; [IntegrityError] and
    [DataError] are what a commit or a query of the store raises (a
    violated unique or foreign-key constraint, a malformed integer);
    [ValueError] is what [int] raises. *)
Inductive Exn :=
  | HTTPException (status_code : Z) (detail : string)
  | IntegrityError
  | DataError
  | ValueError.

Inductive result (A : Type) :=
  | Ok (a : A)
  | Raise (e : Exn).
Arguments Ok {A} a.
Arguments Raise {A} e.

#[global] Instance result_ret : MRet result := λ A a, Ok a.
#[global] Instance result_bind : MBind result := λ A B f m,
  match m with Ok a => f a | Raise e => Raise e end.

(** The status code sent for an exception: FastAPI answers an
    [HTTPException] with its own code, [integrity_error_handler] answers
    400 and [general_exception_handler] answers 500. *)
Definition status_of (e : Exn) : Z :=
  match e with
  | HTTPException c _ => c
  | IntegrityError => 400
  | DataError | ValueError => 500
  end.

(** The request fails with the status [code]. *)
Definition raises_status {A} (r : result A) (code : Z) : Prop :=
  match r with Raise e => status_of e = code | Ok _ => False end.

(** ** Configuration ([app/core/config.py]) *)

Record Settings := mkSettings {
  jwt_secret_key : string;
  jwt_algorithm : string;
  jwt_access_token_expire_minutes : Z;
  jwt_refresh_token_expire_days : Z
}.

Definition default_settings : Settings :=
  {| jwt_secret_key := "your-super-secret-jwt-key-change-this-in-production";
     jwt_algorithm := "HS256";
     jwt_access_token_expire_minutes := 15;
     jwt_refresh_token_expire_days := 7 |}.

(** [timedelta(minutes=n)], [timedelta(days=n)], in seconds. *)
Definition timedelta_minutes (n : Z) : Z := n * 60.
Definition timedelta_days (n : Z) : Z := n * 86400.

(** ** Token claims

    The claim set of a token: the code reads and writes the keys [sub],
    [exp] and [type] only; [payload.get(k)] is the field, [None] when the
    key is absent. *)
Record Claims := mkClaims {
  sub : option string;
  exp : option Z;
  type : option string
}.

(** ** The library boundary

    What the handlers call and the repository does not implement: the
    signing and signature check of [jose.jwt], the password check of
    [passlib], Python's [int] on a string, the store's reading of a string
    compared with an integer column, and the store's [ILIKE]. *)
Class Externals := {
  (** [jwt.encode(claims, key, algorithm=alg)] *)
  jws_sign : Claims → string → string → string;
  (** what [jwt.decode(token, key, algorithms=[alg])] checks apart from the
      expiry, the signature first of all: the claims of an accepted token,
      [None] for a token the library rejects *)
  jws_verify : string → string → string → option Claims;
  (** [pwd_context.verify(plain, hashed)] *)
  pwd_verify : string → string → bool;
  (** [int(s)]: [None] when it raises [ValueError] *)
  py_int : string → option Z;
  (** the integer the store reads in a string bound against an integer
      column: [None] when it rejects the text *)
  sql_integer : string → option Z;
  (** [column.ilike(pattern)] on a non-null column value *)
  sql_ilike : string → string → bool;
  (** [datetime.isoformat()] *)
  isoformat : Z → string
}.

(** ** Request and response shapes ([app/schemas]) *)

Record LoginRequest := mkLoginRequest {
  login_email : string;
  login_password : string
}.

Record TokenResponse := mkTokenResponse {
  access_token : string;
  token_type : string
}.

(** The arguments of [response.set_cookie]. *)
Record Cookie := mkCookie {
  key : string;
  value : string;
  httponly : bool;
  secure : bool;
  samesite : string;
  max_age : Z
}.

Record TaskUpdate := mkTaskUpdate {
  upd_title : option string;
  upd_description : option string;
  upd_status : option TaskStatus;
  upd_priority : option TaskPriority;
  upd_due_date : option Z;
  upd_assigned_user_id : option Z
}.

(** The query parameters of [GET /api/tasks]. *)
Record TaskQuery := mkTaskQuery {
  page : Z;
  size : Z;
  q_status : option TaskStatus;
  q_priority : option TaskPriority;
  q_assigned_user_id : option Z;
  q_created_by : option Z;
  due_date_from : option Z;
  due_date_to : option Z;
  search : option string
}.

Record TaskList := mkTaskList {
  tl_tasks : list Task.t;
  tl_total : Z;
  tl_page : Z;
  tl_size : Z
}.

Record AssignedTasks := mkAssignedTasks {
  at_user_id : Z;
  at_username : string;
  at_tasks : list Task.t
}.

Record SystemStats := mkSystemStats {
  total_users : nat;
  active_users : nat;
  total_tasks : nat;
  tasks_by_status : gmap string nat;
  tasks_by_priority : gmap string nat;
  recent_activities : nat
}.

Record BulkAssignResult := mkBulkAssignResult {
  message : string;
  updated_tasks : nat;
  bulk_total_tasks : nat
}.

(** ** Storage helpers *)

(** The next value of a table's id sequence. *)
Definition fresh_id (ids : list Z) : Z := 1 + foldr Z.max 0 ids.

(** [query.filter(P).first()] *)
Definition query_first {A} (P : A → Prop) `{∀ x, Decision (P x)}
  (rows : list A) : option A := head (filter P rows).

(** Python truthiness of an [Optional[int]] and of an [Optional[str]]:
    [None], [0] and the empty string are false. *)
Definition truthy_int (o : option Z) : option Z :=
  match o with Some n => if decide (n = 0) then None else Some n | None => None end.
Definition truthy_str (o : option string) : option string :=
  match o with Some s => if decide (s = "") then None else Some s | None => None end.

Definition set_tasks (db : Db) (l : list Task.t) : Db :=
  {| users := users db; tasks := l;
     refresh_tokens := refresh_tokens db; audit_logs := audit_logs db |}.
Definition set_refresh_tokens (db : Db) (l : list RefreshToken.t) : Db :=
  {| users := users db; tasks := tasks db;
     refresh_tokens := l; audit_logs := audit_logs db |}.
Definition set_audit_logs (db : Db) (l : list AuditLog.t) : Db :=
  {| users := users db; tasks := tasks db;
     refresh_tokens := refresh_tokens db; audit_logs := l |}.

(** [db.add(row); db.commit()] on [refresh_tokens]: the column [token] is
    declared [unique=True], so the commit raises when the value is already
    stored. *)
Definition add_refresh_token (row : RefreshToken.t) (rows : list RefreshToken.t)
  : result (list RefreshToken.t) :=
  if decide (RefreshToken.token row ∈ RefreshToken.token <$> rows)
  then Raise IntegrityError
  else Ok (rows ++ [row]).

(** [setattr(row, 'is_revoked', True)] and
    [setattr(row, 'replaced_by_token', new)]. *)
Definition revoke (row : RefreshToken.t) : RefreshToken.t :=
  RefreshToken.mk (RefreshToken.id row) (RefreshToken.token row)
    (RefreshToken.user_id row) (RefreshToken.expires_at row) true
    (RefreshToken.created_at row) (RefreshToken.replaced_by_token row).
Definition set_replaced_by_token (row : RefreshToken.t) (new : string)
  : RefreshToken.t :=
  RefreshToken.mk (RefreshToken.id row) (RefreshToken.token row)
    (RefreshToken.user_id row) (RefreshToken.expires_at row)
    (RefreshToken.is_revoked row) (RefreshToken.created_at row) (Some new).

(** ** Audit service ([app/utils/audit.py]) *)

(** [audit_service.log_action]: one row appended and committed; the store
    sets [id] and [timestamp]. *)
Definition log_action (now : Z) (user_id : Z) (action : string)
  (task_id : option Z) (old_values new_values : option (gmap string json))
  (db : Db) : Db :=
  set_audit_logs db
    (audit_logs db ++
       [AuditLog.mk (fresh_id (AuditLog.id <$> audit_logs db))
          user_id task_id action old_values new_values now]).

Section App.
Context (settings : Settings) `{Externals}.

(** ** Token service ([app/core/security.py]) *)

(** [to_encode = data.copy(); to_encode.update({"exp": .., "type": ..})] *)
Definition update_exp_type (data : Claims) (expire : Z) (ty : string) : Claims :=
  {| sub := sub data; exp := Some expire; type := Some ty |}.

(** [if expires_delta:] is false for [None] and for a zero [timedelta]. *)
Definition create_access_token (data : Claims) (expires_delta : option Z)
  (now : Z) : string :=
  let expire :=
    match truthy_int expires_delta with
    | Some d => now + d
    | None => now + timedelta_minutes (jwt_access_token_expire_minutes settings)
    end in
  jws_sign (update_exp_type data expire "access")
    (jwt_secret_key settings) (jwt_algorithm settings).

Definition create_refresh_token (data : Claims) (now : Z) : string :=
  let expire := now + timedelta_days (jwt_refresh_token_expire_days settings) in
  jws_sign (update_exp_type data expire "refresh")
    (jwt_secret_key settings) (jwt_algorithm settings).

(** [jwt.decode]: the signature check, then the expiry check of the
    library, which raises [ExpiredSignatureError] (a [JWTError]) when the
    [exp] claim is earlier than the current time. *)
Definition jwt_decode (token : string) (now : Z) : option Claims :=
  match jws_verify token (jwt_secret_key settings) (jwt_algorithm settings) with
  | None => None
  | Some payload =>
      match exp payload with
      | Some e => if decide (e < now) then None else Some payload
      | None => Some payload
      end
  end.

Definition verify_token (token : string) (token_type : string) (now : Z)
  : result Claims :=
  match jwt_decode token now with
  | Some payload =>
      if decide (type payload ≠ Some token_type)
      then Raise (HTTPException HTTP_401_UNAUTHORIZED "Invalid token type")
      else Ok payload
  | None =>
      Raise (HTTPException HTTP_401_UNAUTHORIZED "Could not validate credentials")
  end.

(** ** Guards ([app/middleware/auth.py]) *)

(** [credentials] is the bearer token [HTTPBearer] extracted.
    [User.id == user_id] compares the integer column with the string of
    the [sub] claim. *)
Definition get_current_user (credentials : string) (now : Z) (db : Db)
  : result User.t :=
  payload ← verify_token credentials "access" now;
  match sub payload with
  | None =>
      Raise (HTTPException HTTP_401_UNAUTHORIZED "Could not validate credentials")
  | Some user_id =>
      match sql_integer user_id with
      | None => Raise DataError
      | Some uid =>
          match query_first (λ u, User.id u = uid) (users db) with
          | None =>
              Raise (HTTPException HTTP_401_UNAUTHORIZED "User not found or inactive")
          | Some user =>
              if negb (User.is_active user)
              then Raise (HTTPException HTTP_401_UNAUTHORIZED
                            "User not found or inactive")
              else Ok user
          end
      end
  end.

(** The body of [get_current_active_user], given the user its dependency
    resolved. *)
Definition active_user_check (current_user : User.t) : result User.t :=
  if negb (User.is_active current_user)
  then Raise (HTTPException HTTP_400_BAD_REQUEST "Inactive user")
  else Ok current_user.

Definition get_current_active_user (credentials : string) (now : Z) (db : Db)
  : result User.t :=
  current_user ← get_current_user credentials now db;
  active_user_check current_user.

Definition get_admin_user (credentials : string) (now : Z) (db : Db)
  : result User.t :=
  current_user ← get_current_active_user credentials now db;
  if decide (User.role current_user ≠ ADMIN)
  then Raise (HTTPException HTTP_403_FORBIDDEN "Not enough permissions")
  else Ok current_user.

(** [require_roles]: the caller's role must be one of [roles]. *)
Definition require_roles (roles : list UserRole) (credentials : string)
  (now : Z) (db : Db) : result User.t :=
  current_user ← get_current_active_user credentials now db;
  if decide (User.role current_user ∉ roles)
  then Raise (HTTPException HTTP_403_FORBIDDEN "Not enough permissions")
  else Ok current_user.

(** A protected endpoint: [Depends(guard)] runs the guard first and the
    handler only on the user it returns. *)
Definition Depends {A} (guard : string → Z → Db → result User.t)
  (handler : User.t → Db → result A * Db)
  (credentials : string) (now : Z) (db : Db) : result A * Db :=
  match guard credentials now db with
  | Ok user => handler user db
  | Raise e => (Raise e, db)
  end.

(** ** Authentication routes ([app/api/auth.py]) *)

Definition refresh_cookie (refresh_token : string) : Cookie :=
  {| key := "refresh_token"; value := refresh_token; httponly := true;
     secure := true; samesite := "strict"; max_age := 7 * 24 * 60 * 60 |}.

(** [{"sub": str(user_id)}] *)
Definition sub_claims (user_id : Z) : Claims :=
  {| sub := Some (pretty user_id); exp := None; type := None |}.

(** [POST /api/auth/login]: the result, the cookie set on the response
    and the committed state. *)
Definition login (user_data : LoginRequest) (now : Z) (db : Db)
  : result TokenResponse * option Cookie * Db :=
  match query_first (λ u, User.email u = login_email user_data) (users db) with
  | None =>
      (Raise (HTTPException HTTP_401_UNAUTHORIZED "Incorrect email or password"),
       None, db)
  | Some user =>
      if negb (pwd_verify (login_password user_data) (User.hashed_password user))
      then (Raise (HTTPException HTTP_401_UNAUTHORIZED
                     "Incorrect email or password"), None, db)
      else if negb (User.is_active user)
      then (Raise (HTTPException HTTP_401_UNAUTHORIZED "Account is inactive"),
            None, db)
      else
        let access_token := create_access_token (sub_claims (User.id user)) None now in
        let refresh_token := create_refresh_token (sub_claims (User.id user)) now in
        let refresh_token_obj :=
          RefreshToken.mk (fresh_id (RefreshToken.id <$> refresh_tokens db))
            refresh_token (User.id user) (now + timedelta_days 7) false now None in
        match add_refresh_token refresh_token_obj (refresh_tokens db) with
        | Raise e => (Raise e, None, db)
        | Ok rows =>
            (Ok {| access_token := access_token; token_type := "bearer" |},
             Some (refresh_cookie refresh_token),
             log_action now (User.id user) "USER_LOGIN" None None None
               (set_refresh_tokens db rows))
        end
  end.

(** [int(payload.get("sub") or "0")] *)
Definition sub_user_id (payload : Claims) : result Z :=
  match py_int (default "0" (truthy_str (sub payload))) with
  | Some n => Ok n
  | None => Raise ValueError
  end.

(** [POST /api/auth/refresh].  The bare [except] turns whatever the
    verification or the conversion raises into the 401 of the handler. *)
Definition refresh_token (refresh_data : string) (now : Z) (db : Db)
  : result TokenResponse * option Cookie * Db :=
  match payload ← verify_token refresh_data "refresh" now; sub_user_id payload with
  | Raise _ =>
      (Raise (HTTPException HTTP_401_UNAUTHORIZED "Invalid refresh token"), None, db)
  | Ok user_id =>
      match list_find (λ r, RefreshToken.token r = refresh_data
                            ∧ RefreshToken.user_id r = user_id
                            ∧ RefreshToken.is_revoked r = false
                            ∧ now < RefreshToken.expires_at r)
                      (refresh_tokens db) with
      | None =>
          (Raise (HTTPException HTTP_401_UNAUTHORIZED
                    "Invalid or expired refresh token"), None, db)
      | Some (i, refresh_token_obj) =>
          let new_access_token := create_access_token (sub_claims user_id) None now in
          let new_refresh_token := create_refresh_token (sub_claims user_id) now in
          let rows :=
            <[i := set_replaced_by_token (revoke refresh_token_obj) new_refresh_token]>
              (refresh_tokens db) in
          let new_refresh_token_obj :=
            RefreshToken.mk (fresh_id (RefreshToken.id <$> refresh_tokens db))
              new_refresh_token user_id (now + timedelta_days 7) false now None in
          match add_refresh_token new_refresh_token_obj rows with
          | Raise e => (Raise e, None, db)
          | Ok rows' =>
              (Ok {| access_token := new_access_token; token_type := "bearer" |},
               Some (refresh_cookie new_refresh_token),
               set_refresh_tokens db rows')
          end
      end
  end.

(** ** Task routes ([app/api/tasks.py]) *)

(** [or_(Task.created_by == current_user.id,
         Task.assigned_user_id == current_user.id)]; a null assignee
    compares equal to nothing. *)
Definition own_or_assigned (current_user : User.t) (t : Task.t) : Prop :=
  Task.created_by t = User.id current_user
  ∨ Task.assigned_user_id t = Some (User.id current_user).

#[global] Instance own_or_assigned_dec u t : Decision (own_or_assigned u t).
Proof. unfold own_or_assigned. apply _. Defined.

(** [Task.due_date >= d] and [Task.due_date <= d]: a null due date
    satisfies neither. *)
Definition due_from (d : Z) (t : Task.t) : Prop :=
  match Task.due_date t with Some x => d ≤ x | None => False end.
Definition due_to (d : Z) (t : Task.t) : Prop :=
  match Task.due_date t with Some x => x ≤ d | None => False end.

#[global] Instance due_from_dec d t : Decision (due_from d t).
Proof. unfold due_from. destruct (Task.due_date t); apply _. Defined.
#[global] Instance due_to_dec d t : Decision (due_to d t).
Proof. unfold due_to. destruct (Task.due_date t); apply _. Defined.

(** [or_(Task.title.ilike(f"%{search}%"),
         Task.description.ilike(f"%{search}%"))] *)
Definition matches_search (search : string) (t : Task.t) : Prop :=
  let pattern := "%" +:+ search +:+ "%" in
  sql_ilike (Task.title t) pattern = true
  ∨ match Task.description t with
    | Some d => sql_ilike d pattern = true
    | None => False
    end.

#[global] Instance matches_search_dec s t : Decision (matches_search s t).
Proof. unfold matches_search. destruct (Task.description t); apply _. Defined.

(** [if param: query = query.filter(..)] *)
Definition filter_if {A B} (param : option B)
  (refine : B → list A → list A) (query : list A) : list A :=
  match param with
  | Some b => refine b query
  | None => query
  end.

(** [query.order_by(Task.updated_at.desc())] *)
Definition updated_at_desc (a b : Task.t) : Prop :=
  Task.updated_at b ≤ Task.updated_at a.

#[global] Instance updated_at_desc_dec a b : Decision (updated_at_desc a b).
Proof. unfold updated_at_desc. apply _. Defined.

(** The query [list_tasks] builds, before ordering and paging. *)
Definition list_tasks_query (q : TaskQuery) (current_user : User.t)
  (rows : list Task.t) : list Task.t :=
  let query := filter (λ t, Task.is_deleted t = false) rows in
  let query :=
    if decide (User.role current_user ≠ ADMIN)
    then filter (own_or_assigned current_user) query
    else query in
  let query := filter_if (q_status q)
                 (λ status, filter (λ t, Task.status t = status)) query in
  let query := filter_if (q_priority q)
                 (λ priority, filter (λ t, Task.priority t = priority)) query in
  let query := filter_if (truthy_int (q_assigned_user_id q))
                 (λ a, filter (λ t, Task.assigned_user_id t = Some a)) query in
  let query := filter_if (truthy_int (q_created_by q))
                 (λ c, filter (λ t, Task.created_by t = c)) query in
  let query := filter_if (due_date_from q) (λ d, filter (due_from d)) query in
  let query := filter_if (due_date_to q) (λ d, filter (due_to d)) query in
  filter_if (truthy_str (search q)) (λ s, filter (matches_search s)) query.

(** [GET /api/tasks] *)
Definition list_tasks (q : TaskQuery) (current_user : User.t) (db : Db)
  : result TaskList * Db :=
  let offset := (page q - 1) * size q in
  let query := merge_sort updated_at_desc
                 (list_tasks_query q current_user (tasks db)) in
  let total := length query in
  let tasks := take (Z.to_nat (size q)) (drop (Z.to_nat offset) query) in
  (Ok {| tl_tasks := tasks; tl_total := Z.of_nat total;
         tl_page := page q; tl_size := size q |}, db).

(** [db.query(Task).filter(Task.id == task_id,
                           Task.is_deleted == False).first()],
    with the position of the row in the table. *)
Definition find_task (task_id : Z) (rows : list Task.t) : option (nat * Task.t) :=
  list_find (λ t, Task.id t = task_id ∧ Task.is_deleted t = false) rows.

Definition task_not_found {A} : result A :=
  Raise (HTTPException HTTP_404_NOT_FOUND "Task not found").

(** [GET /api/tasks/{task_id}] *)
Definition get_task (task_id : Z) (current_user : User.t) (db : Db)
  : result Task.t * Db :=
  match find_task task_id (tasks db) with
  | None => (task_not_found, db)
  | Some (_, task) =>
      if decide (User.role current_user ≠ ADMIN
                 ∧ Task.created_by task ≠ User.id current_user
                 ∧ Task.assigned_user_id task ≠ Some (User.id current_user))
      then (Raise (HTTPException HTTP_403_FORBIDDEN
                     "Not enough permissions to view this task"), db)
      else (Ok task, db)
  end.

Definition json_opt {A} (f : A → json) (o : option A) : json :=
  match o with Some a => f a | None => JNull end.

(** The [old_values] and [new_values] dictionaries of [update_task]. *)
Definition snapshot (task : Task.t) : gmap string json :=
  {[ "title" := JStr (Task.title task);
     "description" := json_opt JStr (Task.description task);
     "status" := JStr (TaskStatus_value (Task.status task));
     "priority" := JStr (TaskPriority_value (Task.priority task));
     "due_date" := json_opt (λ d, JStr (isoformat d)) (Task.due_date task);
     "assigned_user_id" := json_opt JInt (Task.assigned_user_id task) ]}.

(** [if task_update.f is not None: task.f = task_update.f] *)
Definition assign_if {A} (o : option A) (set : Task.t → A → Task.t)
  (task : Task.t) : Task.t :=
  match o with Some v => set task v | None => task end.

(** The attribute assignments of [update_task] up to [due_date]. *)
Definition update_fields (task_update : TaskUpdate) (task : Task.t) : Task.t :=
  let task := assign_if (upd_title task_update) Task.set_title task in
  let task := assign_if (upd_description task_update)
                (λ r v, Task.set_description r (Some v)) task in
  let task := assign_if (upd_status task_update) Task.set_status task in
  let task := assign_if (upd_priority task_update) Task.set_priority task in
  assign_if (upd_due_date task_update) (λ r v, Task.set_due_date r (Some v)) task.

(** The last assignment of [update_task]: a truthy [assigned_user_id] is
    looked up first, the value [0] is assigned without a lookup. *)
Definition update_assignee (task_update : TaskUpdate) (db : Db) (task : Task.t)
  : result Task.t :=
  match upd_assigned_user_id task_update with
  | None => Ok task
  | Some a =>
      if decide (a ≠ 0 ∧ query_first (λ u, User.id u = a) (users db) = None)
      then Raise (HTTPException HTTP_400_BAD_REQUEST "Assigned user not found")
      else Ok (Task.set_assigned_user_id task (Some a))
  end.

(** [db.commit()] of a modified task row at position [i]: the foreign key
    of a changed [assigned_user_id] is checked, and [onupdate=func.now()]
    refreshes [updated_at] when the row changed. *)
Definition commit_task (now : Z) (i : nat) (old new : Task.t) (db : Db)
  : result (Task.t * Db) :=
  if decide (new = old) then Ok (old, db)
  else
    match Task.assigned_user_id new with
    | Some a =>
        if decide (Task.assigned_user_id new ≠ Task.assigned_user_id old
                   ∧ a ∉ User.id <$> users db)
        then Raise IntegrityError
        else let row := Task.set_updated_at new now in
             Ok (row, set_tasks db (<[i := row]> (tasks db)))
    | None =>
        let row := Task.set_updated_at new now in
        Ok (row, set_tasks db (<[i := row]> (tasks db)))
    end.

(** [PUT /api/tasks/{task_id}] *)
Definition update_task (task_id : Z) (task_update : TaskUpdate) (now : Z)
  (current_user : User.t) (db : Db) : result Task.t * Db :=
  match find_task task_id (tasks db) with
  | None => (task_not_found, db)
  | Some (i, task) =>
      if decide (User.role current_user ≠ ADMIN
                 ∧ Task.created_by task ≠ User.id current_user)
      then (Raise (HTTPException HTTP_403_FORBIDDEN
                     "Not enough permissions to update this task"), db)
      else
        let old_values := snapshot task in
        match new ← update_assignee task_update db (update_fields task_update task);
              commit_task now i task new db with
        | Raise e => (Raise e, db)
        | Ok (task', db') =>
            (Ok task',
             log_action now (User.id current_user) "TASK_UPDATED"
               (Some (Task.id task')) (Some old_values) (Some (snapshot task')) db')
        end
  end.

(** [DELETE /api/tasks/{task_id}] *)
Definition delete_task (task_id : Z) (now : Z) (current_user : User.t) (db : Db)
  : result string * Db :=
  match find_task task_id (tasks db) with
  | None => (task_not_found, db)
  | Some (i, task) =>
      if decide (User.role current_user ≠ ADMIN
                 ∧ Task.created_by task ≠ User.id current_user)
      then (Raise (HTTPException HTTP_403_FORBIDDEN
                     "Not enough permissions to delete this task"), db)
      else
        match commit_task now i task (Task.set_is_deleted task true) db with
        | Raise e => (Raise e, db)
        | Ok (task', db') =>
            (Ok "Task deleted successfully",
             log_action now (User.id current_user) "TASK_DELETED"
               (Some (Task.id task'))
               (Some {[ "is_deleted" := JBool false ]})
               (Some {[ "is_deleted" := JBool true ]}) db')
        end
  end.

(** [POST /api/tasks/{task_id}/assign] *)
Definition assign_task (task_id : Z) (assignment_user_id : Z) (now : Z)
  (admin_user : User.t) (db : Db) : result string * Db :=
  match find_task task_id (tasks db) with
  | None => (task_not_found, db)
  | Some (i, task) =>
      match query_first (λ u, User.id u = assignment_user_id) (users db) with
      | None => (Raise (HTTPException HTTP_400_BAD_REQUEST "User not found"), db)
      | Some user =>
          let old_assigned_user_id := Task.assigned_user_id task in
          match commit_task now i task
                  (Task.set_assigned_user_id task (Some assignment_user_id)) db with
          | Raise e => (Raise e, db)
          | Ok (task', db') =>
              (Ok ("Task assigned to user " +:+ pretty assignment_user_id),
               log_action now (User.id admin_user) "TASK_ASSIGNED"
                 (Some (Task.id task'))
                 (Some {[ "assigned_user_id" := json_opt JInt old_assigned_user_id ]})
                 (Some {[ "assigned_user_id" := JInt assignment_user_id ]}) db')
          end
      end
  end.

(** [GET /api/tasks/assigned/{user_id}] *)
Definition get_tasks_assigned_to_user (user_id : Z) (admin_user : User.t)
  (db : Db) : result AssignedTasks * Db :=
  match query_first (λ u, User.id u = user_id) (users db) with
  | None => (Raise (HTTPException HTTP_404_NOT_FOUND "User not found"), db)
  | Some user =>
      let tasks := filter (λ t, Task.assigned_user_id t = Some user_id
                                ∧ Task.is_deleted t = false) (tasks db) in
      (Ok {| at_user_id := user_id; at_username := User.username user;
             at_tasks := tasks |}, db)
  end.

(** ** Admin routes ([app/api/admin.py]) *)

(** [for member in Enum: counts[member.value] = count(member)] *)
Definition count_by {E} (members : list E) (value : E → string)
  (count : E → nat) : gmap string nat :=
  foldl (λ counts member, <[value member := count member]> counts) ∅ members.

(** [GET /api/admin/system-stats] *)
Definition get_system_stats (now : Z) (admin_user : User.t) (db : Db)
  : result SystemStats * Db :=
  let total_users := length (users db) in
  let active_users := length (filter (λ u, User.is_active u = true) (users db)) in
  let total_tasks := length (filter (λ t, Task.is_deleted t = false) (tasks db)) in
  let tasks_by_status :=
    count_by TaskStatus_members TaskStatus_value
      (λ status, length (filter (λ t, Task.status t = status
                                      ∧ Task.is_deleted t = false) (tasks db))) in
  let tasks_by_priority :=
    count_by TaskPriority_members TaskPriority_value
      (λ priority, length (filter (λ t, Task.priority t = priority
                                        ∧ Task.is_deleted t = false) (tasks db))) in
  let yesterday := now - timedelta_days 1 in
  let recent_activities :=
    length (filter (λ a, yesterday ≤ AuditLog.timestamp a) (audit_logs db)) in
  (Ok {| total_users := total_users; active_users := active_users;
         total_tasks := total_tasks; tasks_by_status := tasks_by_status;
         tasks_by_priority := tasks_by_priority;
         recent_activities := recent_activities |}, db).

(** [db.query(Task).filter(Task.id.in_(task_ids),
                           Task.is_deleted == False).all()]: the selected
    rows, each with its position in the table. *)
Definition select_tasks (task_ids : list Z) (rows : list Task.t)
  : list (nat * Task.t) :=
  filter (λ it, Task.id it.2 ∈ task_ids ∧ Task.is_deleted it.2 = false)
    (imap pair rows).

(** [task.assigned_user_id = user_id] as the commit stores it, with the
    refreshed [updated_at]. *)
Definition reassign (user_id : Z) (now : Z) (task : Task.t) : Task.t :=
  Task.set_updated_at (Task.set_assigned_user_id task (Some user_id)) now.

(** One turn of the loop of [bulk_assign_tasks] over the table and
    [updated_count]. *)
Definition bulk_assign_step (user_id : Z) (now : Z)
  (acc : list Task.t * nat) (it : nat * Task.t) : list Task.t * nat :=
  if decide (Task.assigned_user_id it.2 ≠ Some user_id)
  then (<[it.1 := reassign user_id now it.2]> acc.1, S acc.2)
  else acc.

(** [POST /api/admin/bulk-assign] *)
Definition bulk_assign_tasks (task_ids : list Z) (user_id : Z) (now : Z)
  (admin_user : User.t) (db : Db) : result BulkAssignResult * Db :=
  match query_first (λ u, User.id u = user_id) (users db) with
  | None => (Raise (HTTPException HTTP_400_BAD_REQUEST "User not found"), db)
  | Some user =>
      let tasks_ := select_tasks task_ids (tasks db) in
      if decide (length tasks_ ≠ length task_ids)
      then (Raise (HTTPException HTTP_400_BAD_REQUEST "Some tasks not found"), db)
      else
        let '(rows, updated_count) :=
          foldl (bulk_assign_step user_id now) (tasks db, 0%nat) tasks_ in
        (Ok {| message := "Bulk assigned " +:+ pretty updated_count
                            +:+ " tasks to user " +:+ pretty user_id;
               updated_tasks := updated_count;
               bulk_total_tasks := length tasks_ |},
         set_tasks db rows)
  end.

(** ** The routes behind their guards *)

Definition route_list_tasks (q : TaskQuery) (credentials : string) (now : Z) :=
  Depends get_current_active_user (list_tasks q) credentials now.
Definition route_get_task (task_id : Z) (credentials : string) (now : Z) :=
  Depends get_current_active_user (get_task task_id) credentials now.
Definition route_update_task (task_id : Z) (task_update : TaskUpdate)
  (credentials : string) (now : Z) :=
  Depends get_current_active_user (update_task task_id task_update now)
    credentials now.
Definition route_delete_task (task_id : Z) (credentials : string) (now : Z) :=
  Depends get_current_active_user (delete_task task_id now) credentials now.
Definition route_assign_task (task_id user_id : Z) (credentials : string)
  (now : Z) :=
  Depends get_admin_user (assign_task task_id user_id now) credentials now.
Definition route_get_tasks_assigned_to_user (user_id : Z)
  (credentials : string) (now : Z) :=
  Depends get_admin_user (get_tasks_assigned_to_user user_id) credentials now.
Definition route_get_system_stats (credentials : string) (now : Z) :=
  Depends get_admin_user (get_system_stats now) credentials now.
Definition route_bulk_assign_tasks (task_ids : list Z) (user_id : Z)
  (credentials : string) (now : Z) :=
  Depends get_admin_user (bulk_assign_tasks task_ids user_id now) credentials now.

(** ** Vocabulary of the statements *)

(** The three reasons for which [verify_token] rejects a token. *)
Definition signature_invalid (token : string) : Prop :=
  jws_verify token (jwt_secret_key settings) (jwt_algorithm settings) = None.

Definition exp_in_past (token : string) (now : Z) : Prop :=
  ∃ payload e,
    jws_verify token (jwt_secret_key settings) (jwt_algorithm settings)
      = Some payload
    ∧ exp payload = Some e ∧ e < now.

Definition type_differs (token : string) (token_type : string) : Prop :=
  ∃ payload,
    jws_verify token (jwt_secret_key settings) (jwt_algorithm settings)
      = Some payload
    ∧ type payload ≠ Some token_type.

(** The filter of the lookup in [refresh_token]: the stored row exists,
    belongs to the subject, is not revoked and is unexpired. *)
Definition usable_row (refresh_data : string) (user_id : Z) (now : Z)
  (r : RefreshToken.t) : Prop :=
  RefreshToken.token r = refresh_data
  ∧ RefreshToken.user_id r = user_id
  ∧ RefreshToken.is_revoked r = false
  ∧ now < RefreshToken.expires_at r.

(** A field the body of an update leaves out, or gives as null, keeps its
    value from row [t] to row [t']. *)
Definition keeps_absent (task_update : TaskUpdate) (t t' : Task.t) : Prop :=
  (upd_title task_update = None → Task.title t' = Task.title t)
  ∧ (upd_description task_update = None →
     Task.description t' = Task.description t)
  ∧ (upd_status task_update = None → Task.status t' = Task.status t)
  ∧ (upd_priority task_update = None → Task.priority t' = Task.priority t)
  ∧ (upd_due_date task_update = None → Task.due_date t' = Task.due_date t)
  ∧ (upd_assigned_user_id task_update = None →
     Task.assigned_user_id t' = Task.assigned_user_id t).

(** No nullable field goes from a value to null. *)
Definition never_nulled (t t' : Task.t) : Prop :=
  (is_Some (Task.description t) → is_Some (Task.description t'))
  ∧ (is_Some (Task.due_date t) → is_Some (Task.due_date t'))
  ∧ (is_Some (Task.assigned_user_id t) → is_Some (Task.assigned_user_id t')).

(** The columns no update body can name, [updated_at] apart. *)
Definition keeps_fixed (t t' : Task.t) : Prop :=
  Task.id t' = Task.id t
  ∧ Task.created_by t' = Task.created_by t
  ∧ Task.created_at t' = Task.created_at t
  ∧ Task.is_deleted t' = Task.is_deleted t.

(** Every field the body does not mention is unchanged, read on all the
    columns of the row: the fields the body leaves out and the columns it
    cannot name, [updated_at] among them. *)
Definition unchanged_outside_body (task_update : TaskUpdate)
  (t t' : Task.t) : Prop :=
  keeps_absent task_update t t'
  ∧ keeps_fixed t t'
  ∧ Task.updated_at t' = Task.updated_at t.

End App.

(** * The other routes and services

    The remaining handlers of [app/api], the queries of the audit service
    and the paging all listings share. *)

Record RegisterRequest := mkRegisterRequest {
  reg_email : string;
  reg_username : string;
  reg_password : string
}.

Record UserUpdate := mkUserUpdate {
  uu_email : option string;
  uu_username : option string
}.


Record TaskCreate := mkTaskCreate {
  tc_title : string;
  tc_description : option string;
  tc_status : TaskStatus;
  tc_priority : TaskPriority;
  tc_due_date : option Z;
  tc_assigned_user_id : option Z
}.

(** One entry of the [tokens] list of [get_user_refresh_tokens]. *)
Record TokenInfo := mkTokenInfo {
  ti_id : Z;
  ti_created_at : Z;
  ti_expires_at : Z
}.

Record UserTokens := mkUserTokens {
  ut_user_id : Z;
  active_tokens : nat;
  ut_tokens : list TokenInfo
}.



Record UserActivity := mkUserActivity {
  ua_user_id : Z;
  ua_username : string;
  period_days : Z;
  total_activities : nat;
  tasks_created : nat;
  tasks_completed : nat;
  activity_breakdown : gmap string nat
}.

(** What a handler does to the cookie of the response. *)
Inductive CookieOp :=
  | SetCookie (c : Cookie)
  | DeleteCookie (key : string).

Definition set_users (db : Db) (l : list User.t) : Db :=
  {| users := l; tasks := tasks db;
     refresh_tokens := refresh_tokens db; audit_logs := audit_logs db |}.

(** [setattr(current_user, 'email', v)], [setattr(current_user, 'username', v)]
    and the [updated_at] the store writes. *)
Definition set_email (u : User.t) (v : string) : User.t :=
  User.mk (User.id u) v (User.username u) (User.hashed_password u)
    (User.role u) (User.is_active u) (User.created_at u) (User.updated_at u).
Definition set_username (u : User.t) (v : string) : User.t :=
  User.mk (User.id u) (User.email u) v (User.hashed_password u)
    (User.role u) (User.is_active u) (User.created_at u) (User.updated_at u).
Definition set_user_updated_at (u : User.t) (v : Z) : User.t :=
  User.mk (User.id u) (User.email u) (User.username u) (User.hashed_password u)
    (User.role u) (User.is_active u) (User.created_at u) v.

#[global] Instance User_eq_dec : EqDecision User.t.
Proof. solve_decision. Defined.


(** [query.order_by(desc(AuditLog.timestamp))] and
    [query.order_by(AuditLog.timestamp.asc())] *)
Definition timestamp_desc (a b : AuditLog.t) : Prop :=
  AuditLog.timestamp b ≤ AuditLog.timestamp a.
Definition timestamp_asc (a b : AuditLog.t) : Prop :=
  AuditLog.timestamp a ≤ AuditLog.timestamp b.

#[global] Instance timestamp_desc_dec a b : Decision (timestamp_desc a b).
Proof. unfold timestamp_desc. apply _. Defined.
#[global] Instance timestamp_asc_dec a b : Decision (timestamp_asc a b).
Proof. unfold timestamp_asc. apply _. Defined.

(** ** Audit queries ([app/utils/audit.py]) *)

(** The largest [bigint], the type of the count of a [LIMIT]. *)
Definition bigint_max : Z := 9223372036854775807.

(** [query.limit(limit).all()]: the store refuses a negative count, and a
    count that is no [bigint], with a data error. *)
Definition sql_limit {A} (limit : Z) (rows : list A) : result (list A) :=
  if decide (0 ≤ limit ≤ bigint_max) then Ok (take (Z.to_nat limit) rows)
  else Raise DataError.

Definition get_user_activities (user_id : Z) (limit : Z) (db : Db)
  : result (list AuditLog.t) :=
  sql_limit limit
    (merge_sort timestamp_desc
       (filter (λ a, AuditLog.user_id a = user_id) (audit_logs db))).

Definition get_task_history (task_id : Z) (db : Db) : list AuditLog.t :=
  merge_sort timestamp_asc
    (filter (λ a, AuditLog.task_id a = Some task_id) (audit_logs db)).

(** [for row in rows: setattr(row, ..)] over rows selected by [P], each
    reached at its position in the table. *)
Definition update_selected {A} (P : A → Prop) `{∀ x, Decision (P x)}
  (f : A → A) (rows : list A) : list A :=
  foldl (λ acc it, <[it.1 := f it.2]> acc) rows
    (filter (λ it, P it.2) (imap pair rows)).

Section Routes.
Context (settings : Settings) `{Externals}.

(** [pwd_context.hash(password)]: bcrypt draws a salt, given here as the
    first argument. *)
Variable pwd_hash : string → string → string.

(** ** More of the authentication routes ([app/api/auth.py]) *)

(** [POST /api/auth/register] *)
Definition register (user_data : RegisterRequest) (salt : string) (now : Z)
  (db : Db) : result User.t * Db :=
  match query_first (λ u, User.email u = reg_email user_data
                          ∨ User.username u = reg_username user_data)
          (users db) with
  | Some existing_user =>
      (Raise (HTTPException HTTP_400_BAD_REQUEST
                "Email or username already registered"), db)
  | None =>
      let hashed_password := pwd_hash salt (reg_password user_data) in
      let user :=
        User.mk (fresh_id (User.id <$> users db)) (reg_email user_data)
          (reg_username user_data) hashed_password USER true now now in
      (Ok user,
       log_action now (User.id user) "USER_REGISTERED" None None
         (Some {[ "username" := JStr (User.username user);
                  "email" := JStr (User.email user) ]})
         (set_users db (users db ++ [user])))
  end.

(** The lookup and revocation [logout] and [revoke_token] share:
    [db.query(RefreshToken).filter(RefreshToken.token == t).first()], then
    [setattr(obj, 'is_revoked', True)] and the commit. *)
Definition revoke_by_token (refresh_data : string) (db : Db) : option Db :=
  match list_find (λ r, RefreshToken.token r = refresh_data)
          (refresh_tokens db) with
  | Some (i, refresh_token_obj) =>
      Some (set_refresh_tokens db
              (<[i := revoke refresh_token_obj]> (refresh_tokens db)))
  | None => None
  end.

(** [POST /api/auth/logout] *)
Definition logout (refresh_data : string) (db : Db)
  : result string * option CookieOp * Db :=
  (Ok "Successfully logged out", Some (DeleteCookie "refresh_token"),
   default db (revoke_by_token refresh_data db)).

(** [POST /api/auth/revoke-token] *)
Definition revoke_token (token_data : string) (db : Db) : result string * Db :=
  match revoke_by_token token_data db with
  | Some db' => (Ok "Token revoked successfully", db')
  | None => (Raise (HTTPException HTTP_404_NOT_FOUND "Token not found"), db)
  end.

(** ** User routes ([app/api/users.py]) *)

(** [GET /api/users/me] *)
Definition get_current_user_profile (current_user : User.t) (db : Db)
  : result User.t * Db := (Ok current_user, db).

(** One of the two guarded assignments of [update_current_user_profile]:
    a truthy new value that differs from the current one must be free. *)
Definition change_if_free (new : option string) (field : User.t → string)
  (set : User.t → string → User.t) (detail : string) (current : string)
  (db : Db) (pending : User.t) : result User.t :=
  match truthy_str new with
  | Some v =>
      if decide (v ≠ current) then
        match query_first (λ u, field u = v) (users db) with
        | Some existing_user => Raise (HTTPException HTTP_400_BAD_REQUEST detail)
        | None => Ok (set pending v)
        end
      else Ok pending
  | None => Ok pending
  end.

(** The commit of a user row: [UPDATE users SET .. WHERE id = ..], with
    [onupdate=func.now()] on [updated_at], when an attribute changed. *)
Definition commit_user (now : Z) (old new : User.t) (db : Db) : User.t * Db :=
  if decide (new = old) then (old, db)
  else
    let row := set_user_updated_at new now in
    (row, set_users db ((λ u, if decide (User.id u = User.id old)
                              then row else u) <$> users db)).

(** [PUT /api/users/me] *)
Definition update_current_user_profile (user_update : UserUpdate) (now : Z)
  (current_user : User.t) (db : Db) : result User.t * Db :=
  let old_values : gmap string json :=
    {[ "email" := JStr (User.email current_user);
       "username" := JStr (User.username current_user) ]} in
  match pending ← change_if_free (uu_email user_update) User.email set_email
                    "Email already registered" (User.email current_user)
                    db current_user;
        change_if_free (uu_username user_update) User.username set_username
          "Username already taken" (User.username current_user) db pending with
  | Raise e => (Raise e, db)
  | Ok new =>
      let '(user, db') := commit_user now current_user new db in
      (Ok user,
       log_action now (User.id user) "USER_PROFILE_UPDATED" None
         (Some old_values)
         (Some {[ "email" := JStr (User.email user);
                  "username" := JStr (User.username user) ]}) db')
  end.


(** [GET /api/users/{user_id}] *)
Definition get_user_by_id (user_id : Z) (admin_user : User.t) (db : Db)
  : result User.t * Db :=
  match query_first (λ u, User.id u = user_id) (users db) with
  | None => (Raise (HTTPException HTTP_404_NOT_FOUND "User not found"), db)
  | Some user => (Ok user, db)
  end.

(** [RefreshToken.user_id == user_id, RefreshToken.is_revoked == False] *)
Definition active_token_of (user_id : Z) (r : RefreshToken.t) : Prop :=
  RefreshToken.user_id r = user_id ∧ RefreshToken.is_revoked r = false.

#[global] Instance active_token_of_dec user_id r :
  Decision (active_token_of user_id r).
Proof. unfold active_token_of. apply _. Defined.

(** [GET /api/users/{user_id}/refresh-tokens] *)
Definition get_user_refresh_tokens (user_id : Z) (admin_user : User.t)
  (db : Db) : result UserTokens * Db :=
  match query_first (λ u, User.id u = user_id) (users db) with
  | None => (Raise (HTTPException HTTP_404_NOT_FOUND "User not found"), db)
  | Some user =>
      let tokens := filter (active_token_of user_id) (refresh_tokens db) in
      (Ok {| ut_user_id := user_id;
             active_tokens := length tokens;
             ut_tokens :=
               (λ token, {| ti_id := RefreshToken.id token;
                            ti_created_at := RefreshToken.created_at token;
                            ti_expires_at := RefreshToken.expires_at token |})
                 <$> tokens |}, db)
  end.

(** [DELETE /api/users/{user_id}/refresh-tokens] *)
Definition revoke_user_tokens (user_id : Z) (now : Z) (admin_user : User.t)
  (db : Db) : result string * Db :=
  match query_first (λ u, User.id u = user_id) (users db) with
  | None => (Raise (HTTPException HTTP_404_NOT_FOUND "User not found"), db)
  | Some user =>
      let tokens := filter (active_token_of user_id) (refresh_tokens db) in
      let rows := update_selected (active_token_of user_id) revoke
                    (refresh_tokens db) in
      (Ok ("Revoked " +:+ pretty (length tokens) +:+ " tokens for user "
             +:+ pretty user_id),
       log_action now (User.id admin_user) "USER_TOKENS_REVOKED" None None
         (Some {[ "target_user_id" := JInt user_id;
                  "tokens_revoked" := JInt (Z.of_nat (length tokens)) ]})
         (set_refresh_tokens db rows))
  end.

(** ** Task creation ([app/api/tasks.py]) *)

(** [if task_data.assigned_user_id:] with the lookup that follows: a truthy
    id that no user has. *)
Definition assignee_missing (assigned : option Z) (db : Db) : Prop :=
  match truthy_int assigned with
  | Some a => query_first (λ u, User.id u = a) (users db) = None
  | None => False
  end.

#[global] Instance assignee_missing_dec assigned db :
  Decision (assignee_missing assigned db).
Proof. unfold assignee_missing. destruct (truthy_int assigned); apply _. Defined.

(** [db.add(task); db.commit()]: the store checks the foreign key of a
    non-null [assigned_user_id]. *)
Definition add_task (task : Task.t) (db : Db) : result Db :=
  match Task.assigned_user_id task with
  | Some a =>
      if decide (a ∉ User.id <$> users db) then Raise IntegrityError
      else Ok (set_tasks db (tasks db ++ [task]))
  | None => Ok (set_tasks db (tasks db ++ [task]))
  end.

(** [POST /api/tasks/] *)
Definition create_task (task_data : TaskCreate) (now : Z)
  (current_user : User.t) (db : Db) : result Task.t * Db :=
  if decide (assignee_missing (tc_assigned_user_id task_data) db)
  then (Raise (HTTPException HTTP_400_BAD_REQUEST "Assigned user not found"), db)
  else
    let task :=
      Task.mk (fresh_id (Task.id <$> tasks db)) (tc_title task_data)
        (tc_description task_data) (tc_status task_data)
        (tc_priority task_data) (tc_due_date task_data)
        (tc_assigned_user_id task_data) (User.id current_user) now now false in
    match add_task task db with
    | Raise e => (Raise e, db)
    | Ok db' =>
        (Ok task,
         log_action now (User.id current_user) "TASK_CREATED"
           (Some (Task.id task)) None
           (Some {[ "title" := JStr (Task.title task);
                    "status" := JStr (TaskStatus_value (Task.status task));
                    "priority" := JStr (TaskPriority_value (Task.priority task));
                    "assigned_user_id" :=
                      json_opt JInt (Task.assigned_user_id task) ]}) db')
    end.

(** ** More of the admin routes ([app/api/admin.py]) *)



(** [cast(AuditLog.new_values, JSONB).contains({"status": "done"})]; a null
    column contains nothing. *)
Definition marks_done (a : AuditLog.t) : Prop :=
  match AuditLog.new_values a with
  | Some values => values !! "status" = Some (JStr "done")
  | None => False
  end.

#[global] Instance json_eq_dec : EqDecision json.
Proof. solve_decision. Defined.

#[global] Instance marks_done_dec a : Decision (marks_done a).
Proof. unfold marks_done. destruct (AuditLog.new_values a); apply _. Defined.

(** [activity_breakdown[action] = activity_breakdown.get(action, 0) + 1] *)
Definition count_action (breakdown : gmap string nat) (activity : AuditLog.t)
  : gmap string nat :=
  <[AuditLog.action activity :=
      (default 0%nat (breakdown !! AuditLog.action activity) + 1)%nat]> breakdown.

(** [GET /api/admin/user-activity/{user_id}] *)
Definition get_user_activity (user_id : Z) (days : Z) (now : Z)
  (admin_user : User.t) (db : Db) : result UserActivity * Db :=
  match query_first (λ u, User.id u = user_id) (users db) with
  | None => (Raise (HTTPException HTTP_404_NOT_FOUND "User not found"), db)
  | Some user =>
      let start_date := now - timedelta_days days in
      let activities :=
        filter (λ a, AuditLog.user_id a = user_id
                     ∧ start_date ≤ AuditLog.timestamp a) (audit_logs db) in
      let tasks_created :=
        length (filter (λ t, Task.created_by t = user_id
                             ∧ start_date ≤ Task.created_at t) (tasks db)) in
      let tasks_completed :=
        length (filter (λ a, AuditLog.user_id a = user_id
                             ∧ AuditLog.action a = "TASK_UPDATED"
                             ∧ start_date ≤ AuditLog.timestamp a
                             ∧ marks_done a) (audit_logs db)) in
      let activity_breakdown := foldl count_action ∅ activities in
      (Ok {| ua_user_id := user_id; ua_username := User.username user;
             period_days := days; total_activities := length activities;
             tasks_created := tasks_created; tasks_completed := tasks_completed;
             activity_breakdown := activity_breakdown |}, db)
  end.

End Routes.

(** ** Vocabulary of the further statements *)

Section Vocabulary.
Context (settings : Settings) `{Externals}.

(** The expiry [create_access_token] writes: the given lifetime, or the
    configured one when none is given or the given one is zero. *)
Definition access_expiry (expires_delta : option Z) (now : Z) : Z :=
  match expires_delta with
  | Some d => if decide (d = 0)
              then now + 60 * jwt_access_token_expire_minutes settings
              else now + d
  | None => now + 60 * jwt_access_token_expire_minutes settings
  end.

Definition refresh_expiry (now : Z) : Z :=
  now + 86400 * jwt_refresh_token_expire_days settings.

(** The library accepts, under the configured key and algorithm, the token
    it made of [claims]. *)
Definition signs_and_verifies (claims : Claims) : Prop :=
  jws_verify (jws_sign claims (jwt_secret_key settings) (jwt_algorithm settings))
    (jwt_secret_key settings) (jwt_algorithm settings) = Some claims.

(** The address or the name of the request is already held by a user. *)
Definition account_taken (user_data : RegisterRequest) (db : Db) : Prop :=
  ∃ u, u ∈ users db
       ∧ (User.email u = reg_email user_data
          ∨ User.username u = reg_username user_data).




(** The two constraints the store keeps on [tasks]: the primary key, and
    the foreign key from [assigned_user_id] to [users]. *)
Definition tasks_consistent (db : Db) : Prop :=
  NoDup (Task.id <$> tasks db)
  ∧ ∀ t a, t ∈ tasks db → Task.assigned_user_id t = Some a →
           a ∈ User.id <$> users db.



(** [sum(activity_breakdown.values())] *)
Definition breakdown_total (m : gmap string nat) : nat :=
  map_fold (λ _ n acc, (n + acc)%nat) 0%nat m.

(** One audit row was appended to [db], with an id no stored row has. *)
Definition logs_one (now : Z) (user_id : Z) (action : string)
  (task_id : option Z) (db db' : Db) : Prop :=
  ∃ row,
    audit_logs db' = audit_logs db ++ [row]
    ∧ (AuditLog.id row ∉ AuditLog.id <$> audit_logs db)
    ∧ AuditLog.user_id row = user_id
    ∧ AuditLog.action row = action
    ∧ AuditLog.task_id row = task_id
    ∧ AuditLog.timestamp row = now.


End Vocabulary.

(** ** A concrete instance of the library boundary

    Used to run the handlers on concrete requests.  A token is its three
    claims and the key, separated by spaces; an absent claim is written
    [~]. *)
Module Fixture.

Fixpoint parse_digits (s : string) (acc : Z) : option Z :=
  match s with
  | EmptyString => Some acc
  | String c s' =>
      let n := Z.of_N (Ascii.N_of_ascii c) - 48 in
      if decide (0 ≤ n ≤ 9) then parse_digits s' (10 * acc + n) else None
  end.

Definition parse_Z (s : string) : option Z :=
  match s with
  | EmptyString => None
  | String "-"%char EmptyString => None
  | String "-"%char s' => Z.opp <$> parse_digits s' 0
  | _ => parse_digits s 0
  end.

Definition field (o : option string) : string :=
  match o with Some s => "=" +:+ s | None => "~" end.

Definition unfield (s : string) : option (option string) :=
  match s with
  | String "~"%char EmptyString => Some None
  | String "="%char s' => Some (Some s')
  | _ => None
  end.

Definition sign (c : Claims) (key alg : string) : string :=
  field (sub c) +:+ " " +:+ field (pretty <$> exp c) +:+ " "
    +:+ field (type c) +:+ " " +:+ key.

Definition verify (token key alg : string) : option Claims :=
  match String.words token with
  | [s; e; t; k] =>
      if decide (k = key) then
        s' ← unfield s; e' ← unfield e; t' ← unfield t;
        match e' with
        | None => Some {| sub := s'; exp := None; type := t' |}
        | Some d => n ← parse_Z d; Some {| sub := s'; exp := Some n; type := t' |}
        end
      else None
  | _ => None
  end.

Definition externals : Externals :=
  {| jws_sign := sign;
     jws_verify := verify;
     pwd_verify := λ plain hashed, bool_decide (hashed = "bcrypt:" +:+ plain);
     py_int := parse_Z;
     sql_integer := parse_Z;
     sql_ilike := λ column pattern, bool_decide (pattern = "%" +:+ column +:+ "%");
     isoformat := pretty |}.

Definition alice : User.t :=
  User.mk 1 "alice@example.com" "alice" "bcrypt:wonderland" USER true 0 0.
Definition bob : User.t :=
  User.mk 2 "bob@example.com" "bob" "bcrypt:builder" USER false 0 0.
Definition root : User.t :=
  User.mk 3 "root@example.com" "root" "bcrypt:toor" ADMIN true 0 0.

Definition task1 : Task.t :=
  Task.mk 1 "write" (Some "draft") TODO HIGH (Some 500) (Some 1) 1 10 10 false.
Definition task2 : Task.t :=
  Task.mk 2 "review" None IN_PROGRESS LOW None (Some 3) 3 20 20 false.
Definition task3 : Task.t :=
  Task.mk 3 "archive" (Some "old") DONE MEDIUM None (Some 1) 1 30 30 true.

(** Alice's refresh token, issued at time 100 with the default settings. *)
Definition alice_refresh : string :=
  create_refresh_token default_settings (H := externals) (sub_claims 1) 100.

Definition db0 : Db :=
  {| users := [alice; bob; root];
     tasks := [task1; task2; task3];
     refresh_tokens :=
       [RefreshToken.mk 1 alice_refresh 1 (100 + timedelta_days 7) false 100 None];
     audit_logs := [] |}.

(** Alice's access token, issued at time 100: it expires at time 1000. *)
Definition alice_access : string :=
  create_access_token default_settings (H := externals) (sub_claims 1) None 100.

(** A refresh-token lifetime of thirty days instead of the default seven. *)
Definition thirty_days : Settings :=
  {| jwt_secret_key := jwt_secret_key default_settings;
     jwt_algorithm := jwt_algorithm default_settings;
     jwt_access_token_expire_minutes := 15;
     jwt_refresh_token_expire_days := 30 |}.

End Fixture.

(** A stand-in for [pwd_context.hash] whose hashes [Fixture.externals]
    verifies. *)
Definition fixture_pwd_hash (salt plain : string) : string :=
  "bcrypt:" +:+ plain.

(** Alice's request to log in, and a request for a new account. *)
Definition alice_login : LoginRequest :=
  {| login_email := "alice@example.com"; login_password := "wonderland" |}.
Definition carol_register : RegisterRequest :=
  {| reg_email := "carol@example.com"; reg_username := "carol";
     reg_password := "secret" |}.

Example fixture_token :
  Fixture.alice_refresh = "=1 =604900 =refresh your-super-secret-jwt-key-change-this-in-production".
Proof. vm_compute. reflexivity. Qed.

Example fixture_verify :
  verify_token default_settings (H := Fixture.externals) Fixture.alice_refresh "refresh" 200
  = Ok {| sub := Some "1"; exp := Some 604900; type := Some "refresh" |}.
Proof. vm_compute. reflexivity. Qed.

(** Closed decidable goals, by evaluation. *)
Ltac by_compute :=
  match goal with |- ?P => apply (bool_decide_unpack P); vm_compute; exact I end.

(** * Properties *)

Section Properties.
Context (settings : Settings) `{Externals}.

Implicit Types (db : Db) (now : Z) (token credentials : string).

(** ** Token verification and the guards *)

Lemma jwt_decode_None token now :
  jwt_decode settings token now = None
  ↔ signature_invalid settings token ∨ exp_in_past settings token now.
Proof.
  unfold jwt_decode, signature_invalid, exp_in_past.
  destruct (jws_verify _ _ _) as [payload|]; [|by split; auto].
  destruct (exp payload) as [e|] eqn:He.
  - case_decide as Hlt.
    + split; [intros _|done]. right. by exists payload, e.
    + split; [done|]. intros [?|(p & e' & [= <-] & He' & ?)]; [done|].
      rewrite He in He'. injection He' as <-. lia.
  - split; [done|]. intros [?|(p & e' & [= <-] & He' & ?)]; [done|].
    congruence.
Qed.

Lemma jwt_decode_Some token now payload :
  jwt_decode settings token now = Some payload →
  jws_verify token (jwt_secret_key settings) (jwt_algorithm settings)
    = Some payload.
Proof.
  unfold jwt_decode. destruct (jws_verify _ _ _) as [p|]; [|done].
  destruct (exp p); [case_decide|]; congruence.
Qed.

Lemma verify_token_cases token token_type now :
  (∃ payload, verify_token settings token token_type now = Ok payload
              ∧ jwt_decode settings token now = Some payload
              ∧ type payload = Some token_type)
  ∨ (∃ detail, verify_token settings token token_type now
             = Raise (HTTPException HTTP_401_UNAUTHORIZED detail)
       ∧ (jwt_decode settings token now = None
          ∨ ∃ payload, jwt_decode settings token now = Some payload
                       ∧ type payload ≠ Some token_type)).
Proof.
  unfold verify_token. destruct (jwt_decode _ _ _) as [payload|] eqn:Hd.
  - case_decide as Hty.
    + right. eauto 10.
    + left. exists payload. split_and!; [done..|].
      by destruct (decide (type payload = Some token_type)).
  - right. eauto.
Qed.

Lemma verify_token_expired token token_type now :
  exp_in_past settings token now →
  verify_token settings token token_type now
  = Raise (HTTPException HTTP_401_UNAUTHORIZED "Could not validate credentials").
Proof.
  intros Hexp. unfold verify_token.
  by rewrite (proj2 (jwt_decode_None token now) (or_intror Hexp)).
Qed.

Lemma get_current_user_Ok credentials now db user :
  get_current_user settings credentials now db = Ok user →
  User.is_active user = true ∧ user ∈ users db.
Proof.
  unfold get_current_user, query_first.
  destruct (verify_token _ _ _ _) as [payload|]; simpl; [|done].
  destruct (sub payload); [|done].
  destruct (sql_integer _); [|done].
  destruct (head _) as [u|] eqn:Hhd; [|done].
  destruct (User.is_active u) eqn:Hact; simpl; [|done].
  intros [= <-]. split; [done|].
  apply head_Some_elem_of in Hhd. by apply list_elem_of_filter in Hhd as [_ ?].
Qed.

Lemma get_current_active_user_eq credentials now db :
  get_current_active_user settings credentials now db
  = get_current_user settings credentials now db.
Proof.
  unfold get_current_active_user.
  destruct (get_current_user _ _ _ _) as [user|] eqn:Hu; simpl; [|done].
  apply get_current_user_Ok in Hu as [Hact _].
  unfold active_user_check. by rewrite Hact.
Qed.

Lemma guards_expired credentials now db :
  exp_in_past settings credentials now →
  let e := HTTPException HTTP_401_UNAUTHORIZED "Could not validate credentials" in
  get_current_user settings credentials now db = Raise e
  ∧ get_current_active_user settings credentials now db = Raise e
  ∧ get_admin_user settings credentials now db = Raise e
  ∧ ∀ roles, require_roles settings roles credentials now db = Raise e.
Proof.
  intros Hexp e.
  assert (get_current_user settings credentials now db = Raise e) as Hu.
  { unfold get_current_user. by rewrite verify_token_expired. }
  assert (get_current_active_user settings credentials now db = Raise e) as Ha.
  { by rewrite get_current_active_user_eq. }
  split_and!; [done..| |].
  - unfold get_admin_user. by rewrite Ha.
  - intros roles. unfold require_roles. by rewrite Ha.
Qed.

(** C4. [verify_token] either returns the decoded claim map or raises an
    Unauthorized error; it raises exactly when the signature is invalid,
    the [exp] claim is in the past, or the [type] claim differs from the
    expected type.  Consequently a token whose [exp] claim is in the past
    is answered with Unauthorized by every guard, and by every endpoint
    that depends on one, whatever its handler, without any change of
    state. *)
Theorem verify_token_unauthorized_iff token token_type now :
  (raises_status (verify_token settings token token_type now)
     HTTP_401_UNAUTHORIZED
   ↔ signature_invalid settings token
     ∨ exp_in_past settings token now
     ∨ type_differs settings token token_type)
  ∧ (raises_status (verify_token settings token token_type now)
       HTTP_401_UNAUTHORIZED
     ∨ ∃ payload,
         jws_verify token (jwt_secret_key settings) (jwt_algorithm settings)
           = Some payload
         ∧ verify_token settings token token_type now = Ok payload)
  ∧ (exp_in_past settings token now →
     ∀ db guard,
       guard ∈ [get_current_user settings; get_current_active_user settings;
                get_admin_user settings]
       ∨ (∃ roles, guard = require_roles settings roles) →
       raises_status (guard token now db) HTTP_401_UNAUTHORIZED
       ∧ ∀ A (handler : User.t → Db → result A * Db),
           raises_status (Depends guard handler token now db).1
             HTTP_401_UNAUTHORIZED
           ∧ (Depends guard handler token now db).2 = db).
Proof.
  split_and!.
  - destruct (verify_token_cases token token_type now)
      as [(payload & -> & Hd & Hty)|(detail & -> & Hwhy)]; simpl.
    + split; [done|]. intros [Hs|[He|(p & Hp & Hne)]].
      * apply jwt_decode_Some in Hd. unfold signature_invalid in Hs. congruence.
      * assert (jwt_decode settings token now = None) by (apply jwt_decode_None; auto).
        congruence.
      * apply jwt_decode_Some in Hd. congruence.
    + split; [intros _|done].
      destruct Hwhy as [Hnone|(payload & Hd & Hne)].
      * apply jwt_decode_None in Hnone. tauto.
      * right; right. exists payload. split; [|done]. by apply (jwt_decode_Some token now).
  - destruct (verify_token_cases token token_type now)
      as [(payload & -> & Hd & Hty)|(detail & -> & Hwhy)]; simpl.
    + right. exists payload. split; [|done]. by apply (jwt_decode_Some token now).
    + by left.
  - intros Hexp db guard Hguard.
    destruct (guards_expired token now db Hexp) as (Hu & Ha & Hadm & Hroles).
    assert (guard token now db
            = Raise (HTTPException HTTP_401_UNAUTHORIZED
                       "Could not validate credentials")) as Hg.
    { destruct Hguard as [Hin|[roles ->]]; [|apply Hroles].
      repeat (apply elem_of_cons in Hin as [->|Hin]; [done|]).
      by apply elem_of_nil in Hin. }
    split; [by rewrite Hg|]. intros A handler.
    unfold Depends. by rewrite Hg.
Qed.

(** C10. The "Inactive user" branch of [get_current_active_user] is
    unreachable: a user [get_current_user] returns is active, so the
    check returns that user unchanged and the guard never answers with
    that Bad Request; an absent or an inactive account is answered with
    Unauthorized by [get_current_user] itself. *)
Theorem inactive_user_branch_unreachable credentials now db :
  (∀ user,
     get_current_user settings credentials now db = Ok user →
     User.is_active user = true
     ∧ active_user_check user = Ok user
     ∧ get_current_active_user settings credentials now db = Ok user)
  ∧ get_current_active_user settings credentials now db
    ≠ Raise (HTTPException HTTP_400_BAD_REQUEST "Inactive user")
  ∧ (∀ payload user_id uid,
       verify_token settings credentials "access" now = Ok payload →
       sub payload = Some user_id →
       sql_integer user_id = Some uid →
       query_first (λ u, User.id u = uid) (users db) = None
       ∨ (∃ user, query_first (λ u, User.id u = uid) (users db) = Some user
                  ∧ User.is_active user = false) →
       get_current_user settings credentials now db
       = Raise (HTTPException HTTP_401_UNAUTHORIZED "User not found or inactive")).
Proof.
  split_and!.
  - intros user Hu. pose proof (get_current_active_user_eq credentials now db) as Heq.
    rewrite Hu in Heq. apply get_current_user_Ok in Hu as [Hact _].
    unfold active_user_check. by rewrite Hact.
  - rewrite get_current_active_user_eq. unfold get_current_user.
    destruct (verify_token_cases credentials "access" now)
      as [(payload & -> & _)|(detail & -> & _)]; simpl; [|done].
    repeat case_match; done.
  - intros payload user_id uid Hv Hsub Hint Hrow.
    unfold get_current_user. rewrite Hv. simpl. rewrite Hsub, Hint.
    destruct Hrow as [-> | (user & -> & ->)]; done.
Qed.

(** ** Login *)

(** C5. A login for which no user matches the email, or the password
    check fails, or the matched account is inactive, raises Unauthorized:
    no token response is returned, no cookie is set and the state is the
    one it was given, so no [RefreshToken] or [AuditLog] row is
    created. *)
Theorem login_rejected_unchanged (user_data : LoginRequest) now db :
  query_first (λ u, User.email u = login_email user_data) (users db) = None
  ∨ (∃ user,
       query_first (λ u, User.email u = login_email user_data) (users db)
       = Some user
       ∧ (pwd_verify (login_password user_data) (User.hashed_password user)
          = false
          ∨ User.is_active user = false)) →
  ∃ detail,
    login settings user_data now db
    = (Raise (HTTPException HTTP_401_UNAUTHORIZED detail), None, db).
Proof.
  unfold login. intros [-> | (user & -> & Hwhy)]; [by eauto|].
  destruct (pwd_verify _ _); simpl; [|by eauto].
  destruct Hwhy as [? | Hact]; [done|]. rewrite Hact. simpl. eauto.
Qed.

(** What a successful login stores and sets: one new row, not revoked,
    expiring seven days after [now] whatever the settings say, and a
    cookie of 604800 seconds. *)
Lemma login_success (user_data : LoginRequest) now db resp cookie db' :
  login settings user_data now db = (Ok resp, cookie, db') →
  ∃ user row,
    query_first (λ u, User.email u = login_email user_data) (users db) = Some user
    ∧ refresh_tokens db' = refresh_tokens db ++ [row]
    ∧ RefreshToken.token row
      = create_refresh_token settings (sub_claims (User.id user)) now
    ∧ RefreshToken.user_id row = User.id user
    ∧ RefreshToken.is_revoked row = false
    ∧ RefreshToken.expires_at row = now + 7 * 86400
    ∧ cookie = Some (refresh_cookie (RefreshToken.token row))
    ∧ max_age (refresh_cookie (RefreshToken.token row)) = 604800.
Proof.
  unfold login. destruct (query_first _ _) as [user|]; [|done].
  destruct (negb (pwd_verify _ _)); [done|].
  destruct (negb (User.is_active user)); [done|].
  unfold add_refresh_token. case_decide; [done|].
  intros [= <- <- <-]. eexists user, _. split_and!; reflexivity.
Qed.

(** ** Refresh-token rotation *)

(** A table keyed by a unique column holds one row per key. *)
Lemma unique_key_lookup {A K} (f : A → K) (l : list A) i j x y :
  NoDup (f <$> l) → l !! i = Some x → l !! j = Some y → f x = f y → i = j.
Proof.
  intros Hnd Hi Hj Hf. apply (NoDup_lookup (f <$> l) i j (f x) Hnd).
  - by rewrite list_lookup_fmap, Hi.
  - by rewrite list_lookup_fmap, Hj, Hf.
Qed.

Lemma revoke_keeps_tokens (rows : list RefreshToken.t) i old new :
  rows !! i = Some old →
  RefreshToken.token <$> <[i := set_replaced_by_token (revoke old) new]> rows
  = RefreshToken.token <$> rows.
Proof.
  intros Hi. rewrite list_fmap_insert. apply list_insert_id.
  by rewrite list_lookup_fmap, Hi.
Qed.

(** The shape of a successful refresh. *)
Lemma refresh_token_success refresh_data now db resp cookie db' :
  refresh_token settings refresh_data now db = (Ok resp, cookie, db') →
  ∃ payload user_id i old,
    verify_token settings refresh_data "refresh" now = Ok payload
    ∧ sub_user_id payload = Ok user_id
    ∧ refresh_tokens db !! i = Some old
    ∧ usable_row refresh_data user_id now old
    ∧ (∀ j r, refresh_tokens db !! j = Some r → (j < i)%nat →
              ¬ usable_row refresh_data user_id now r)
    ∧ (create_refresh_token settings (sub_claims user_id) now
       ∉ RefreshToken.token <$> refresh_tokens db)
    ∧ db' = set_refresh_tokens db
              (<[i := set_replaced_by_token (revoke old)
                        (create_refresh_token settings (sub_claims user_id) now)]>
                 (refresh_tokens db)
               ++ [RefreshToken.mk (fresh_id (RefreshToken.id <$> refresh_tokens db))
                     (create_refresh_token settings (sub_claims user_id) now)
                     user_id (now + timedelta_days 7) false now None])
    ∧ cookie = Some (refresh_cookie
                       (create_refresh_token settings (sub_claims user_id) now)).
Proof.
  unfold refresh_token.
  destruct (verify_token _ _ _ _) as [payload|] eqn:Hv; simpl; [|done].
  destruct (sub_user_id payload) as [user_id|] eqn:Hs; [|done].
  destruct (list_find _ _) as [[i old]|] eqn:Hfind; [|done].
  apply list_find_Some in Hfind as (Hi & Hok & Hfirst).
  unfold add_refresh_token. case_decide as Hdup; [done|].
  rewrite (revoke_keeps_tokens _ _ _ _ Hi) in Hdup.
  intros [= <- <- <-]. by exists payload, user_id, i, old.
Qed.

(** C1. A successful refresh presented a token that verifies as type
    [refresh] and whose stored row exists, belongs to the subject, is not
    revoked and is unexpired.  It rewrites that one row, in place, to
    revoked with [replaced_by_token] the new token, leaves every other
    row as it was, and appends one row, not revoked, for the new token;
    a later refresh with the consumed token is answered with
    Unauthorized. *)
Theorem refresh_token_rotation refresh_data now db resp cookie db' :
  NoDup (RefreshToken.token <$> refresh_tokens db) →
  refresh_token settings refresh_data now db = (Ok resp, cookie, db') →
  ∃ payload user_id i old new,
    verify_token settings refresh_data "refresh" now = Ok payload
    ∧ type payload = Some "refresh"
    ∧ sub_user_id payload = Ok user_id
    ∧ refresh_tokens db !! i = Some old
    ∧ usable_row refresh_data user_id now old
    ∧ refresh_tokens db'
      = (<[i := RefreshToken.mk (RefreshToken.id old) refresh_data user_id
                  (RefreshToken.expires_at old) true (RefreshToken.created_at old)
                  (Some (RefreshToken.token new))]> (refresh_tokens db)) ++ [new]
    ∧ RefreshToken.token new
      = create_refresh_token settings (sub_claims user_id) now
    ∧ (RefreshToken.token new ∉ RefreshToken.token <$> refresh_tokens db)
    ∧ RefreshToken.user_id new = user_id
    ∧ RefreshToken.is_revoked new = false
    ∧ users db' = users db ∧ tasks db' = tasks db
    ∧ audit_logs db' = audit_logs db
    ∧ ∀ now2, ∃ detail,
        refresh_token settings refresh_data now2 db'
        = (Raise (HTTPException HTTP_401_UNAUTHORIZED detail), None, db').
Proof.
  intros Hnd Hok.
  apply refresh_token_success in Hok
    as (payload & user_id & i & old & Hv & Hs & Hi & Huse & _ & Hfresh & -> & _).
  destruct Huse as (Htok & Huid & Hrev & Hexp).
  exists payload, user_id, i, old,
    (RefreshToken.mk (fresh_id (RefreshToken.id <$> refresh_tokens db))
       (create_refresh_token settings (sub_claims user_id) now)
       user_id (now + timedelta_days 7) false now None).
  split_and!; try done.
  - destruct (verify_token_cases refresh_data "refresh" now)
      as [(p & Hp & _ & Hty)|(d & Hd & _)]; congruence.
  - simpl. do 2 f_equal. unfold set_replaced_by_token, revoke. simpl.
    by rewrite Htok, Huid.
  - intros now2. unfold refresh_token.
    destruct (_ ← verify_token _ _ _ _; _) as [user_id2|]; [|by eauto].
    match goal with |- context [list_find ?P ?l] =>
      assert (list_find P l = None) as ->; [|by eauto] end.
    apply list_find_None, Forall_forall. intros r Hr (Hrtok & _ & Hrrev & _).
    simpl in Hr. apply elem_of_app in Hr as [Hr|Hr].
    + apply list_elem_of_lookup in Hr as [j Hj].
      apply list_lookup_insert_Some in Hj as [(_ & <- & _)|(Hne & Hj)].
      * done.
      * apply Hne. eapply (unique_key_lookup RefreshToken.token); eauto.
        congruence.
    + apply list_elem_of_singleton in Hr as ->. simpl in Hrtok.
      apply Hfresh. rewrite Hrtok, <- Htok.
      apply list_elem_of_fmap. exists old. split; [done|].
      by eapply list_elem_of_lookup_2.
Qed.

(** ** Task visibility *)

Lemma filter_if_elem_of {A B} (param : option B) (P : B → A → Prop)
  `{∀ b x, Decision (P b x)} (query : list A) x :
  x ∈ filter_if param (λ b, filter (P b)) query → x ∈ query.
Proof.
  destruct param as [b|]; simpl; [|done].
  rewrite list_elem_of_filter. tauto.
Qed.

(** Every row the query of [list_tasks] selects is a stored row that is not
    deleted, and for a caller who is not an administrator one the caller
    created or is assigned to. *)
Lemma list_tasks_query_elem_of (q : TaskQuery) current_user rows t :
  t ∈ list_tasks_query q current_user rows →
  t ∈ rows
  ∧ Task.is_deleted t = false
  ∧ (User.role current_user ≠ ADMIN → own_or_assigned current_user t).
Proof.
  unfold list_tasks_query. intros Ht.
  apply (filter_if_elem_of _ matches_search) in Ht.
  apply (filter_if_elem_of _ due_to) in Ht.
  apply (filter_if_elem_of _ due_from) in Ht.
  apply (filter_if_elem_of _ (λ c t, Task.created_by t = c)) in Ht.
  apply (filter_if_elem_of _ (λ a t, Task.assigned_user_id t = Some a)) in Ht.
  apply (filter_if_elem_of _ (λ p t, Task.priority t = p)) in Ht.
  apply (filter_if_elem_of _ (λ s t, Task.status t = s)) in Ht.
  case_decide as Hrole.
  - apply list_elem_of_filter in Ht as [Hown Ht].
    apply list_elem_of_filter in Ht as [Hdel Ht]. done.
  - apply list_elem_of_filter in Ht as [Hdel Ht]. done.
Qed.

Lemma list_tasks_elem_of (q : TaskQuery) current_user db resp db' t :
  list_tasks q current_user db = (Ok resp, db') →
  t ∈ tl_tasks resp →
  t ∈ list_tasks_query q current_user (tasks db).
Proof.
  intros [= <- <-]. simpl. intros Ht. apply subseteq_take, subseteq_drop in Ht.
  by rewrite merge_sort_Permutation in Ht.
Qed.

(** C2. For a caller who is not an administrator, whatever the filters
    and the paging, [list_tasks] answers with a list in which every task
    was created by the caller or is assigned to the caller. *)
Theorem list_tasks_own_or_assigned (q : TaskQuery) current_user db :
  User.role current_user ≠ ADMIN →
  ∃ resp,
    list_tasks q current_user db = (Ok resp, db)
    ∧ ∀ t, t ∈ tl_tasks resp →
           t ∈ tasks db
           ∧ (Task.created_by t = User.id current_user
              ∨ Task.assigned_user_id t = Some (User.id current_user)).
Proof.
  intros Hrole. eexists. split; [reflexivity|]. intros t Ht.
  eapply list_tasks_elem_of in Ht; [|reflexivity].
  apply list_tasks_query_elem_of in Ht as (Hin & _ & Hown).
  split; [done|]. exact (Hown Hrole).
Qed.

Lemma find_task_deleted (rows : list Task.t) t :
  NoDup (Task.id <$> rows) → t ∈ rows → Task.is_deleted t = true →
  find_task (Task.id t) rows = None.
Proof.
  intros Hnd Hin Hdel. apply list_find_None, Forall_forall.
  intros r Hr [Hid Hlive].
  apply list_elem_of_lookup in Hin as [i Hi].
  apply list_elem_of_lookup in Hr as [j Hj].
  assert (i = j) as <- by (eapply (unique_key_lookup Task.id); eauto).
  congruence.
Qed.

(** The handlers on a soft-deleted task, run for any user: the task is in
    no answer of [list_tasks] or of [get_tasks_assigned_to_user], and
    reading, updating, deleting or assigning it raises Not Found; each of
    these leaves the state. *)
Lemma soft_deleted_task_handlers db t :
  NoDup (Task.id <$> tasks db) →
  t ∈ tasks db →
  Task.is_deleted t = true →
  ∀ (caller : User.t) now,
    (∀ q, ∃ resp, list_tasks q caller db = (Ok resp, db) ∧ t ∉ tl_tasks resp)
    ∧ (∀ user_id,
         (get_tasks_assigned_to_user user_id caller db).2 = db
         ∧ ∀ resp, (get_tasks_assigned_to_user user_id caller db).1 = Ok resp →
                   t ∉ at_tasks resp)
    ∧ get_task (Task.id t) caller db
      = (Raise (HTTPException HTTP_404_NOT_FOUND "Task not found"), db)
    ∧ (∀ task_update,
         update_task (Task.id t) task_update now caller db
         = (Raise (HTTPException HTTP_404_NOT_FOUND "Task not found"), db))
    ∧ delete_task (Task.id t) now caller db
      = (Raise (HTTPException HTTP_404_NOT_FOUND "Task not found"), db)
    ∧ (∀ user_id,
         assign_task (Task.id t) user_id now caller db
         = (Raise (HTTPException HTTP_404_NOT_FOUND "Task not found"), db)).
Proof.
  intros Hnd Hin Hdel caller now.
  pose proof (find_task_deleted _ _ Hnd Hin Hdel) as Hfind.
  split_and!.
  - intros q. eexists. split; [reflexivity|]. intros Ht.
    eapply list_tasks_elem_of in Ht; [|reflexivity].
    apply list_tasks_query_elem_of in Ht as (_ & Hlive & _). congruence.
  - intros user_id. unfold get_tasks_assigned_to_user.
    destruct (query_first _ _); simpl; [|done]. split; [done|].
    intros resp [= <-]. simpl. rewrite list_elem_of_filter.
    intros [[_ Hlive] _]. congruence.
  - unfold get_task. by rewrite Hfind.
  - intros task_update. unfold update_task. by rewrite Hfind.
  - unfold delete_task. by rewrite Hfind.
  - intros user_id. unfold assign_task. by rewrite Hfind.
Qed.

Lemma Depends_raises {A} (guard : string → Z → Db → result User.t)
  (handler : User.t → Db → result A * Db) (r : result A)
  credentials now db :
  (∀ user, handler user db = (r, db)) →
  Depends guard handler credentials now db
  = (match guard credentials now db with
     | Ok _ => r
     | Raise e => Raise e
     end, db).
Proof.
  intros Hh. unfold Depends.
  destruct (guard credentials now db); [apply Hh|done].
Qed.

(** Behind their guards the four routes answer a soft-deleted task with the
    exception of the guard or with Not Found, and leave the state. *)
Lemma soft_deleted_task_routes db t credentials now :
  NoDup (Task.id <$> tasks db) →
  t ∈ tasks db →
  Task.is_deleted t = true →
  route_get_task settings (Task.id t) credentials now db
  = (match get_current_active_user settings credentials now db with
     | Ok _ => task_not_found
     | Raise e => Raise e
     end, db)
  ∧ (∀ task_update,
       route_update_task settings (Task.id t) task_update credentials now db
       = (match get_current_active_user settings credentials now db with
          | Ok _ => task_not_found
          | Raise e => Raise e
          end, db))
  ∧ route_delete_task settings (Task.id t) credentials now db
    = (match get_current_active_user settings credentials now db with
       | Ok _ => task_not_found
       | Raise e => Raise e
       end, db)
  ∧ (∀ user_id,
       route_assign_task settings (Task.id t) user_id credentials now db
       = (match get_admin_user settings credentials now db with
          | Ok _ => task_not_found
          | Raise e => Raise e
          end, db)).
Proof.
  intros Hnd Hin Hdel.
  pose proof (find_task_deleted _ _ Hnd Hin Hdel) as Hfind.
  split_and!; intros; apply Depends_raises; intros user.
  - unfold get_task. by rewrite Hfind.
  - unfold update_task. by rewrite Hfind.
  - unfold delete_task. by rewrite Hfind.
  - unfold assign_task. by rewrite Hfind.
Qed.

(** C3, amended. A stored task with [is_deleted = true] is in no answer
    of [GET /api/tasks] or of [GET /api/tasks/assigned/{user_id}],
    whoever calls.  Reading, updating and deleting it is answered with Not
    Found for every caller the guard [get_current_active_user] admits, and
    assigning it for every administrator [get_admin_user] admits; a caller
    the guard rejects is answered with the error of the guard instead, so
    an authenticated user who is no administrator gets Forbidden, not Not
    Found, on assigning.  Every one of these requests leaves the state,
    and so the row, as it was. *)
Theorem soft_deleted_task_invisible db t credentials now :
  NoDup (Task.id <$> tasks db) →
  t ∈ tasks db →
  Task.is_deleted t = true →
  (∀ q,
     (route_list_tasks settings q credentials now db).2 = db
     ∧ ∀ resp, (route_list_tasks settings q credentials now db).1 = Ok resp →
               t ∉ tl_tasks resp)
  ∧ (∀ user_id,
       (route_get_tasks_assigned_to_user settings user_id credentials now db).2
       = db
       ∧ ∀ resp,
           (route_get_tasks_assigned_to_user settings user_id credentials now
              db).1 = Ok resp →
           t ∉ at_tasks resp)
  ∧ (∀ user,
       get_current_active_user settings credentials now db = Ok user →
       route_get_task settings (Task.id t) credentials now db
       = (Raise (HTTPException HTTP_404_NOT_FOUND "Task not found"), db)
       ∧ (∀ task_update,
            route_update_task settings (Task.id t) task_update credentials
              now db
            = (Raise (HTTPException HTTP_404_NOT_FOUND "Task not found"), db))
       ∧ route_delete_task settings (Task.id t) credentials now db
         = (Raise (HTTPException HTTP_404_NOT_FOUND "Task not found"), db))
  ∧ (∀ user,
       get_admin_user settings credentials now db = Ok user →
       ∀ user_id,
         route_assign_task settings (Task.id t) user_id credentials now db
         = (Raise (HTTPException HTTP_404_NOT_FOUND "Task not found"), db))
  ∧ (∀ e,
       get_current_active_user settings credentials now db = Raise e →
       route_get_task settings (Task.id t) credentials now db = (Raise e, db)
       ∧ (∀ task_update,
            route_update_task settings (Task.id t) task_update credentials
              now db = (Raise e, db))
       ∧ route_delete_task settings (Task.id t) credentials now db
         = (Raise e, db))
  ∧ (∀ e,
       get_admin_user settings credentials now db = Raise e →
       ∀ user_id,
         route_assign_task settings (Task.id t) user_id credentials now db
         = (Raise e, db))
  ∧ (∀ user,
       get_current_active_user settings credentials now db = Ok user →
       User.role user ≠ ADMIN →
       ∀ user_id,
         route_assign_task settings (Task.id t) user_id credentials now db
         = (Raise (HTTPException HTTP_403_FORBIDDEN "Not enough permissions"),
            db)).
Proof.
  intros Hnd Hin Hdel.
  pose proof (soft_deleted_task_handlers db t Hnd Hin Hdel) as Hh.
  destruct (soft_deleted_task_routes db t credentials now Hnd Hin Hdel)
    as (Hget & Hupdate & Hdelete & Hassign).
  split_and!.
  - intros q. unfold route_list_tasks, Depends.
    destruct (get_current_active_user settings credentials now db)
      as [user|e]; [|done].
    destruct (Hh user now) as (Hlist & _). destruct (Hlist q) as (resp & -> & Hno).
    split; [done|]. by intros ? [= <-].
  - intros user_id. unfold route_get_tasks_assigned_to_user, Depends.
    destruct (get_admin_user settings credentials now db) as [user|e]; [|done].
    destruct (Hh user now) as (_ & Hassigned & _). apply Hassigned.
  - intros user Hu. rewrite Hget, Hdelete, Hu. split_and!; [done| |done].
    intros task_update. by rewrite Hupdate, Hu.
  - intros user Hu user_id. by rewrite Hassign, Hu.
  - intros e Hu. rewrite Hget, Hdelete, Hu. split_and!; [done| |done].
    intros task_update. by rewrite Hupdate, Hu.
  - intros e Hu user_id. by rewrite Hassign, Hu.
  - intros user Hu Hrole user_id. rewrite Hassign.
    unfold get_admin_user. rewrite Hu. simpl. by rewrite decide_True.
Qed.

(** ** Task update *)

Lemma Forall2_diag_insert {A} (R : A → A → Prop) (l : list A) i x y :
  (∀ a, R a a) → l !! i = Some x → R x y → Forall2 R l (<[i:=y]> l).
Proof.
  intros Hrefl Hi Hxy.
  assert (Forall2 R l l) as Hll by (clear Hi; induction l; constructor; auto).
  pose proof (Forall2_insert R l l x y i Hll Hxy) as Hins.
  by rewrite (list_insert_id l i x Hi) in Hins.
Qed.

Lemma update_fields_frame task_update task :
  let task' := update_fields task_update task in
  keeps_absent task_update task task' ∧ never_nulled task task'
  ∧ keeps_fixed task task'
  ∧ Task.assigned_user_id task' = Task.assigned_user_id task.
Proof.
  unfold update_fields, assign_if, keeps_absent, never_nulled, keeps_fixed.
  destruct (upd_title task_update), (upd_description task_update),
    (upd_status task_update), (upd_priority task_update),
    (upd_due_date task_update); simpl; split_and!; try done; eauto.
Qed.

Lemma update_assignee_frame task_update db task task' :
  update_assignee task_update db task = Ok task' →
  (upd_assigned_user_id task_update = None → task' = task)
  ∧ task' = Task.set_assigned_user_id task (Task.assigned_user_id task')
  ∧ (is_Some (Task.assigned_user_id task) →
     is_Some (Task.assigned_user_id task')).
Proof.
  unfold update_assignee. destruct (upd_assigned_user_id task_update) as [a|].
  - case_decide; [done|]. intros [= <-]. simpl. split_and!; [done..|eauto].
  - intros [= <-]. by destruct task.
Qed.

(** The row [update_task] commits for the row it found. *)
Lemma updated_row_frame task_update db now task new :
  update_assignee task_update db (update_fields task_update task) = Ok new →
  let row := Task.set_updated_at new now in
  keeps_absent task_update task row ∧ never_nulled task row
  ∧ keeps_fixed task row ∧ Task.updated_at row = now.
Proof.
  intros Hnew row.
  destruct (update_fields_frame task_update task)
    as ((Hti & Hde & Hst & Hpr & Hdu & _) & (Hnd & Hnu & _)
        & (Hid & Hcb & Hca & Hdl) & Hasg).
  apply update_assignee_frame in Hnew as (Hnone & Hshape & Hsome).
  subst row. rewrite Hshape.
  unfold keeps_absent, never_nulled, keeps_fixed. simpl.
  split_and!; try done.
  - intros Hb. rewrite (Hnone Hb). done.
  - by rewrite <- Hasg.
Qed.

(** C9, as amended. After [update_task], row by row: a field whose value
    is absent or null in the body has the value it had; [description],
    [due_date] and [assigned_user_id] are not reset from a value to null;
    the columns [id], [created_by], [created_at] and [is_deleted] have the
    values they had; [updated_at] is the one column that changes without
    being mentioned, to the time of the update and only in a row that
    changed; and a row with another id is unchanged. *)
Theorem update_task_keeps_absent_fields task_id task_update now
  (current_user : User.t) db :
  Forall2
    (λ t t', keeps_absent task_update t t'
             ∧ never_nulled t t'
             ∧ keeps_fixed t t'
             ∧ (t' = t ∨ Task.updated_at t' = now)
             ∧ (Task.id t ≠ task_id → t' = t))
    (tasks db)
    (tasks (update_task task_id task_update now current_user db).2).
Proof.
  set (R := λ t t', keeps_absent task_update t t' ∧ never_nulled t t'
                    ∧ keeps_fixed t t' ∧ (t' = t ∨ Task.updated_at t' = now)
                    ∧ (Task.id t ≠ task_id → t' = t)).
  assert (∀ t, R t t) as Hrefl.
  { intros t. unfold R, keeps_absent, never_nulled, keeps_fixed. tauto. }
  assert (Forall2 R (tasks db) (tasks db)) as Hsame.
  { induction (tasks db); constructor; auto. }
  unfold update_task.
  destruct (find_task _ _) as [[i task]|] eqn:Hfind; [|done].
  apply list_find_Some in Hfind as (Hi & [Hid _] & _).
  case_decide; [done|].
  destruct (update_assignee _ _ _) as [new|] eqn:Hnew; simpl; [|done].
  unfold commit_task. case_decide; [done|].
  pose proof (updated_row_frame _ _ now _ _ Hnew) as (Hka & Hnn & Hkf & Hat).
  assert (Forall2 R (tasks db) (<[i:=Task.set_updated_at new now]> (tasks db)))
    as Hupd.
  { eapply Forall2_diag_insert; [done..|]. unfold R. split_and!; auto. done. }
  destruct (Task.assigned_user_id new); [case_decide|]; done.
Qed.

(** ** System statistics *)

Lemma count_by_status (count : TaskStatus → nat) status :
  count_by TaskStatus_members TaskStatus_value count
    !! TaskStatus_value status = Some (count status).
Proof. destruct status; unfold count_by; simpl; by simplify_map_eq. Qed.

Lemma count_by_priority (count : TaskPriority → nat) priority :
  count_by TaskPriority_members TaskPriority_value count
    !! TaskPriority_value priority = Some (count priority).
Proof. destruct priority; unfold count_by; simpl; by simplify_map_eq. Qed.

Lemma count_by_status_sum (count : TaskStatus → nat) :
  sum_list (snd <$> map_to_list
              (count_by TaskStatus_members TaskStatus_value count))
  = (count TODO + count IN_PROGRESS + count DONE)%nat.
Proof.
  unfold count_by. simpl.
  rewrite !map_to_list_insert, map_to_list_empty by by simplify_map_eq.
  simpl. lia.
Qed.

Lemma count_by_priority_sum (count : TaskPriority → nat) :
  sum_list (snd <$> map_to_list
              (count_by TaskPriority_members TaskPriority_value count))
  = (count LOW + count MEDIUM + count HIGH + count URGENT)%nat.
Proof.
  unfold count_by. simpl.
  rewrite !map_to_list_insert, map_to_list_empty by by simplify_map_eq.
  simpl. lia.
Qed.

Lemma count_by_status_dom (count : TaskStatus → nat) :
  dom (count_by TaskStatus_members TaskStatus_value count)
  = {[ "todo"; "in_progress"; "done" ]}.
Proof.
  unfold count_by. cbn [foldl TaskStatus_members TaskStatus_value].
  rewrite !dom_insert_L, dom_empty_L. set_solver.
Qed.

Lemma count_by_priority_dom (count : TaskPriority → nat) :
  dom (count_by TaskPriority_members TaskPriority_value count)
  = {[ "low"; "medium"; "high"; "urgent" ]}.
Proof.
  unfold count_by. cbn [foldl TaskPriority_members TaskPriority_value].
  rewrite !dom_insert_L, dom_empty_L. set_solver.
Qed.

(** The three statuses split the rows that are not deleted. *)
Lemma status_partition (rows : list Task.t) :
  length (filter (λ t, Task.is_deleted t = false) rows)
  = (length (filter (λ t, Task.status t = TODO
                          ∧ Task.is_deleted t = false) rows)
     + length (filter (λ t, Task.status t = IN_PROGRESS
                            ∧ Task.is_deleted t = false) rows)
     + length (filter (λ t, Task.status t = DONE
                            ∧ Task.is_deleted t = false) rows))%nat.
Proof.
  induction rows as [|t rows IH]; [done|].
  rewrite !filter_cons.
  destruct (Task.status t) eqn:Hs, (Task.is_deleted t) eqn:Hd;
    repeat case_decide; simpl; try lia; exfalso; intuition congruence.
Qed.

(** The four priorities split the rows that are not deleted. *)
Lemma priority_partition (rows : list Task.t) :
  length (filter (λ t, Task.is_deleted t = false) rows)
  = (length (filter (λ t, Task.priority t = LOW
                          ∧ Task.is_deleted t = false) rows)
     + length (filter (λ t, Task.priority t = MEDIUM
                            ∧ Task.is_deleted t = false) rows)
     + length (filter (λ t, Task.priority t = HIGH
                            ∧ Task.is_deleted t = false) rows)
     + length (filter (λ t, Task.priority t = URGENT
                            ∧ Task.is_deleted t = false) rows))%nat.
Proof.
  induction rows as [|t rows IH]; [done|].
  rewrite !filter_cons.
  destruct (Task.priority t) eqn:Hs, (Task.is_deleted t) eqn:Hd;
    repeat case_decide; simpl; try lia; exfalso; intuition congruence.
Qed.

(** C8. [get_system_stats] answers, on every state and without changing
    it, with [total_users] the number of user rows, [active_users] the
    number of those with the active flag, [total_tasks] the number of
    task rows that are not deleted, and two maps that hold for each of
    the three statuses, and for each of the four priorities, the number
    of non-deleted tasks with that value; the counts of each map sum to
    [total_tasks]. *)
Theorem system_stats_counts now (admin_user : User.t) db :
  ∃ stats,
    get_system_stats now admin_user db = (Ok stats, db)
    ∧ total_users stats = length (users db)
    ∧ active_users stats
      = length (filter (λ u, User.is_active u = true) (users db))
    ∧ total_tasks stats
      = length (filter (λ t, Task.is_deleted t = false) (tasks db))
    ∧ (∀ status,
         tasks_by_status stats !! TaskStatus_value status
         = Some (length (filter (λ t, Task.status t = status
                                      ∧ Task.is_deleted t = false) (tasks db))))
    ∧ (∀ priority,
         tasks_by_priority stats !! TaskPriority_value priority
         = Some (length (filter (λ t, Task.priority t = priority
                                      ∧ Task.is_deleted t = false) (tasks db))))
    ∧ dom (tasks_by_status stats) = {[ "todo"; "in_progress"; "done" ]}
    ∧ dom (tasks_by_priority stats) = {[ "low"; "medium"; "high"; "urgent" ]}
    ∧ sum_list (snd <$> map_to_list (tasks_by_status stats)) = total_tasks stats
    ∧ sum_list (snd <$> map_to_list (tasks_by_priority stats)) = total_tasks stats.
Proof.
  eexists. split; [reflexivity|].
  cbn [total_users active_users total_tasks tasks_by_status tasks_by_priority].
  split_and!; [reflexivity..| | | | | |].
  - intros status. apply count_by_status.
  - intros priority. apply count_by_priority.
  - apply count_by_status_dom.
  - apply count_by_priority_dom.
  - rewrite count_by_status_sum. symmetry. apply status_partition.
  - rewrite count_by_priority_sum. symmetry. apply priority_partition.
Qed.

(** ** Bulk assignment *)

Lemma find_task_is_Some task_id (rows : list Task.t) :
  is_Some (find_task task_id rows)
  ↔ ∃ t, t ∈ rows ∧ Task.id t = task_id ∧ Task.is_deleted t = false.
Proof.
  unfold find_task. split.
  - intros [[i t] Hfind]. apply list_find_Some in Hfind as (Hi & Hok & _).
    exists t. split; [by eapply list_elem_of_lookup_2|done].
  - intros (t & Hin & Hid & Hlive).
    by apply (list_find_elem_of _ _ t).
Qed.

Lemma filter_imap_snd {A} (P : A → Prop) `{∀ x, Decision (P x)}
  (g : nat → nat) (l : list A) :
  (filter (λ it, P it.2) (imap (λ i x, (g i, x)) l)).*2 = filter P l.
Proof.
  revert g. induction l as [|x l IH]; intros g; [done|].
  cbn [imap]. rewrite !filter_cons. cbn [snd].
  case_decide; cbn [fmap list_fmap snd]; [f_equal|]; apply (IH (g ∘ S)).
Qed.

(** The rows [select_tasks] returns are the rows of the filter, each paired
    with its position. *)
Lemma select_tasks_rows task_ids (rows : list Task.t) :
  (select_tasks task_ids rows).*2
  = filter (λ t, Task.id t ∈ task_ids ∧ Task.is_deleted t = false) rows.
Proof.
  unfold select_tasks.
  exact (filter_imap_snd
           (λ t, Task.id t ∈ task_ids ∧ Task.is_deleted t = false) id rows).
Qed.

(** The length test of [bulk_assign_tasks] passes exactly when the
    requested ids are pairwise distinct and each one resolves to a task
    that is not deleted. *)
Lemma select_tasks_length_eq task_ids (rows : list Task.t) :
  NoDup (Task.id <$> rows) →
  length (select_tasks task_ids rows) = length task_ids
  ↔ NoDup task_ids
    ∧ ∀ task_id, task_id ∈ task_ids → is_Some (find_task task_id rows).
Proof.
  intros Hpk.
  set (found := Task.id <$> filter (λ t, Task.id t ∈ task_ids
                                         ∧ Task.is_deleted t = false) rows).
  assert (length (select_tasks task_ids rows) = length found) as ->.
  { unfold found. rewrite <- select_tasks_rows. by rewrite !length_fmap. }
  assert (NoDup found) as Hnd.
  { eapply sublist_NoDup; [exact Hpk|]. unfold found.
    apply fmap_sublist, sublist_filter. }
  assert (∀ x, x ∈ found ↔ x ∈ task_ids ∧ is_Some (find_task x rows)) as Hfound.
  { intros x. unfold found. rewrite list_elem_of_fmap, find_task_is_Some.
    setoid_rewrite list_elem_of_filter. split.
    - intros (t & -> & (Hin & Hlive) & Ht). eauto.
    - intros (Hin & t & Ht & <- & Hlive). eauto. }
  assert (found ⊆+ task_ids) as Hsub.
  { apply NoDup_submseteq; [done|]. intros x Hx. by apply Hfound in Hx as [? _]. }
  split.
  - intros Hlen.
    assert (found ≡ₚ task_ids) as Hperm.
    { apply submseteq_length_Permutation; [done|lia]. }
    split; [by rewrite <- Hperm|].
    intros x Hx. rewrite <- Hperm in Hx. by apply Hfound in Hx as [_ ?].
  - intros [Hids Hall].
    assert (task_ids ⊆+ found) as Hsup.
    { apply NoDup_submseteq; [done|]. intros x Hx. apply Hfound. auto. }
    apply submseteq_length in Hsub, Hsup. lia.
Qed.

(** [bulk_assign_tasks] returns or raises a Bad Request; it raises exactly
    when the user does not exist, or an id does not resolve to a task that
    is not deleted, or an id is listed twice; when it raises the state is
    unchanged. *)
Lemma bulk_assign_tasks_rejects_iff task_ids user_id now
  (admin_user : User.t) db :
  NoDup (Task.id <$> tasks db) →
  (raises_status (bulk_assign_tasks task_ids user_id now admin_user db).1
     HTTP_400_BAD_REQUEST
   ↔ query_first (λ u, User.id u = user_id) (users db) = None
     ∨ (∃ task_id, task_id ∈ task_ids ∧ find_task task_id (tasks db) = None)
     ∨ ¬ NoDup task_ids)
  ∧ (raises_status (bulk_assign_tasks task_ids user_id now admin_user db).1
       HTTP_400_BAD_REQUEST
     ∨ ∃ r, (bulk_assign_tasks task_ids user_id now admin_user db).1 = Ok r)
  ∧ (raises_status (bulk_assign_tasks task_ids user_id now admin_user db).1
       HTTP_400_BAD_REQUEST →
     (bulk_assign_tasks task_ids user_id now admin_user db).2 = db).
Proof.
  intros Hpk. pose proof (select_tasks_length_eq task_ids _ Hpk) as Hlen.
  unfold bulk_assign_tasks.
  destruct (query_first _ _) as [user|]; simpl;
    [|split_and!; [split; auto|by left|done]].
  case_decide as Hne; simpl.
  - split_and!; [|by left|done]. split; [intros _|done]. right.
    destruct (decide (NoDup task_ids)) as [Hids|]; [|by right]. left.
    destruct (decide (Forall (λ x, is_Some (find_task x (tasks db))) task_ids))
      as [Hall|Hex].
    + destruct Hne. apply Hlen. split; [done|]. by apply Forall_forall.
    + apply not_Forall_Exists in Hex; [|apply _].
      apply Exists_exists in Hex as (x & Hx & Hnone).
      exists x. split; [done|]. by apply eq_None_not_Some.
  - destruct (foldl _ _ _) as [rows updated_count]. simpl.
    split_and!; [|right; eauto|done]. split; [done|].
    assert (length (select_tasks task_ids (tasks db)) = length task_ids) as Heq.
    { by destruct (decide (length (select_tasks task_ids (tasks db))
                           = length task_ids)). }
    apply Hlen in Heq as [Hids Hall].
    intros [?|[(x & Hx & Hnone)|?]]; [done| |done].
    apply Hall in Hx as [? ?]. congruence.
Qed.

(** The loop of [bulk_assign_tasks], started on the table [pre ++ l] with
    the selection of [l]: the selected rows whose assignee differs are
    reassigned in place and counted. *)
Lemma bulk_assign_loop (task_ids : list Z) user_id now (pre l : list Task.t)
  (count : nat) :
  foldl (bulk_assign_step user_id now) (pre ++ l, count)
    (filter (λ it, Task.id it.2 ∈ task_ids ∧ Task.is_deleted it.2 = false)
       (imap (λ i t, ((length pre + i)%nat, t)) l))
  = (pre ++ ((λ t, if decide ((Task.id t ∈ task_ids ∧ Task.is_deleted t = false)
                              ∧ Task.assigned_user_id t ≠ Some user_id)
                   then reassign user_id now t else t) <$> l),
     (count + length (filter (λ t, (Task.id t ∈ task_ids
                                    ∧ Task.is_deleted t = false)
                                   ∧ Task.assigned_user_id t ≠ Some user_id) l))%nat).
Proof.
  revert pre count. induction l as [|t l IH]; intros pre count.
  { simpl. f_equal. lia. }
  assert (∀ t' : Task.t,
            imap ((λ i x, ((length pre + i)%nat, x)) ∘ S) l
            = imap (λ i x, ((length (pre ++ [t']) + i)%nat, x)) l) as Hshift.
  { intros t'. apply imap_ext. intros i x _. simpl. f_equal.
    rewrite length_app. simpl. lia. }
  rewrite imap_cons, !filter_cons. cbn [snd fmap list_fmap].
  destruct (decide (Task.id t ∈ task_ids ∧ Task.is_deleted t = false)) as [Hsel|Hsel].
  - cbn [foldl]. unfold bulk_assign_step at 2. cbn [fst snd].
    destruct (decide (Task.assigned_user_id t ≠ Some user_id)) as [Hdiff|Hsame].
    + rewrite insert_app_r. cbn [insert list_insert].
      rewrite (Hshift (reassign user_id now t)), cons_middle, app_assoc, IH.
      rewrite !decide_True by done. rewrite <- app_assoc. simpl.
      f_equal. lia.
    + rewrite (Hshift t), cons_middle, app_assoc, IH.
      rewrite !decide_False by tauto. rewrite <- app_assoc. simpl.
      f_equal.
  - rewrite (Hshift t), cons_middle, app_assoc, IH.
    rewrite !decide_False by tauto. rewrite <- app_assoc. simpl.
    f_equal.
Qed.

(** A successful [bulk_assign_tasks] reassigns, in place, every listed task
    that is not deleted and whose assignee differs, leaves every other row
    and table as it was, and returns the number of rows it changed and the
    number of ids requested. *)
Lemma bulk_assign_tasks_success task_ids user_id now (admin_user : User.t)
  db r db' :
  bulk_assign_tasks task_ids user_id now admin_user db = (Ok r, db') →
  tasks db'
  = (λ t, if decide ((Task.id t ∈ task_ids ∧ Task.is_deleted t = false)
                     ∧ Task.assigned_user_id t ≠ Some user_id)
          then reassign user_id now t else t) <$> tasks db
  ∧ updated_tasks r
    = length (filter (λ t, (Task.id t ∈ task_ids ∧ Task.is_deleted t = false)
                           ∧ Task.assigned_user_id t ≠ Some user_id) (tasks db))
  ∧ bulk_total_tasks r = length task_ids
  ∧ users db' = users db
  ∧ refresh_tokens db' = refresh_tokens db
  ∧ audit_logs db' = audit_logs db.
Proof.
  unfold bulk_assign_tasks. destruct (query_first _ _); [|done].
  case_decide as Hlen; [done|].
  assert (foldl (bulk_assign_step user_id now) (tasks db, 0%nat)
            (select_tasks task_ids (tasks db))
          = (((λ t, if decide ((Task.id t ∈ task_ids
                                ∧ Task.is_deleted t = false)
                               ∧ Task.assigned_user_id t ≠ Some user_id)
                    then reassign user_id now t else t) <$> tasks db),
             length (filter (λ t, (Task.id t ∈ task_ids
                                   ∧ Task.is_deleted t = false)
                                  ∧ Task.assigned_user_id t ≠ Some user_id)
                       (tasks db)))) as ->
    by exact (bulk_assign_loop task_ids user_id now [] (tasks db) 0).
  intros [= <- <-]. simpl. by split_and!.
Qed.

End Properties.

(** * Concrete runs

    The handlers run on the fixture: the requests below are the inputs at
    which the general statements are instantiated. *)

(** C7. With the refresh-token lifetime configured to thirty days, a
    successful login at time 1000 stores a row, not revoked, that expires
    seven days after issuance, not thirty, while the token it stores carries
    the configured thirty days in its [exp] claim; the cookie lives 604800
    seconds. *)
Theorem login_expiry_ignores_setting :
  ∃ resp cookie db' row,
    login Fixture.thirty_days (H := Fixture.externals)
      {| login_email := "alice@example.com"; login_password := "wonderland" |}
      1000 Fixture.db0
    = (Ok resp, Some cookie, db')
    ∧ last (refresh_tokens db') = Some row
    ∧ RefreshToken.is_revoked row = false
    ∧ RefreshToken.expires_at row = 1000 + timedelta_days 7
    ∧ RefreshToken.expires_at row
      ≠ 1000 + timedelta_days (jwt_refresh_token_expire_days Fixture.thirty_days)
    ∧ exp <$> Fixture.verify (RefreshToken.token row)
                (jwt_secret_key Fixture.thirty_days) (jwt_algorithm Fixture.thirty_days)
      = Some (Some (1000 + timedelta_days
                             (jwt_refresh_token_expire_days Fixture.thirty_days)))
    ∧ max_age cookie = 604800.
Proof.
  eexists _, _, _, _. split; [vm_compute; reflexivity|].
  split; [vm_compute; reflexivity|].
  split_and!; try (vm_compute; reflexivity). vm_compute. discriminate.
Qed.

(** C6. The user exists and the one requested task exists and is not
    deleted, yet listing its id twice is answered with the Bad Request
    "Some tasks not found". *)
Theorem bulk_assign_repeated_id_rejected :
  is_Some (query_first (λ u, User.id u = 1) (users Fixture.db0))
  ∧ (∀ task_id, task_id ∈ [1; 1] →
       is_Some (find_task task_id (tasks Fixture.db0)))
  ∧ bulk_assign_tasks [1; 1] 1 50 Fixture.root Fixture.db0
    = (Raise (HTTPException HTTP_400_BAD_REQUEST "Some tasks not found"),
       Fixture.db0)
  ∧ ∃ r db', bulk_assign_tasks [1] 1 50 Fixture.root Fixture.db0 = (Ok r, db').
Proof.
  split_and!.
  - vm_compute. eauto.
  - intros task_id Hin.
    assert (task_id = 1) as ->.
    { repeat (apply elem_of_cons in Hin as [?|Hin]; [done|]).
      by apply elem_of_nil in Hin. }
    vm_compute. eauto.
  - vm_compute. reflexivity.
  - eexists _, _. vm_compute. reflexivity.
Qed.

Lemma refresh_token_rotation_witness :
  NoDup (RefreshToken.token <$> refresh_tokens Fixture.db0)
  ∧ ∃ resp cookie db',
      refresh_token default_settings (H := Fixture.externals)
        Fixture.alice_refresh 200 Fixture.db0 = (Ok resp, cookie, db')
      ∧ length (refresh_tokens db') = 2%nat
      ∧ ∃ detail,
          refresh_token default_settings (H := Fixture.externals)
            Fixture.alice_refresh 300 db'
          = (Raise (HTTPException HTTP_401_UNAUTHORIZED detail), None, db').
Proof.
  assert (NoDup (RefreshToken.token <$> refresh_tokens Fixture.db0)) as Hnd
    by by_compute.
  split; [exact Hnd|].
  eexists _, _, _. split; [vm_compute; reflexivity|].
  split; [reflexivity|].
  refine (match refresh_token_rotation default_settings (H := Fixture.externals)
                  Fixture.alice_refresh 200 Fixture.db0 _ _ _ Hnd _ with
          | ex_intro _ payload (ex_intro _ user_id (ex_intro _ i
              (ex_intro _ old (ex_intro _ new Hall)))) => _
          end); [vm_compute; reflexivity|].
  destruct Hall as (_ & _ & _ & _ & _ & _ & _ & _ & _ & _ & _ & _ & _ & Hagain).
  exact (Hagain 300).
Defined.

Lemma list_tasks_own_or_assigned_witness :
  User.role Fixture.alice ≠ ADMIN
  ∧ Fixture.task2 ∈ tasks Fixture.db0
  ∧ ∃ resp,
      list_tasks (H := Fixture.externals)
        (mkTaskQuery 1 10 (Some IN_PROGRESS) None None None None None None)
        Fixture.alice Fixture.db0 = (Ok resp, Fixture.db0)
      ∧ ∀ t, t ∈ tl_tasks resp →
             t ∈ tasks Fixture.db0
             ∧ (Task.created_by t = User.id Fixture.alice
                ∨ Task.assigned_user_id t = Some (User.id Fixture.alice)).
Proof.
  assert (User.role Fixture.alice ≠ ADMIN) as Hrole by done.
  split; [exact Hrole|]. split; [by_compute|].
  exact (list_tasks_own_or_assigned _ Fixture.alice Fixture.db0 Hrole).
Defined.

Lemma soft_deleted_task_invisible_witness :
  NoDup (Task.id <$> tasks Fixture.db0)
  ∧ Fixture.task3 ∈ tasks Fixture.db0
  ∧ Task.is_deleted Fixture.task3 = true
  ∧ get_current_active_user default_settings (H := Fixture.externals)
      Fixture.alice_access 500 Fixture.db0 = Ok Fixture.alice
  ∧ route_get_task default_settings (H := Fixture.externals) 3
      Fixture.alice_access 500 Fixture.db0
    = (Raise (HTTPException HTTP_404_NOT_FOUND "Task not found"), Fixture.db0)
  ∧ route_delete_task default_settings (H := Fixture.externals) 3
      Fixture.alice_access 500 Fixture.db0
    = (Raise (HTTPException HTTP_404_NOT_FOUND "Task not found"), Fixture.db0).
Proof.
  assert (NoDup (Task.id <$> tasks Fixture.db0)) as Hnd by by_compute.
  assert (Fixture.task3 ∈ tasks Fixture.db0) as Hin by by_compute.
  assert (get_current_active_user default_settings (H := Fixture.externals)
            Fixture.alice_access 500 Fixture.db0 = Ok Fixture.alice) as Hu
    by (vm_compute; reflexivity).
  split; [exact Hnd|]. split; [exact Hin|]. split; [reflexivity|].
  split; [exact Hu|].
  destruct (soft_deleted_task_invisible default_settings
              (H := Fixture.externals) Fixture.db0 Fixture.task3
              Fixture.alice_access 500 Hnd Hin eq_refl)
    as (_ & _ & Hfound & _).
  destruct (Hfound Fixture.alice Hu) as (Hget & _ & Hdelete).
  split; [exact Hget|exact Hdelete].
Defined.

Lemma verify_token_unauthorized_iff_witness :
  exp_in_past default_settings (H := Fixture.externals) Fixture.alice_access 2000
  ∧ raises_status
      (route_get_task default_settings (H := Fixture.externals) 1
         Fixture.alice_access 2000 Fixture.db0).1 HTTP_401_UNAUTHORIZED
  ∧ (route_get_task default_settings (H := Fixture.externals) 1
       Fixture.alice_access 2000 Fixture.db0).2 = Fixture.db0.
Proof.
  assert (exp_in_past default_settings (H := Fixture.externals)
            Fixture.alice_access 2000) as Hexp.
  { eexists _, _. split; [vm_compute; reflexivity|]. split; [reflexivity|].
    vm_compute. reflexivity. }
  split; [exact Hexp|].
  refine (proj2 (proj2 (proj2
    (verify_token_unauthorized_iff default_settings (H := Fixture.externals)
       Fixture.alice_access "access" 2000)) Hexp Fixture.db0
    (get_current_active_user default_settings) _) _ (get_task 1)).
  left. set_solver.
Defined.

Lemma login_rejected_unchanged_witness :
  query_first (λ u, User.email u = "alice@example.com") (users Fixture.db0)
  = Some Fixture.alice
  ∧ pwd_verify (Externals := Fixture.externals) "guess"
      (User.hashed_password Fixture.alice) = false
  ∧ ∃ detail,
      login default_settings (H := Fixture.externals)
        {| login_email := "alice@example.com"; login_password := "guess" |}
        1000 Fixture.db0
      = (Raise (HTTPException HTTP_401_UNAUTHORIZED detail), None, Fixture.db0).
Proof.
  split; [vm_compute; reflexivity|]. split; [vm_compute; reflexivity|].
  apply (login_rejected_unchanged default_settings (H := Fixture.externals)
           {| login_email := "alice@example.com"; login_password := "guess" |}).
  right. exists Fixture.alice. split; [vm_compute; reflexivity|].
  left. vm_compute. reflexivity.
Defined.

Lemma inactive_user_branch_unreachable_witness :
  get_current_user default_settings (H := Fixture.externals)
    Fixture.alice_access 500 Fixture.db0 = Ok Fixture.alice
  ∧ active_user_check Fixture.alice = Ok Fixture.alice
  ∧ get_current_active_user default_settings (H := Fixture.externals)
      Fixture.alice_access 500 Fixture.db0 = Ok Fixture.alice.
Proof.
  assert (get_current_user default_settings (H := Fixture.externals)
            Fixture.alice_access 500 Fixture.db0 = Ok Fixture.alice) as Hu
    by (vm_compute; reflexivity).
  split; [exact Hu|].
  exact (proj2 (proj1 (inactive_user_branch_unreachable default_settings
                         (H := Fixture.externals) Fixture.alice_access 500 Fixture.db0)
                  Fixture.alice Hu)).
Defined.

Lemma update_task_keeps_absent_fields_witness :
  upd_description (mkTaskUpdate (Some "X") None (Some DONE) None None None) = None
  ∧ ∃ t',
      tasks (update_task (H := Fixture.externals) 1
               (mkTaskUpdate (Some "X") None (Some DONE) None None None)
               50 Fixture.alice Fixture.db0).2 !! 0%nat = Some t'
      ∧ Task.title t' = "X"
      ∧ Task.description t' = Some "draft"
      ∧ Task.assigned_user_id t' = Some 1.
Proof.
  split; [reflexivity|].
  pose proof (update_task_keeps_absent_fields (H := Fixture.externals) 1
                (mkTaskUpdate (Some "X") None (Some DONE) None None None)
                50 Fixture.alice Fixture.db0) as Hall.
  apply Forall2_cons_inv_l in Hall as (t' & rest & (Hkeep & _) & _ & Heq).
  exists t'. rewrite Heq.
  destruct Hkeep as (_ & Hde & _ & _ & _ & Hasg).
  split; [reflexivity|]. split.
  - revert Heq. vm_compute. by intros [= <- _].
  - split; [exact (Hde eq_refl)|exact (Hasg eq_refl)].
Defined.

(** C3 as stated fails on the callers the guards reject: the third task
    is soft-deleted, and assigning it with the access token of Alice, who
    is no administrator, is answered with Forbidden by [get_admin_user],
    not with Not Found. *)
Lemma soft_deleted_assign_forbidden :
  Fixture.task3 ∈ tasks Fixture.db0
  ∧ Task.is_deleted Fixture.task3 = true
  ∧ route_assign_task default_settings (H := Fixture.externals) 3 1
      Fixture.alice_access 500 Fixture.db0
    = (Raise (HTTPException HTTP_403_FORBIDDEN "Not enough permissions"),
       Fixture.db0)
  ∧ ¬ raises_status
        (route_assign_task default_settings (H := Fixture.externals) 3 1
           Fixture.alice_access 500 Fixture.db0).1 HTTP_404_NOT_FOUND.
Proof.
  split; [by_compute|]. split; [reflexivity|].
  split; [vm_compute; reflexivity|]. vm_compute. discriminate.
Qed.

(** C9 as stated fails on [updated_at]: an update whose body names the
    title alone, run at time 50 on the first task, leaves that row with an
    [updated_at] of 50 where it was 10, a column the body does not
    mention. *)
Lemma update_task_refreshes_updated_at :
  ¬ Forall2
      (unchanged_outside_body (mkTaskUpdate (Some "X") None None None None None))
      (tasks Fixture.db0)
      (tasks (update_task (H := Fixture.externals) 1
                (mkTaskUpdate (Some "X") None None None None None)
                50 Fixture.alice Fixture.db0).2).
Proof.
  intros Hall.
  apply Forall2_cons_inv_l in Hall as (t' & rest & (_ & _ & Hat) & _ & Heq).
  vm_compute in Heq. injection Heq as <- _.
  vm_compute in Hat. discriminate.
Qed.

(** * Further properties

    Properties of the token service, the guards and the other routes, read
    off the code. *)

Section TokenProperties.
Context (settings : Settings) `{Externals}.

Implicit Types (db : Db) (now : Z) (token credentials : string).

Lemma verify_signed (claims : Claims) token_type now :
  signs_and_verifies settings claims →
  verify_token settings
    (jws_sign claims (jwt_secret_key settings) (jwt_algorithm settings))
    token_type now
  = match exp claims with
    | Some e =>
        if decide (e < now)
        then Raise (HTTPException HTTP_401_UNAUTHORIZED
                      "Could not validate credentials")
        else if decide (type claims ≠ Some token_type)
        then Raise (HTTPException HTTP_401_UNAUTHORIZED "Invalid token type")
        else Ok claims
    | None =>
        if decide (type claims ≠ Some token_type)
        then Raise (HTTPException HTTP_401_UNAUTHORIZED "Invalid token type")
        else Ok claims
    end.
Proof.
  unfold signs_and_verifies, verify_token, jwt_decode. intros ->.
  destruct (exp claims); [case_decide|]; done.
Qed.

Lemma create_access_token_eq data expires_delta now :
  create_access_token settings data expires_delta now
  = jws_sign (update_exp_type data (access_expiry settings expires_delta now) "access")
      (jwt_secret_key settings) (jwt_algorithm settings).
Proof.
  unfold create_access_token, access_expiry, truthy_int, timedelta_minutes.
  destruct expires_delta as [d|]; [case_decide|]; do 2 f_equal; lia.
Qed.

Lemma create_refresh_token_eq data now :
  create_refresh_token settings data now
  = jws_sign (update_exp_type data (refresh_expiry settings now) "refresh")
      (jwt_secret_key settings) (jwt_algorithm settings).
Proof.
  unfold create_refresh_token, refresh_expiry, timedelta_days.
  do 2 f_equal. lia.
Qed.

(** X1. Issuing then verifying.  An access token verifies as [access], and a
    refresh token as [refresh], from its issue up to and including the
    second of its expiry, and yields the claims it was made of with [exp]
    and [type] added; after that second it is answered with Unauthorized.
    A lifetime of zero given to [create_access_token] counts as none
    given. *)
Theorem token_round_trip (data : Claims) (expires_delta : option Z) now now2 :
  signs_and_verifies settings
    (update_exp_type data (access_expiry settings expires_delta now) "access") →
  signs_and_verifies settings (update_exp_type data (refresh_expiry settings now) "refresh") →
  (now2 ≤ access_expiry settings expires_delta now →
   verify_token settings (create_access_token settings data expires_delta now)
     "access" now2
   = Ok {| sub := sub data; exp := Some (access_expiry settings expires_delta now);
           type := Some "access" |})
  ∧ (access_expiry settings expires_delta now < now2 →
     raises_status
       (verify_token settings
          (create_access_token settings data expires_delta now) "access" now2)
       HTTP_401_UNAUTHORIZED)
  ∧ (now2 ≤ refresh_expiry settings now →
     verify_token settings (create_refresh_token settings data now)
       "refresh" now2
     = Ok {| sub := sub data; exp := Some (refresh_expiry settings now);
             type := Some "refresh" |})
  ∧ (refresh_expiry settings now < now2 →
     raises_status
       (verify_token settings (create_refresh_token settings data now)
          "refresh" now2)
       HTTP_401_UNAUTHORIZED)
  ∧ create_access_token settings data (Some 0) now
    = create_access_token settings data None now.
Proof.
  intros Hacc Href.
  rewrite !create_access_token_eq, create_refresh_token_eq.
  rewrite (verify_signed _ "access" now2 Hacc).
  rewrite (verify_signed _ "refresh" now2 Href). simpl.
  split_and!.
  - intros Hle. rewrite decide_False by lia. by repeat case_decide.
  - intros Hlt. by rewrite decide_True by lia.
  - intros Hle. rewrite decide_False by lia. by repeat case_decide.
  - intros Hlt. by rewrite decide_True by lia.
  - done.
Qed.

(** X2. The two kinds of token do not stand in for each other: a refresh token
    is answered with Unauthorized by [get_current_user], so by every guard,
    and an access token by [refresh_token], which leaves the state and sets
    no cookie. *)
Theorem token_kinds_not_interchangeable (data : Claims)
  (expires_delta : option Z) now now2 db :
  signs_and_verifies settings
    (update_exp_type data (access_expiry settings expires_delta now) "access") →
  signs_and_verifies settings (update_exp_type data (refresh_expiry settings now) "refresh") →
  raises_status
    (get_current_user settings (create_refresh_token settings data now) now2 db)
    HTTP_401_UNAUTHORIZED
  ∧ raises_status
      (get_admin_user settings (create_refresh_token settings data now) now2 db)
      HTTP_401_UNAUTHORIZED
  ∧ refresh_token settings
      (create_access_token settings data expires_delta now) now2 db
    = (Raise (HTTPException HTTP_401_UNAUTHORIZED "Invalid refresh token"),
       None, db).
Proof.
  intros Hacc Href.
  assert (∃ d, verify_token settings (create_refresh_token settings data now)
                 "access" now2 = Raise (HTTPException HTTP_401_UNAUTHORIZED d))
    as [d Hr].
  { rewrite create_refresh_token_eq, (verify_signed _ "access" now2 Href). simpl.
    repeat case_decide; by eauto. }
  assert (∃ d, verify_token settings
                 (create_access_token settings data expires_delta now)
                 "refresh" now2 = Raise (HTTPException HTTP_401_UNAUTHORIZED d))
    as [d' Ha].
  { rewrite create_access_token_eq, (verify_signed _ "refresh" now2 Hacc). simpl.
    repeat case_decide; by eauto. }
  split_and!.
  - unfold get_current_user. by rewrite Hr.
  - unfold get_admin_user, get_current_active_user, get_current_user.
    by rewrite Hr.
  - unfold refresh_token. by rewrite Ha.
Qed.

(** [query.filter(key == k).first()] on a unique column returns the row
    that holds the key. *)
Lemma query_first_unique {A K} `{EqDecision K} (f : A → K) (l : list A) x :
  NoDup (f <$> l) → x ∈ l → query_first (λ y, f y = f x) l = Some x.
Proof.
  intros Hnd Hin. unfold query_first.
  destruct (head _) as [y|] eqn:Hhd.
  - apply head_Some_elem_of, list_elem_of_filter in Hhd as [Hf Hy].
    apply list_elem_of_lookup in Hin as [i Hi].
    apply list_elem_of_lookup in Hy as [j Hj].
    assert (j = i) as -> by (eapply (unique_key_lookup f); eauto).
    congruence.
  - apply head_None in Hhd.
    assert (x ∈ filter (λ y, f y = f x) l) as Hx
      by by apply list_elem_of_filter.
    rewrite Hhd in Hx. by apply elem_of_nil in Hx.
Qed.

Lemma query_first_elem_of {A} (P : A → Prop) `{∀ x, Decision (P x)}
  (l : list A) x :
  query_first P l = Some x → P x ∧ x ∈ l.
Proof.
  unfold query_first. intros Hhd.
  by apply head_Some_elem_of, list_elem_of_filter in Hhd.
Qed.

Lemma query_first_None {A} (P : A → Prop) `{∀ x, Decision (P x)} (l : list A) :
  query_first P l = None ↔ ∀ x, x ∈ l → ¬ P x.
Proof.
  unfold query_first. rewrite head_None. split.
  - intros Hnil x Hx HP.
    assert (x ∈ filter P l) as Hin by by apply list_elem_of_filter.
    rewrite Hnil in Hin. by apply elem_of_nil in Hin.
  - intros Hall. destruct (filter P l) as [|y k] eqn:Hf; [done|].
    assert (y ∈ filter P l) as Hy by (rewrite Hf; left).
    apply list_elem_of_filter in Hy as [HP Hy]. by destruct (Hall y Hy).
Qed.

(** X3. What the role guards admit: [get_admin_user] returns a stored user who
    is active and an administrator, answers any other user
    [get_current_user] resolves with Forbidden, and is the instance of
    [require_roles] at the one role [ADMIN]. *)
Theorem get_admin_user_admits credentials now db :
  (∀ user,
     get_admin_user settings credentials now db = Ok user →
     user ∈ users db ∧ User.is_active user = true ∧ User.role user = ADMIN)
  ∧ (∀ user,
       get_current_user settings credentials now db = Ok user →
       User.role user ≠ ADMIN →
       get_admin_user settings credentials now db
       = Raise (HTTPException HTTP_403_FORBIDDEN "Not enough permissions"))
  ∧ require_roles settings [ADMIN] credentials now db
    = get_admin_user settings credentials now db.
Proof.
  unfold get_admin_user, require_roles.
  rewrite get_current_active_user_eq. split_and!.
  - intros user. destruct (get_current_user _ _ _ _) as [u|] eqn:Hu; [|done].
    simpl. case_decide as Hrole; [done|]. intros [= <-].
    apply get_current_user_Ok in Hu as [? ?].
    split_and!; [done..|]. by destruct (decide (User.role u = ADMIN)).
  - intros user -> Hrole. simpl. by rewrite decide_True.
  - destruct (get_current_user _ _ _ _) as [u|]; [|done]. simpl.
    destruct (decide (User.role u = ADMIN)) as [Hr|Hr].
    + rewrite !decide_False; [done|by intros []|].
      intros Hnin. apply Hnin. rewrite Hr. left.
    + rewrite !decide_True; [done..|].
      intros Hin. apply list_elem_of_singleton in Hin. done.
Qed.

End TokenProperties.

Section AuthProperties.
Context (settings : Settings) `{Externals}.
Variable pwd_hash : string → string → string.

Implicit Types (db : Db) (now : Z) (token credentials : string).

(** A sequence value is above every id in the table. *)
Lemma fresh_id_fresh (ids : list Z) : fresh_id ids ∉ ids.
Proof.
  assert (∀ x, x ∈ ids → x ≤ foldr Z.max 0 ids) as Hmax.
  { induction ids as [|y ids IH]; intros x Hx; [by apply elem_of_nil in Hx|].
    simpl. apply elem_of_cons in Hx as [->|Hx]; [lia|].
    specialize (IH x Hx). lia. }
  intros Hin. apply Hmax in Hin. unfold fresh_id in Hin. lia.
Qed.

(** What a successful login leaves behind, beyond the stored row. *)
Lemma login_success_state (user_data : LoginRequest) now db resp cookie db' :
  login settings user_data now db = (Ok resp, cookie, db') →
  ∃ user,
    query_first (λ u, User.email u = login_email user_data) (users db) = Some user
    ∧ pwd_verify (login_password user_data) (User.hashed_password user) = true
    ∧ User.is_active user = true
    ∧ access_token resp
      = create_access_token settings (sub_claims (User.id user)) None now
    ∧ token_type resp = "bearer"
    ∧ users db' = users db ∧ tasks db' = tasks db
    ∧ refresh_tokens db'
      = refresh_tokens db
        ++ [RefreshToken.mk (fresh_id (RefreshToken.id <$> refresh_tokens db))
              (create_refresh_token settings (sub_claims (User.id user)) now)
              (User.id user) (now + timedelta_days 7) false now None]
    ∧ (create_refresh_token settings (sub_claims (User.id user)) now
       ∉ RefreshToken.token <$> refresh_tokens db)
    ∧ audit_logs db'
      = audit_logs db
        ++ [AuditLog.mk (fresh_id (AuditLog.id <$> audit_logs db))
              (User.id user) None "USER_LOGIN" None None now].
Proof.
  unfold login. destruct (query_first _ _) as [user|]; [|done].
  destruct (pwd_verify _ _) eqn:Hpw; simpl; [|done].
  destruct (User.is_active user) eqn:Hact; simpl; [|done].
  unfold add_refresh_token. case_decide as Hdup; [done|].
  intros [= <- <- <-]. exists user. by split_and!.
Qed.

(** X4. Login, then a protected request.  The access token a successful login
    returns resolves, in the state the login left and until the configured
    lifetime has passed, to the user who logged in. *)
Theorem login_then_authenticated (user_data : LoginRequest) now now2 db
  resp cookie db' user :
  NoDup (User.id <$> users db) →
  login settings user_data now db = (Ok resp, cookie, db') →
  query_first (λ u, User.email u = login_email user_data) (users db)
  = Some user →
  signs_and_verifies settings
    (update_exp_type (sub_claims (User.id user))
       (access_expiry settings None now) "access") →
  sql_integer (pretty (User.id user)) = Some (User.id user) →
  now2 ≤ now + 60 * jwt_access_token_expire_minutes settings →
  get_current_active_user settings (access_token resp) now2 db' = Ok user.
Proof.
  intros Hnd Hlogin Hq Hsv Hint Hnow.
  apply login_success_state in Hlogin
    as (user' & Hq' & _ & Hact & -> & _ & Hu & _).
  assert (user' = user) as -> by congruence.
  apply query_first_elem_of in Hq as [Hemail Hin].
  rewrite get_current_active_user_eq. unfold get_current_user.
  rewrite create_access_token_eq, (verify_signed _ _ "access" now2 Hsv).
  unfold access_expiry. simpl. rewrite decide_False by lia.
  cbn [mbind result_bind update_exp_type sub sub_claims].
  rewrite Hint, Hu, (query_first_unique User.id _ user Hnd Hin).
  by rewrite Hact.
Qed.

(** The refresh token of [user] issued at [now] verifies at [now2] and its
    subject converts back to the id of the user. *)
Lemma refresh_token_reads_back now now2 (user : User.t) :
  signs_and_verifies settings
    (update_exp_type (sub_claims (User.id user)) (refresh_expiry settings now)
       "refresh") →
  sub_user_id (sub_claims (User.id user)) = Ok (User.id user) →
  now2 ≤ refresh_expiry settings now →
  (payload ← verify_token settings
               (create_refresh_token settings (sub_claims (User.id user)) now)
               "refresh" now2;
   sub_user_id payload) = Ok (User.id user).
Proof.
  intros Hsv Hint Hexp.
  rewrite create_refresh_token_eq, (verify_signed _ _ _ _ Hsv).
  simpl. rewrite decide_False by lia.
  assert (Some "refresh" = Some "refresh") as Heq by done.
  destruct (decide (Some "refresh" ≠ Some "refresh")) as [Hne|_];
    [by destruct Hne|]. exact Hint.
Qed.

(** X5. Tokens are made of the subject and the second of issue alone, and the
    store keeps them unique: a refresh in the second of the login that
    issued the token, and a second login of the user in that second, are
    both refused by the store and leave the state. *)
Theorem same_second_token_collision (user_data : LoginRequest) now db
  resp cookie db' user :
  login settings user_data now db = (Ok resp, cookie, db') →
  query_first (λ u, User.email u = login_email user_data) (users db)
  = Some user →
  signs_and_verifies settings
    (update_exp_type (sub_claims (User.id user)) (refresh_expiry settings now)
       "refresh") →
  sub_user_id (sub_claims (User.id user)) = Ok (User.id user) →
  0 ≤ jwt_refresh_token_expire_days settings →
  refresh_token settings
    (create_refresh_token settings (sub_claims (User.id user)) now) now db'
  = (Raise IntegrityError, None, db')
  ∧ login settings user_data now db' = (Raise IntegrityError, None, db').
Proof.
  intros Hlogin Hq Hsv Hint Hdays.
  apply login_success_state in Hlogin
    as (user' & Hq' & Hpw & Hact & _ & _ & Hu & _ & Hrt & _ & _).
  assert (user' = user) as -> by congruence.
  set (tok := create_refresh_token settings (sub_claims (User.id user)) now) in *.
  assert (tok ∈ RefreshToken.token <$> refresh_tokens db') as Hin.
  { rewrite Hrt, fmap_app. apply elem_of_app. right. simpl. left. }
  split.
  - unfold refresh_token. unfold tok at 1.
    rewrite (refresh_token_reads_back now now user Hsv Hint)
      by (unfold refresh_expiry; lia).
    destruct (list_find _ _) as [[i row]|] eqn:Hfind.
    + apply list_find_Some in Hfind as (Hi & _).
      unfold add_refresh_token. fold tok.
      rewrite (revoke_keeps_tokens _ _ _ _ Hi). by rewrite decide_True.
    + apply list_find_None in Hfind. rewrite Hrt in Hfind.
      apply Forall_app in Hfind as [_ Hlast].
      rewrite Forall_singleton in Hlast. exfalso. apply Hlast. simpl.
      split_and!; [done..|]. unfold timedelta_days. lia.
  - unfold login. rewrite Hu, Hq, Hpw, Hact. simpl.
    unfold add_refresh_token. fold tok. by rewrite decide_True.
Qed.

(** X6. Login, then refresh.  At a later second, while the token and the stored
    row are unexpired, the refresh token a login stored is accepted by
    [refresh_token], provided the token it would issue is not stored yet;
    the answer carries a new access token of the same user and the cookie
    carries the new refresh token. *)
Theorem login_then_refresh (user_data : LoginRequest) now now2 db
  resp cookie db' user :
  login settings user_data now db = (Ok resp, cookie, db') →
  query_first (λ u, User.email u = login_email user_data) (users db)
  = Some user →
  signs_and_verifies settings
    (update_exp_type (sub_claims (User.id user)) (refresh_expiry settings now)
       "refresh") →
  sub_user_id (sub_claims (User.id user)) = Ok (User.id user) →
  now2 ≤ refresh_expiry settings now →
  now2 < now + 7 * 86400 →
  create_refresh_token settings (sub_claims (User.id user)) now2
  ∉ RefreshToken.token <$> refresh_tokens db' →
  ∃ db'',
    refresh_token settings
      (create_refresh_token settings (sub_claims (User.id user)) now) now2 db'
    = (Ok {| access_token :=
               create_access_token settings (sub_claims (User.id user))
                 None now2;
             token_type := "bearer" |},
       Some (refresh_cookie
               (create_refresh_token settings (sub_claims (User.id user)) now2)),
       db'').
Proof.
  intros Hlogin Hq Hsv Hint Hexp Hrow Hfresh.
  apply login_success_state in Hlogin
    as (user' & Hq' & Hpw & Hact & _ & _ & Hu & _ & Hrt & _ & _).
  assert (user' = user) as -> by congruence.
  unfold refresh_token.
  rewrite (refresh_token_reads_back now now2 user Hsv Hint Hexp).
  destruct (list_find _ _) as [[i row]|] eqn:Hfind.
  - apply list_find_Some in Hfind as (Hi & _).
    unfold add_refresh_token.
    rewrite (revoke_keeps_tokens _ _ _ _ Hi).
    rewrite decide_False by done. eauto.
  - apply list_find_None in Hfind. rewrite Hrt in Hfind.
    apply Forall_app in Hfind as [_ Hlast].
    rewrite Forall_singleton in Hlast. exfalso. apply Hlast. simpl.
    split_and!; [done..|]. unfold timedelta_days. lia.
Qed.

(** ** Registration *)

Lemma register_cases (user_data : RegisterRequest) salt now db :
  (account_taken user_data db
   ∧ register pwd_hash user_data salt now db
     = (Raise (HTTPException HTTP_400_BAD_REQUEST
                 "Email or username already registered"), db))
  ∨ (¬ account_taken user_data db
     ∧ let user :=
         User.mk (fresh_id (User.id <$> users db)) (reg_email user_data)
           (reg_username user_data)
           (pwd_hash salt (reg_password user_data)) USER true now now in
       register pwd_hash user_data salt now db
       = (Ok user,
          log_action now (User.id user) "USER_REGISTERED" None None
            (Some {[ "username" := JStr (reg_username user_data);
                     "email" := JStr (reg_email user_data) ]})
            (set_users db (users db ++ [user])))).
Proof.
  unfold register, account_taken.
  destruct (query_first _ _) as [u|] eqn:Hq.
  - left. split; [|done]. apply query_first_elem_of in Hq as [? ?]. eauto.
  - right. split; [|done]. intros (u & Hin & Hu).
    by apply (proj1 (query_first_None _ _) Hq u Hin).
Qed.

(** X7. Registration keeps accounts unique.  A request whose address or name
    is held already is answered with a Bad Request and changes nothing;
    any other request appends one user, with a new id, the role [USER], the
    active flag and the hash of the password, and one audit row, so ids,
    addresses and names stay pairwise distinct. *)
Theorem register_keeps_accounts_unique (user_data : RegisterRequest)
  salt now db :
  NoDup (User.id <$> users db) →
  NoDup (User.email <$> users db) →
  NoDup (User.username <$> users db) →
  let out := register pwd_hash user_data salt now db in
  NoDup (User.id <$> users out.2)
  ∧ NoDup (User.email <$> users out.2)
  ∧ NoDup (User.username <$> users out.2)
  ∧ (account_taken user_data db →
     raises_status out.1 HTTP_400_BAD_REQUEST ∧ out.2 = db)
  ∧ (¬ account_taken user_data db →
     ∃ user,
       out.1 = Ok user
       ∧ users out.2 = users db ++ [user]
       ∧ User.email user = reg_email user_data
       ∧ User.username user = reg_username user_data
       ∧ User.hashed_password user = pwd_hash salt (reg_password user_data)
       ∧ User.role user = USER
       ∧ User.is_active user = true
       ∧ length (audit_logs out.2) = S (length (audit_logs db))
       ∧ tasks out.2 = tasks db
       ∧ refresh_tokens out.2 = refresh_tokens db).
Proof.
  intros Hid Hemail Hname out. subst out.
  destruct (register_cases user_data salt now db)
    as [[Htaken ->]|[Hfree ->]]; simpl.
  - by split_and!.
  - assert (reg_email user_data ∉ User.email <$> users db) as Hne.
    { intros Hin. apply list_elem_of_fmap in Hin as (u & Hu & Hin).
      apply Hfree. exists u. eauto. }
    assert (reg_username user_data ∉ User.username <$> users db) as Hnn.
    { intros Hin. apply list_elem_of_fmap in Hin as (u & Hu & Hin).
      apply Hfree. exists u. eauto. }
    pose proof (fresh_id_fresh (User.id <$> users db)) as Hfresh.
    rewrite !fmap_app. simpl. split_and!.
    + apply NoDup_app. split_and!; [done| |apply NoDup_singleton].
      intros x Hx Hx'. apply list_elem_of_singleton in Hx' as ->. done.
    + apply NoDup_app. split_and!; [done| |apply NoDup_singleton].
      intros x Hx Hx'. apply list_elem_of_singleton in Hx' as ->. done.
    + apply NoDup_app. split_and!; [done| |apply NoDup_singleton].
      intros x Hx Hx'. apply list_elem_of_singleton in Hx' as ->. done.
    + done.
    + intros _. eexists. split_and!; try reflexivity.
      rewrite length_app. simpl. lia.
Qed.

(** X8. Register, then log in.  With a hash the password check accepts, the
    address and the password of a successful registration log in, in the
    state the registration left, provided the refresh token to issue is not
    stored yet. *)
Theorem register_then_login (user_data : RegisterRequest) salt now now2 db
  user db' :
  register pwd_hash user_data salt now db = (Ok user, db') →
  pwd_verify (reg_password user_data)
    (pwd_hash salt (reg_password user_data)) = true →
  create_refresh_token settings (sub_claims (User.id user)) now2
  ∉ RefreshToken.token <$> refresh_tokens db' →
  ∃ db'',
    login settings
      {| login_email := reg_email user_data;
         login_password := reg_password user_data |} now2 db'
    = (Ok {| access_token :=
               create_access_token settings (sub_claims (User.id user))
                 None now2;
             token_type := "bearer" |},
       Some (refresh_cookie
               (create_refresh_token settings (sub_claims (User.id user)) now2)),
       db'').
Proof.
  intros Hreg Hpw Hfresh.
  destruct (register_cases user_data salt now db)
    as [[_ Heq]|[Hfree Heq]]; rewrite Heq in Hreg; [done|].
  simpl in Hreg. injection Hreg as <- <-.
  unfold login. simpl.
  assert (query_first (λ u, User.email u = reg_email user_data)
            (users db ++ [User.mk (fresh_id (User.id <$> users db))
                            (reg_email user_data) (reg_username user_data)
                            (pwd_hash salt (reg_password user_data))
                            USER true now now])
          = Some (User.mk (fresh_id (User.id <$> users db))
                    (reg_email user_data) (reg_username user_data)
                    (pwd_hash salt (reg_password user_data))
                    USER true now now)) as ->.
  { unfold query_first. rewrite filter_app.
    assert (filter (λ u, User.email u = reg_email user_data) (users db) = [])
      as ->.
    { apply head_None.
      apply (proj2 (query_first_None
                      (λ u, User.email u = reg_email user_data) (users db))).
      intros u Hu He. apply Hfree. exists u. eauto. }
    rewrite filter_cons, decide_True by done. done. }
  simpl. rewrite Hpw. simpl.
  unfold add_refresh_token. simpl in Hfresh.
  rewrite decide_False by done. eauto.
Qed.

End AuthProperties.

Section RevocationProperties.
Context (settings : Settings) `{Externals}.

Implicit Types (db : Db) (now : Z) (token : string).

(** A refresh with a token no stored row can serve is answered with
    Unauthorized and changes nothing. *)
Lemma refresh_token_no_usable_row token now db :
  (∀ r user_id, r ∈ refresh_tokens db → ¬ usable_row token user_id now r) →
  ∃ detail,
    refresh_token settings token now db
    = (Raise (HTTPException HTTP_401_UNAUTHORIZED detail), None, db).
Proof.
  intros Hnone. unfold refresh_token.
  destruct (_ ← verify_token _ _ _ _; _) as [user_id|]; [|by eauto].
  match goal with |- context [list_find ?P ?l] =>
    assert (list_find P l = None) as ->; [|by eauto] end.
  apply list_find_None, Forall_forall. intros r Hr. exact (Hnone r user_id Hr).
Qed.

Lemma revoke_by_token_cases token db :
  ((token ∉ RefreshToken.token <$> refresh_tokens db)
   ∧ revoke_by_token token db = None)
  ∨ (∃ i r,
       refresh_tokens db !! i = Some r
       ∧ RefreshToken.token r = token
       ∧ (∀ j r', refresh_tokens db !! j = Some r' → (j < i)%nat →
                  RefreshToken.token r' ≠ token)
       ∧ revoke_by_token token db
         = Some (set_refresh_tokens db (<[i := revoke r]> (refresh_tokens db)))).
Proof.
  unfold revoke_by_token.
  destruct (list_find _ _) as [[i r]|] eqn:Hfind.
  - right. apply list_find_Some in Hfind as (Hi & Htok & Hfirst).
    exists i, r. split_and!; try done.
  - left. split; [|done]. apply list_find_None in Hfind.
    intros Hin. apply list_elem_of_fmap in Hin as (r & Hr & Hin).
    rewrite Forall_forall in Hfind. by apply (Hfind r Hin).
Qed.

(** X9. Logging out.  [logout] never fails and asks for the cookie to be
    deleted; it is idempotent; it changes at most the revoked flag of the
    row that holds the token and removes no row; after it a refresh with
    that token is answered with Unauthorized at any time.  [revoke_token]
    leaves the same state, and answers Not Found exactly when no row holds
    the token. *)
Theorem logout_revokes token db :
  NoDup (RefreshToken.token <$> refresh_tokens db) →
  let db' := (logout token db).2 in
  (logout token db).1 = (Ok "Successfully logged out",
                         Some (DeleteCookie "refresh_token"))
  ∧ (logout token db').2 = db'
  ∧ Forall2 (λ r r', if decide (RefreshToken.token r = token)
                     then r' = revoke r else r' = r)
      (refresh_tokens db) (refresh_tokens db')
  ∧ users db' = users db ∧ tasks db' = tasks db
  ∧ audit_logs db' = audit_logs db
  ∧ (∀ now, ∃ detail,
       refresh_token settings token now db'
       = (Raise (HTTPException HTTP_401_UNAUTHORIZED detail), None, db'))
  ∧ (revoke_token token db).2 = db'
  ∧ (raises_status (revoke_token token db).1 HTTP_404_NOT_FOUND
     ↔ token ∉ RefreshToken.token <$> refresh_tokens db)
  ∧ (token ∈ RefreshToken.token <$> refresh_tokens db →
     (revoke_token token db).1 = Ok "Token revoked successfully").
Proof.
  intros Hnd db'. subst db'. unfold logout, revoke_token. simpl.
  destruct (revoke_by_token_cases token db)
    as [[Hnin ->]|(i & r & Hi & Htok & Hfirst & ->)]; simpl.
  - assert (revoke_by_token token db = None) as ->.
    { destruct (revoke_by_token_cases token db)
        as [[_ ?]|(i & r & Hi & Htok & _)]; [done|].
      destruct Hnin. apply list_elem_of_fmap. exists r. split; [done|].
      by eapply list_elem_of_lookup_2. }
    simpl. split_and!; try done.
    + apply Forall2_same_length_lookup_2; [done|].
      intros j x y Hx Hy. rewrite Hx in Hy. injection Hy as <-.
      case_decide as Hx'; [|done]. destruct Hnin.
      apply list_elem_of_fmap. exists x. split; [done|].
      by eapply list_elem_of_lookup_2.
    + intros now. apply refresh_token_no_usable_row.
      intros r user_id Hr (Hrt & _). apply Hnin.
      apply list_elem_of_fmap. eauto.
  - assert (Forall2 (λ r0 r', if decide (RefreshToken.token r0 = token)
                              then r' = revoke r0 else r' = r0)
              (refresh_tokens db) (<[i:=revoke r]> (refresh_tokens db))) as Hrel.
    { apply Forall2_same_length_lookup_2; [by rewrite length_insert|].
      intros j x y Hx Hy.
      apply list_lookup_insert_Some in Hy as [(<- & <- & _)|(Hne & Hy)].
      - rewrite Hi in Hx. injection Hx as <-. by rewrite decide_True.
      - rewrite Hx in Hy. injection Hy as <-.
        rewrite decide_False; [done|]. intros Hx'. apply Hne.
        eapply (unique_key_lookup RefreshToken.token); eauto. congruence. }
    split_and!; try done.
    + unfold revoke_by_token. simpl.
      assert (list_find (λ r0, RefreshToken.token r0 = token)
                (<[i:=revoke r]> (refresh_tokens db)) = Some (i, revoke r)) as ->.
      { apply list_find_Some. split_and!.
        - apply list_lookup_insert_eq. by eapply lookup_lt_Some.
        - done.
        - intros j y Hy Hlt. rewrite list_lookup_insert_ne in Hy by lia.
          by apply (Hfirst j y). }
      simpl. unfold set_refresh_tokens. simpl. f_equal.
      by rewrite list_insert_insert_eq.
    + intros now. apply refresh_token_no_usable_row.
      intros r' user_id Hr (Hrt & _ & Hrev & _). simpl in Hr.
      apply list_elem_of_lookup in Hr as [j Hj].
      apply list_lookup_insert_Some in Hj as [(_ & <- & _)|(Hne & Hj)];
        [done|].
      apply Hne. eapply (unique_key_lookup RefreshToken.token); eauto.
      congruence.
    + split; [done|]. intros Hnin. destruct Hnin.
      apply list_elem_of_fmap. exists r. split; [done|].
      by eapply list_elem_of_lookup_2.
Qed.

(** The loop [for row in rows: setattr(row, ..)] over the selected rows
    rewrites each of them in place and no other. *)
Lemma update_selected_loop {A} (P : A → Prop) `{∀ x, Decision (P x)}
  (f : A → A) (pre l : list A) :
  foldl (λ acc it, <[it.1 := f it.2]> acc) (pre ++ l)
    (filter (λ it, P it.2) (imap (λ i x, ((length pre + i)%nat, x)) l))
  = pre ++ ((λ x, if decide (P x) then f x else x) <$> l).
Proof.
  revert pre. induction l as [|x l IH]; intros pre; [done|].
  assert (∀ x' : A,
            imap ((λ i y, ((length pre + i)%nat, y)) ∘ S) l
            = imap (λ i y, ((length (pre ++ [x']) + i)%nat, y)) l) as Hshift.
  { intros x'. apply imap_ext. intros i y _. simpl. f_equal.
    rewrite length_app. simpl. lia. }
  rewrite imap_cons, !filter_cons. cbn [snd fmap list_fmap].
  destruct (decide (P x)) as [HP|HP].
  - cbn [foldl fst snd]. rewrite insert_app_r. cbn [insert list_insert].
    rewrite (Hshift (f x)), cons_middle, app_assoc, IH.
    by rewrite <- app_assoc.
  - rewrite (Hshift x), cons_middle, app_assoc, IH.
    by rewrite <- app_assoc.
Qed.

Lemma update_selected_fmap {A} (P : A → Prop) `{∀ x, Decision (P x)}
  (f : A → A) (l : list A) :
  update_selected P f l = (λ x, if decide (P x) then f x else x) <$> l.
Proof. exact (update_selected_loop P f [] l). Qed.

(** X10. Revoking all tokens of a user.  For an unknown user the answer is Not
    Found and nothing changes.  Otherwise every row of the user that was
    not revoked is revoked in place and every other row is kept, so no
    active token of the user is left, [get_user_refresh_tokens] reports
    none, and no row of the user can serve a refresh; one audit row records
    the user and the number of rows revoked. *)
Theorem revoke_user_tokens_revokes_all user_id now (admin_user : User.t) db :
  let out := revoke_user_tokens user_id now admin_user db in
  (query_first (λ u, User.id u = user_id) (users db) = None →
   out = (Raise (HTTPException HTTP_404_NOT_FOUND "User not found"), db))
  ∧ (is_Some (query_first (λ u, User.id u = user_id) (users db)) →
     ∃ msg,
       out.1 = Ok msg
       ∧ refresh_tokens out.2
         = (λ r, if decide (active_token_of user_id r) then revoke r else r)
             <$> refresh_tokens db
       ∧ filter (active_token_of user_id) (refresh_tokens out.2) = []
       ∧ (∃ info,
            get_user_refresh_tokens user_id admin_user out.2 = (Ok info, out.2)
            ∧ active_tokens info = 0%nat ∧ ut_tokens info = [])
       ∧ (∀ r token now2, r ∈ refresh_tokens out.2 →
                          ¬ usable_row token user_id now2 r)
       ∧ audit_logs out.2
         = audit_logs db
           ++ [AuditLog.mk (fresh_id (AuditLog.id <$> audit_logs db))
                 (User.id admin_user) None "USER_TOKENS_REVOKED" None
                 (Some {[ "target_user_id" := JInt user_id;
                          "tokens_revoked" :=
                            JInt (Z.of_nat
                                    (length (filter (active_token_of user_id)
                                               (refresh_tokens db)))) ]})
                 now]
       ∧ users out.2 = users db ∧ tasks out.2 = tasks db).
Proof.
  intros out. subst out. unfold revoke_user_tokens. split.
  - by intros ->.
  - intros [user Hq]. rewrite Hq. simpl. rewrite update_selected_fmap.
    assert (∀ r, r ∈ (λ r, if decide (active_token_of user_id r)
                           then revoke r else r) <$> refresh_tokens db →
                 ¬ active_token_of user_id r) as Hnone.
    { intros r Hr [Huid Hrev]. apply list_elem_of_fmap in Hr as (r0 & -> & _).
      case_decide as Hact; [done|]. apply Hact. by split. }
    assert (filter (active_token_of user_id)
              ((λ r, if decide (active_token_of user_id r)
                     then revoke r else r) <$> refresh_tokens db) = []) as Hnil.
    { apply head_None.
      apply (proj2 (query_first_None (active_token_of user_id) _)). exact Hnone. }
    eexists. split_and!; try done.
    + unfold get_user_refresh_tokens. simpl. rewrite Hq. simpl.
      rewrite Hnil. eauto.
    + intros r token now2 Hr (_ & Huid & Hrev & _).
      by apply (Hnone r Hr).
Qed.

End RevocationProperties.

Section UserProperties.
Context (settings : Settings) `{Externals}.

Implicit Types (db : Db) (now : Z).

(** [UPDATE .. WHERE id = ..] on a table with a primary key rewrites the
    one row that holds the id. *)
Lemma replace_by_id (l : list User.t) (old row : User.t) :
  NoDup (User.id <$> l) → old ∈ l →
  ∃ l1 l2,
    l = l1 ++ old :: l2
    ∧ (λ u, if decide (User.id u = User.id old) then row else u) <$> l
      = l1 ++ row :: l2.
Proof.
  intros Hnd Hin. apply list_elem_of_split in Hin as (l1 & l2 & ->).
  exists l1, l2. split; [done|].
  rewrite fmap_app, fmap_cons in Hnd.
  apply NoDup_app in Hnd as (_ & Hl1 & Hl2). apply NoDup_cons in Hl2 as [Hl2 _].
  rewrite fmap_app, fmap_cons, decide_True by done. f_equal; [|f_equal].
  - rewrite <- (list_fmap_id l1) at 2. apply list_fmap_ext. intros i u Hu.
    rewrite decide_False; [done|]. intros Heq.
    apply (Hl1 (User.id u)); [|rewrite Heq; left].
    apply list_elem_of_fmap. exists u. split; [done|].
    by eapply list_elem_of_lookup_2.
  - rewrite <- (list_fmap_id l2) at 2. apply list_fmap_ext. intros i u Hu.
    rewrite decide_False; [done|]. intros Heq. apply Hl2.
    rewrite <- Heq. apply list_elem_of_fmap. exists u. split; [done|].
    by eapply list_elem_of_lookup_2.
Qed.

(** Rewriting one row keeps a column unique when the row keeps its value
    in the column or takes one no row holds. *)
Lemma NoDup_replace {A K} (f : A → K) (l1 l2 : list A) (old row : A) :
  NoDup (f <$> (l1 ++ old :: l2)) →
  f row = f old ∨ (f row ∉ f <$> (l1 ++ old :: l2)) →
  NoDup (f <$> (l1 ++ row :: l2)).
Proof.
  rewrite !fmap_app, !fmap_cons. intros Hnd [->|Hnew]; [done|].
  apply NoDup_app in Hnd as (Hl1 & Hdisj & Hl2).
  apply NoDup_cons in Hl2 as [_ Hl2].
  apply NoDup_app. split_and!; [done| |].
  - intros x Hx Hx'. apply elem_of_cons in Hx' as [->|Hx'].
    + apply Hnew. apply elem_of_app. by left.
    + apply (Hdisj x Hx). by right.
  - apply NoDup_cons. split; [|done]. intros Hin. apply Hnew.
    apply elem_of_app. right. by right.
Qed.

Lemma change_if_free_Ok (new : option string) (field : User.t → string)
  (set : User.t → string → User.t) (detail current : string) db
  (pending p' : User.t) :
  change_if_free new field set detail current db pending = Ok p' →
  p' = pending
  ∨ (∃ v, truthy_str new = Some v ∧ v ≠ current
          ∧ (v ∉ field <$> users db) ∧ p' = set pending v).
Proof.
  unfold change_if_free. destruct (truthy_str new) as [v|]; [|by left; congruence].
  case_decide as Hne; [|by left; congruence].
  destruct (query_first _ _) as [u|] eqn:Hq; [done|].
  intros [= <-]. right. exists v. split_and!; try done.
  intros Hin. apply list_elem_of_fmap in Hin as (u & Hu & Hin).
  by apply (proj1 (query_first_None _ _) Hq u Hin).
Qed.

Lemma change_if_free_Raise (new : option string) (field : User.t → string)
  (set : User.t → string → User.t) (detail current : string) db
  (pending : User.t) e :
  change_if_free new field set detail current db pending = Raise e →
  e = HTTPException HTTP_400_BAD_REQUEST detail
  ∧ ∃ v, truthy_str new = Some v ∧ v ≠ current ∧ v ∈ field <$> users db.
Proof.
  unfold change_if_free. destruct (truthy_str new) as [v|]; [|done].
  case_decide as Hne; [|done].
  destruct (query_first _ _) as [u|] eqn:Hq; [|done].
  intros [= <-]. split; [done|]. exists v. split_and!; try done.
  apply query_first_elem_of in Hq as [<- Hin].
  apply list_elem_of_fmap. eauto.
Qed.

(** X11. Updating one's profile keeps accounts unique.  The call either is
    answered with a Bad Request, because the new address or the new name is
    held by a user, and changes nothing, or succeeds: then addresses,
    names and ids stay pairwise distinct, no row but the caller's changes,
    the caller's row keeps its id, password hash, role, active flag and
    creation time, and one audit row is written, also when nothing
    changed. *)
Theorem update_profile_keeps_accounts_unique (user_update : UserUpdate) now
  (current_user : User.t) db :
  NoDup (User.id <$> users db) →
  NoDup (User.email <$> users db) →
  NoDup (User.username <$> users db) →
  current_user ∈ users db →
  let out := update_current_user_profile user_update now current_user db in
  (raises_status out.1 HTTP_400_BAD_REQUEST
   ∧ out.2 = db
   ∧ ((∃ v, truthy_str (uu_email user_update) = Some v
            ∧ v ≠ User.email current_user ∧ v ∈ User.email <$> users db)
      ∨ (∃ v, truthy_str (uu_username user_update) = Some v
              ∧ v ≠ User.username current_user
              ∧ v ∈ User.username <$> users db)))
  ∨ (∃ user,
       out.1 = Ok user
       ∧ NoDup (User.id <$> users out.2)
       ∧ NoDup (User.email <$> users out.2)
       ∧ NoDup (User.username <$> users out.2)
       ∧ Forall2 (λ u u', if decide (User.id u = User.id current_user)
                          then u' = user else u' = u)
           (users db) (users out.2)
       ∧ User.id user = User.id current_user
       ∧ User.hashed_password user = User.hashed_password current_user
       ∧ User.role user = User.role current_user
       ∧ User.is_active user = User.is_active current_user
       ∧ User.created_at user = User.created_at current_user
       ∧ length (audit_logs out.2) = S (length (audit_logs db))
       ∧ tasks out.2 = tasks db
       ∧ refresh_tokens out.2 = refresh_tokens db).
Proof.
  intros Hid Hemail Hname Hin out. subst out.
  unfold update_current_user_profile.
  destruct (change_if_free (uu_email user_update) _ _ _ _ _ _)
    as [p1|e1] eqn:H1; simpl.
  2:{ left. apply change_if_free_Raise in H1 as [-> Hwhy]. simpl. eauto. }
  destruct (change_if_free (uu_username user_update) _ _ _ _ _ _)
    as [p2|e2] eqn:H2; simpl.
  2:{ left. apply change_if_free_Raise in H2 as [-> Hwhy]. simpl. eauto. }
  right.
  apply change_if_free_Ok in H1. apply change_if_free_Ok in H2.
  assert (User.id p2 = User.id current_user
          ∧ User.hashed_password p2 = User.hashed_password current_user
          ∧ User.role p2 = User.role current_user
          ∧ User.is_active p2 = User.is_active current_user
          ∧ User.created_at p2 = User.created_at current_user
          ∧ (User.email p2 = User.email current_user
             ∨ User.email p2 ∉ User.email <$> users db)
          ∧ (User.username p2 = User.username current_user
             ∨ User.username p2 ∉ User.username <$> users db)) as Hp2.
  { destruct H1 as [->|(v1 & _ & _ & Hv1 & ->)],
      H2 as [->|(v2 & _ & _ & Hv2 & ->)]; simpl; split_and!; auto. }
  destruct Hp2 as (Hpid & Hph & Hpr & Hpa & Hpc & Hpe & Hpn).
  unfold commit_user. case_decide as Hsame.
  - subst p2. simpl. exists current_user. split_and!; try done.
    + apply Forall2_same_length_lookup_2; [done|].
      intros i x y Hx Hy. rewrite Hx in Hy. injection Hy as <-.
      case_decide as Hxid; [|done].
      apply list_elem_of_lookup in Hin as [j Hj].
      assert (i = j) as -> by (eapply (unique_key_lookup User.id); eauto).
      congruence.
    + rewrite length_app. simpl. lia.
  - simpl.
    destruct (replace_by_id (users db) current_user
                (set_user_updated_at p2 now) Hid Hin)
      as (l1 & l2 & Hsplit & ->).
    exists (set_user_updated_at p2 now). rewrite Hsplit in *.
    split_and!; try done.
    + by apply (NoDup_replace User.id l1 l2 current_user); [|left].
    + by apply (NoDup_replace User.email l1 l2 current_user).
    + by apply (NoDup_replace User.username l1 l2 current_user).
    + apply Forall2_app; [|constructor].
      * apply Forall2_same_length_lookup_2; [done|].
        intros i x y Hx Hy. rewrite Hx in Hy. injection Hy as <-.
        rewrite decide_False; [done|]. intros Heq.
        rewrite fmap_app, fmap_cons in Hid.
        apply NoDup_app in Hid as (_ & Hd & _).
        apply (Hd (User.id x)); [|rewrite Heq; left].
        apply list_elem_of_fmap. exists x. split; [done|].
        by eapply list_elem_of_lookup_2.
      * by rewrite decide_True.
      * apply Forall2_same_length_lookup_2; [done|].
        intros i x y Hx Hy. rewrite Hx in Hy. injection Hy as <-.
        rewrite decide_False; [done|]. intros Heq.
        rewrite fmap_app, fmap_cons in Hid.
        apply NoDup_app in Hid as (_ & _ & Hd).
        apply NoDup_cons in Hd as [Hd _]. apply Hd. rewrite <- Heq.
        apply list_elem_of_fmap. exists x. split; [done|].
        by eapply list_elem_of_lookup_2.
    + rewrite length_app. simpl. lia.
Qed.

End UserProperties.

Section ListingProperties.
Context (settings : Settings) `{Externals}.

Implicit Types (db : Db) (now : Z).





#[local] Instance updated_at_desc_trans : Transitive updated_at_desc.
Proof. unfold updated_at_desc. intros a b c ? ?. lia. Qed.
#[local] Instance updated_at_desc_total : Total updated_at_desc.
Proof. unfold updated_at_desc. intros a b. lia. Qed.
#[local] Instance timestamp_desc_trans : Transitive timestamp_desc.
Proof. unfold timestamp_desc. intros a b c ? ?. lia. Qed.
#[local] Instance timestamp_desc_total : Total timestamp_desc.
Proof. unfold timestamp_desc. intros a b. lia. Qed.
#[local] Instance timestamp_asc_trans : Transitive timestamp_asc.
Proof. unfold timestamp_asc. intros a b c ? ?. lia. Qed.
#[local] Instance timestamp_asc_total : Total timestamp_asc.
Proof. unfold timestamp_asc. intros a b. lia. Qed.

Lemma StronglySorted_take {A} (R : relation A) (l : list A) n :
  StronglySorted R l → StronglySorted R (take n l).
Proof.
  intros Hl. rewrite <- (take_drop n l) in Hl.
  by apply StronglySorted_app_1_l in Hl.
Qed.




Lemma truthy_int_forall (o : option Z) (P : Z → Prop) :
  (∀ b, truthy_int o = Some b → P b) ↔ (∀ a, o = Some a → a ≠ 0 → P a).
Proof.
  unfold truthy_int. destruct o as [a|].
  - case_decide as Ha.
    + split; [by intros _ a' [= <-] ?|by intros _ b [=]].
    + split; [intros Hb a' [= <-] _; by apply Hb|].
      intros Ha' b [= <-]. by apply Ha'.
  - split; by intros _ ? [=].
Qed.

Lemma truthy_str_forall (o : option string) (P : string → Prop) :
  (∀ b, truthy_str o = Some b → P b) ↔ (∀ s, o = Some s → s ≠ "" → P s).
Proof.
  unfold truthy_str. destruct o as [a|].
  - case_decide as Ha.
    + split; [by intros _ a' [= <-] ?|by intros _ b [=]].
    + split; [intros Hb a' [= <-] _; by apply Hb|].
      intros Ha' b [= <-]. by apply Ha'.
  - split; by intros _ ? [=].
Qed.

Lemma filter_if_elem_of_iff {A B} (param : option B) (P : B → A → Prop)
  `{∀ b x, Decision (P b x)} (query : list A) x :
  x ∈ filter_if param (λ b, filter (P b)) query
  ↔ x ∈ query ∧ ∀ b, param = Some b → P b x.
Proof.
  destruct param as [b|]; simpl.
  - rewrite list_elem_of_filter. split.
    + intros [? ?]. split; [done|]. by intros ? [= <-].
    + intros [? Hall]. split; [by apply Hall|done].
  - split; [|tauto]. intros ?. split; [done|]. by intros ? [=].
Qed.

(** X14. What [list_tasks] selects: exactly the stored tasks that are not
    deleted, that the caller created or is assigned to unless the caller is
    an administrator, and that pass every filter given; a status or a
    priority filter compares for equality, a due-date bound excludes tasks
    without a due date, and an [assigned_user_id] or [created_by] of 0 and
    an empty [search] are no filter at all. *)
Theorem list_tasks_query_exact (q : TaskQuery) (current_user : User.t)
  (rows : list Task.t) t :
  t ∈ list_tasks_query q current_user rows
  ↔ t ∈ rows
    ∧ Task.is_deleted t = false
    ∧ (User.role current_user ≠ ADMIN →
       Task.created_by t = User.id current_user
       ∨ Task.assigned_user_id t = Some (User.id current_user))
    ∧ (∀ status, q_status q = Some status → Task.status t = status)
    ∧ (∀ priority, q_priority q = Some priority → Task.priority t = priority)
    ∧ (∀ a, q_assigned_user_id q = Some a → a ≠ 0 →
            Task.assigned_user_id t = Some a)
    ∧ (∀ c, q_created_by q = Some c → c ≠ 0 → Task.created_by t = c)
    ∧ (∀ d, due_date_from q = Some d →
            ∃ due, Task.due_date t = Some due ∧ d ≤ due)
    ∧ (∀ d, due_date_to q = Some d →
            ∃ due, Task.due_date t = Some due ∧ due ≤ d)
    ∧ (∀ s, search q = Some s → s ≠ "" →
            sql_ilike (Task.title t) ("%" +:+ s +:+ "%") = true
            ∨ ∃ d, Task.description t = Some d
                   ∧ sql_ilike d ("%" +:+ s +:+ "%") = true).
Proof.
  unfold list_tasks_query.
  rewrite (filter_if_elem_of_iff _ matches_search).
  rewrite (filter_if_elem_of_iff _ due_to).
  rewrite (filter_if_elem_of_iff _ due_from).
  rewrite (filter_if_elem_of_iff _ (λ c t, Task.created_by t = c)).
  rewrite (filter_if_elem_of_iff _ (λ a t, Task.assigned_user_id t = Some a)).
  rewrite (filter_if_elem_of_iff _ (λ p t, Task.priority t = p)).
  rewrite (filter_if_elem_of_iff _ (λ s t, Task.status t = s)).
  assert (t ∈ (if decide (User.role current_user ≠ ADMIN)
               then filter (own_or_assigned current_user)
                      (filter (λ t, Task.is_deleted t = false) rows)
               else filter (λ t, Task.is_deleted t = false) rows)
          ↔ t ∈ rows ∧ Task.is_deleted t = false
            ∧ (User.role current_user ≠ ADMIN →
               own_or_assigned current_user t)) as ->.
  { case_decide; rewrite ?list_elem_of_filter; tauto. }
  assert ((∀ b, truthy_int (q_assigned_user_id q) = Some b →
                Task.assigned_user_id t = Some b)
          ↔ (∀ a, q_assigned_user_id q = Some a → a ≠ 0 →
                  Task.assigned_user_id t = Some a)) as ->.
  { apply truthy_int_forall. }
  assert ((∀ b, truthy_int (q_created_by q) = Some b → Task.created_by t = b)
          ↔ (∀ c, q_created_by q = Some c → c ≠ 0 → Task.created_by t = c))
    as ->.
  { apply (truthy_int_forall _ (λ c, Task.created_by t = c)). }
  assert ((∀ b, due_date_from q = Some b → due_from b t)
          ↔ (∀ d, due_date_from q = Some d →
                  ∃ due, Task.due_date t = Some due ∧ d ≤ due)) as ->.
  { unfold due_from. destruct (Task.due_date t) as [due|].
    - split; intros Hall d Hd; specialize (Hall d Hd); [by eauto|].
      destruct Hall as (due' & [= <-] & ?). done.
    - split; intros Hall d Hd; specialize (Hall d Hd); [done|].
      by destruct Hall as (? & [=] & _). }
  assert ((∀ b, due_date_to q = Some b → due_to b t)
          ↔ (∀ d, due_date_to q = Some d →
                  ∃ due, Task.due_date t = Some due ∧ due ≤ d)) as ->.
  { unfold due_to. destruct (Task.due_date t) as [due|].
    - split; intros Hall d Hd; specialize (Hall d Hd); [by eauto|].
      destruct Hall as (due' & [= <-] & ?). done.
    - split; intros Hall d Hd; specialize (Hall d Hd); [done|].
      by destruct Hall as (? & [=] & _). }
  assert ((∀ b, truthy_str (search q) = Some b → matches_search b t)
          ↔ (∀ s, search q = Some s → s ≠ "" →
                  sql_ilike (Task.title t) ("%" +:+ s +:+ "%") = true
                  ∨ ∃ d, Task.description t = Some d
                         ∧ sql_ilike d ("%" +:+ s +:+ "%") = true)) as ->.
  { rewrite (truthy_str_forall _ (λ s, matches_search s t)).
    unfold matches_search. destruct (Task.description t) as [d|].
    - split; intros Hall s Hs Hne; destruct (Hall s Hs Hne) as [?|Hd];
        [by left|right; by eauto|by left|right].
      by destruct Hd as (d' & [= <-] & ?).
    - split; intros Hall s Hs Hne; destruct (Hall s Hs Hne) as [?|Hd];
        [by left|done|by left|].
      by destruct Hd as (? & [=] & _). }
  unfold own_or_assigned. tauto.
Qed.

End ListingProperties.

Section TaskProperties.
Context (settings : Settings) `{Externals}.

Implicit Types (db : Db) (now : Z).

Lemma tasks_log_action now user_id action task_id old_values new_values db :
  tasks (log_action now user_id action task_id old_values new_values db)
  = tasks db
  ∧ users (log_action now user_id action task_id old_values new_values db)
    = users db.
Proof. done. Qed.

(** What a commit of a rewritten task row leaves. *)
Lemma commit_task_Ok now i (old new row : Task.t) db db' :
  commit_task now i old new db = Ok (row, db') →
  db' = db
  ∨ (row = Task.set_updated_at new now
     ∧ db' = set_tasks db (<[i := row]> (tasks db))
     ∧ ∀ a, Task.assigned_user_id new = Some a →
            Task.assigned_user_id old = Some a ∨ a ∈ User.id <$> users db).
Proof.
  unfold commit_task. case_decide; [intros [= <- <-]; by left|].
  destruct (Task.assigned_user_id new) as [a|] eqn:Ha.
  - case_decide as Hfk; [done|]. intros [= <- <-]. right.
    split_and!; [done..|]. intros a' [= <-].
    destruct (decide (Some a = Task.assigned_user_id old)) as [Heq|Hne];
      [by left|].
    right. destruct (decide (a ∈ User.id <$> users db)); [done|].
    destruct Hfk. split; [congruence|done].
  - intros [= <- <-]. right. split_and!; [done..|]. by intros a [=].
Qed.

Lemma tasks_consistent_insert db i (old row : Task.t) :
  tasks_consistent db →
  tasks db !! i = Some old →
  Task.id row = Task.id old →
  (∀ a, Task.assigned_user_id row = Some a →
        Task.assigned_user_id old = Some a ∨ a ∈ User.id <$> users db) →
  tasks_consistent (set_tasks db (<[i := row]> (tasks db))).
Proof.
  intros [Hpk Hfk] Hi Hid Hrow. split; simpl.
  - rewrite list_fmap_insert, Hid. rewrite list_insert_id; [done|].
    by rewrite list_lookup_fmap, Hi.
  - intros t a Ht Ha. apply list_elem_of_lookup in Ht as [j Hj].
    apply list_lookup_insert_Some in Hj as [(_ & <- & _)|(_ & Hj)].
    + destruct (Hrow a Ha) as [Hold|?]; [|done].
      apply (Hfk old a); [by eapply list_elem_of_lookup_2|done].
    + apply (Hfk t a); [by eapply list_elem_of_lookup_2|done].
Qed.

(** X15. The writes to [tasks] keep its constraints: after [create_task],
    [update_task], [delete_task], [assign_task] and [bulk_assign_tasks],
    whatever they answer, task ids are pairwise distinct and every
    non-null assignee is the id of a stored user, if that held before. *)
Theorem task_writes_keep_constraints db now (caller : User.t) :
  tasks_consistent db →
  (∀ task_data, tasks_consistent (create_task task_data now caller db).2)
  ∧ (∀ task_id task_update,
       tasks_consistent (update_task task_id task_update now caller db).2)
  ∧ (∀ task_id, tasks_consistent (delete_task task_id now caller db).2)
  ∧ (∀ task_id user_id,
       tasks_consistent (assign_task task_id user_id now caller db).2)
  ∧ (∀ task_ids user_id,
       tasks_consistent (bulk_assign_tasks task_ids user_id now caller db).2).
Proof.
  intros Hc. split_and!.
  - intros task_data. unfold create_task. case_decide; [done|].
    destruct (add_task _ db) as [db'|e] eqn:Hadd; [|done]. simpl.
    assert (∀ a, tc_assigned_user_id task_data = Some a →
                 a ∈ User.id <$> users db) as Hfk.
    { intros a Ha. unfold add_task in Hadd. simpl in Hadd. rewrite Ha in Hadd.
      by destruct (decide (a ∉ User.id <$> users db)) as [|Hin%dec_stable]. }
    assert (db' = set_tasks db
                    (tasks db
                     ++ [Task.mk (fresh_id (Task.id <$> tasks db))
                           (tc_title task_data) (tc_description task_data)
                           (tc_status task_data) (tc_priority task_data)
                           (tc_due_date task_data)
                           (tc_assigned_user_id task_data)
                           (User.id caller) now now false])) as ->.
    { unfold add_task in Hadd. simpl in Hadd.
      destruct (tc_assigned_user_id task_data);
        [case_decide; [done|]|]; by injection Hadd as <-. }
    destruct Hc as [Hpk Hall]. split; simpl.
    + rewrite fmap_app. apply NoDup_app.
      split_and!; [done| |apply NoDup_singleton].
      intros x Hx Hx'. apply list_elem_of_singleton in Hx' as ->.
      by apply fresh_id_fresh in Hx.
    + intros t a Ht Ha. apply elem_of_app in Ht as [Ht|Ht]; [by eapply Hall|].
      apply list_elem_of_singleton in Ht as ->. by apply Hfk.
  - intros task_id task_update. unfold update_task.
    destruct (find_task _ _) as [[i task]|] eqn:Hfind; [|done].
    apply list_find_Some in Hfind as (Hi & _).
    case_decide; [done|].
    destruct (update_assignee _ _ _) as [new|] eqn:Hnew; simpl; [|done].
    destruct (commit_task _ _ _ _ _) as [[row db']|] eqn:Hcommit; [|done].
    simpl. apply commit_task_Ok in Hcommit as [->|(-> & -> & Hfk)]; [done|].
    apply (tasks_consistent_insert db i task); try done. simpl.
    apply update_assignee_frame in Hnew as (_ & Hshape & _).
    destruct (update_fields_frame task_update task) as (_ & _ & (Hid & _) & _).
    rewrite Hshape. simpl. exact Hid.
  - intros task_id. unfold delete_task.
    destruct (find_task _ _) as [[i task]|] eqn:Hfind; [|done].
    apply list_find_Some in Hfind as (Hi & _).
    case_decide; [done|].
    destruct (commit_task _ _ _ _ _) as [[row db']|] eqn:Hcommit; [|done].
    simpl. apply commit_task_Ok in Hcommit as [->|(-> & -> & Hfk)]; [done|].
    apply (tasks_consistent_insert db i task); try done.
  - intros task_id user_id. unfold assign_task.
    destruct (find_task _ _) as [[i task]|] eqn:Hfind; [|done].
    apply list_find_Some in Hfind as (Hi & _).
    destruct (query_first _ _) as [user|]; [|done].
    destruct (commit_task _ _ _ _ _) as [[row db']|] eqn:Hcommit; [|done].
    simpl. apply commit_task_Ok in Hcommit as [->|(-> & -> & Hfk)]; [done|].
    apply (tasks_consistent_insert db i task); try done.
  - intros task_ids user_id.
    destruct (bulk_assign_tasks task_ids user_id now caller db)
      as [[r|e] db'] eqn:Hbulk; simpl.
    + pose proof Hbulk as Hok.
      apply bulk_assign_tasks_success in Hbulk as (Ht & _ & _ & Hu & _).
      unfold bulk_assign_tasks in Hok.
      destruct (query_first _ _) as [user|] eqn:Hq; [|done].
      apply query_first_elem_of in Hq as [Huid Hin].
      destruct Hc as [Hpk Hall]. split.
      * rewrite Ht, <- list_fmap_compose.
        erewrite list_fmap_ext; [exact Hpk|]. intros i t _.
        unfold compose.
        by destruct (decide ((Task.id t ∈ task_ids ∧ Task.is_deleted t = false)
                             ∧ Task.assigned_user_id t ≠ Some user_id)).
      * intros t a Hin' Ha. rewrite Hu. rewrite Ht in Hin'.
        apply list_elem_of_fmap in Hin' as (t0 & -> & Ht0).
        destruct (decide ((Task.id t0 ∈ task_ids ∧ Task.is_deleted t0 = false)
                          ∧ Task.assigned_user_id t0 ≠ Some user_id)).
        -- simpl in Ha. injection Ha as <-. rewrite <- Huid.
           apply list_elem_of_fmap. eauto.
        -- by eapply Hall.
    + unfold bulk_assign_tasks in Hbulk.
      destruct (query_first _ _); [|by injection Hbulk as _ <-].
      case_decide; [by injection Hbulk as _ <-|].
      by destruct (foldl _ _ _).
Qed.

Lemma query_first_id_None (user_id : Z) (rows : list User.t) :
  query_first (λ u, User.id u = user_id) rows = None
  ↔ user_id ∉ User.id <$> rows.
Proof.
  rewrite query_first_None. split.
  - intros Hall (u & -> & Hu)%list_elem_of_fmap. by apply (Hall u).
  - intros Hno u Hu Hid. apply Hno, list_elem_of_fmap. eauto.
Qed.

Lemma assignee_missing_iff (assigned : option Z) db :
  assignee_missing assigned db
  ↔ ∃ a, assigned = Some a ∧ a ≠ 0 ∧ a ∉ User.id <$> users db.
Proof.
  unfold assignee_missing, truthy_int. destruct assigned as [a|].
  - destruct (decide (a = 0)) as [->|Hne].
    + split; [done|]. by intros (a & [= <-] & ? & _).
    + rewrite query_first_id_None. split; [eauto|].
      by intros (a' & [= <-] & _ & ?).
  - split; [done|]. by intros (a & [=] & _).
Qed.

(** X16. How [create_task] fails for a stored caller: with Bad Request exactly
    when the request names a non-zero assignee that no user has, with the
    integrity error of the store exactly when it names the assignee [0]
    and no user has the id [0], and in no other way; a failure writes
    nothing. *)
Theorem create_task_rejects_iff task_data now (caller : User.t) db :
  caller ∈ users db →
  let out := create_task task_data now caller db in
  (out = (Raise (HTTPException HTTP_400_BAD_REQUEST "Assigned user not found"),
          db)
   ↔ ∃ a, tc_assigned_user_id task_data = Some a ∧ a ≠ 0
          ∧ a ∉ User.id <$> users db)
  ∧ (out = (Raise IntegrityError, db)
     ↔ tc_assigned_user_id task_data = Some 0
       ∧ (0 ∉ User.id <$> users db))
  ∧ (∀ e db', out = (Raise e, db') →
       db' = db
       ∧ (e = HTTPException HTTP_400_BAD_REQUEST "Assigned user not found"
          ∨ e = IntegrityError)).
Proof.
  intros _. unfold create_task.
  destruct (decide (assignee_missing _ db)) as [Hm|Hm];
    rewrite assignee_missing_iff in Hm.
  { split_and!.
    - done.
    - split; [done|]. intros [H0 _]. destruct Hm as (a & Ha & Hne & _).
      congruence.
    - intros e db' [= <- <-]. eauto. }
  unfold add_task. simpl.
  destruct (tc_assigned_user_id task_data) as [a|] eqn:Ha.
  - destruct (decide (a ∉ User.id <$> users db)) as [Hno|Hin]; simpl.
    + assert (a = 0) as ->.
      { destruct (decide (a = 0)); [done|]. destruct Hm. eauto. }
      split_and!.
      * split; [done|]. intros ?. by destruct Hm.
      * done.
      * intros e db' [= <- <-]. eauto.
    + split_and!; [split; [done|]|split; [done|]|done].
      * intros ?. by destruct Hm.
      * by intros [[= ->] ?].
  - simpl. split_and!; [split; [done|]|split; [done|]|done].
    + intros ?. by destruct Hm.
    + by intros [[=] _].
Qed.

(** X17. What a successful [create_task] leaves: the answer is a new last row of
    [tasks] with an id no stored task has, created by the caller at [now]
    and not deleted, with an assignee who is a stored user; one
    [TASK_CREATED] audit row is appended; and the creator reads the same
    task back with [get_task]. *)
Theorem create_task_then_get task_data now (caller : User.t) db task db' :
  create_task task_data now caller db = (Ok task, db') →
  tasks db' = tasks db ++ [task]
  ∧ (Task.id task ∉ Task.id <$> tasks db)
  ∧ Task.created_by task = User.id caller
  ∧ Task.is_deleted task = false
  ∧ Task.created_at task = now ∧ Task.updated_at task = now
  ∧ (∀ a, Task.assigned_user_id task = Some a → a ∈ User.id <$> users db)
  ∧ users db' = users db ∧ refresh_tokens db' = refresh_tokens db
  ∧ (∃ row, audit_logs db' = audit_logs db ++ [row]
            ∧ AuditLog.action row = "TASK_CREATED"
            ∧ AuditLog.user_id row = User.id caller
            ∧ AuditLog.task_id row = Some (Task.id task)
            ∧ AuditLog.timestamp row = now)
  ∧ get_task (Task.id task) caller db' = (Ok task, db').
Proof.
  unfold create_task. case_decide; [done|].
  destruct (add_task _ db) as [db1|e] eqn:Hadd; [|done].
  intros [= <- <-].
  assert ((∀ a, tc_assigned_user_id task_data = Some a →
                a ∈ User.id <$> users db)
          ∧ db1 = set_tasks db
                    (tasks db
                     ++ [Task.mk (fresh_id (Task.id <$> tasks db))
                           (tc_title task_data) (tc_description task_data)
                           (tc_status task_data) (tc_priority task_data)
                           (tc_due_date task_data)
                           (tc_assigned_user_id task_data)
                           (User.id caller) now now false])) as [Hfk ->].
  { unfold add_task in Hadd. simpl in Hadd.
    destruct (tc_assigned_user_id task_data) as [a|].
    - destruct (decide (a ∉ User.id <$> users db)) as [|Hin%dec_stable];
        [done|].
      injection Hadd as <-. split; [|done]. by intros a' [= <-].
    - injection Hadd as <-. split; [|done]. by intros a' [=]. }
  pose proof (fresh_id_fresh (Task.id <$> tasks db)) as Hfresh.
  simpl. split_and!; try done.
  - eexists. split; [done|]. done.
  - unfold get_task. simpl.
    set (task := Task.mk _ _ _ _ _ _ _ _ _ _ _).
    assert (find_task (fresh_id (Task.id <$> tasks db)) (tasks db ++ [task])
            = Some (length (tasks db), task)) as ->.
    { apply list_find_Some. split; [|split].
      - by rewrite lookup_app_r, Nat.sub_diag by done.
      - done.
      - intros j y Hj Hlt [Hid _]. apply Hfresh. rewrite <- Hid.
        apply list_elem_of_fmap. exists y. split; [done|].
        apply (list_elem_of_lookup_2 _ j).
        by rewrite lookup_app_l in Hj by done. }
    rewrite decide_False; [done|]. simpl. tauto.
Qed.

(** What [commit_task] answers for a row whose assignee is unchanged. *)
Lemma commit_task_same_assignee now i (old new : Task.t) db :
  new ≠ old → Task.assigned_user_id new = Task.assigned_user_id old →
  commit_task now i old new db
  = Ok (Task.set_updated_at new now,
        set_tasks db (<[i := Task.set_updated_at new now]> (tasks db))).
Proof.
  intros Hne Hsame. unfold commit_task. rewrite decide_False by done.
  destruct (Task.assigned_user_id new); [|done].
  by rewrite decide_False by tauto.
Qed.

(** X18. Deleting is final. A successful [delete_task] rewrites one row in
    place, the live row with that id, setting [is_deleted] and refreshing
    [updated_at]; no row is removed and no id changes; one [TASK_DELETED]
    audit row is appended. From then on [get_task], [update_task],
    [delete_task] and [assign_task] answer Not Found for that id to every
    caller and write nothing. *)
Theorem delete_task_then_gone task_id now (caller : User.t) db msg db' :
  NoDup (Task.id <$> tasks db) →
  delete_task task_id now caller db = (Ok msg, db') →
  (∃ i task,
     tasks db !! i = Some task ∧ Task.id task = task_id
     ∧ Task.is_deleted task = false
     ∧ (User.role caller = ADMIN ∨ Task.created_by task = User.id caller)
     ∧ tasks db'
       = <[i := Task.set_updated_at (Task.set_is_deleted task true) now]>
           (tasks db))
  ∧ Task.id <$> tasks db' = Task.id <$> tasks db
  ∧ (∃ row, audit_logs db' = audit_logs db ++ [row]
            ∧ AuditLog.action row = "TASK_DELETED"
            ∧ AuditLog.user_id row = User.id caller
            ∧ AuditLog.task_id row = Some task_id)
  ∧ ∀ (caller2 : User.t) now2 task_update user_id,
      get_task task_id caller2 db' = (task_not_found, db')
      ∧ update_task task_id task_update now2 caller2 db' = (task_not_found, db')
      ∧ delete_task task_id now2 caller2 db' = (task_not_found, db')
      ∧ assign_task task_id user_id now2 caller2 db' = (task_not_found, db').
Proof.
  intros Hnd. unfold delete_task at 1.
  destruct (find_task _ _) as [[i task]|] eqn:Hfind; [|done].
  apply list_find_Some in Hfind as (Hi & [Hid Hlive] & _).
  case_decide as Hperm; [done|].
  rewrite commit_task_same_assignee; [|by destruct task; simpl in *; subst|done].
  intros [= <- <-]. simpl.
  assert (Task.id <$> <[i := Task.set_updated_at
                              (Task.set_is_deleted task true) now]> (tasks db)
          = Task.id <$> tasks db) as Hids.
  { rewrite list_fmap_insert. simpl. apply list_insert_id.
    by rewrite list_lookup_fmap, Hi. }
  split_and!.
  - exists i, task. split_and!; try done.
    destruct (decide (User.role caller = ADMIN)); [by left|].
    destruct (decide (Task.created_by task = User.id caller)); [by right|].
    destruct Hperm. done.
  - done.
  - eexists. split; [done|]. by rewrite Hid.
  - intros caller2 now2 task_update user_id.
    assert (find_task task_id
              (<[i := Task.set_updated_at (Task.set_is_deleted task true) now]>
                 (tasks db)) = None) as Hgone.
    { rewrite <- Hid.
      pose proof (find_task_deleted
                    (<[i := Task.set_updated_at
                              (Task.set_is_deleted task true) now]> (tasks db))
                    (Task.set_updated_at (Task.set_is_deleted task true) now))
        as Hdel.
      simpl in Hdel. apply Hdel; [by rewrite Hids| |done].
      apply (list_elem_of_lookup_2 _ i). apply list_lookup_insert_Some.
      left. split_and!; [done..|]. by eapply lookup_lt_Some. }
    unfold get_task, update_task, delete_task, assign_task. simpl.
    by rewrite Hgone.
Qed.

(** X19. Who may touch a stored task. For the live task with a given id:
    [get_task] returns it to an administrator, to its creator and to its
    assignee, and answers Forbidden to everyone else; [update_task] and
    [delete_task] answer Forbidden, writing nothing, exactly to callers
    who are neither administrator nor creator, so an assignee can read a
    task but not change or delete it. *)
Theorem task_access_by_role task_id (caller : User.t) db i task :
  find_task task_id (tasks db) = Some (i, task) →
  let permitted_write :=
    User.role caller = ADMIN ∨ Task.created_by task = User.id caller in
  let permitted_read :=
    permitted_write ∨ Task.assigned_user_id task = Some (User.id caller) in
  (permitted_read → get_task task_id caller db = (Ok task, db))
  ∧ (¬ permitted_read →
     get_task task_id caller db
     = (Raise (HTTPException HTTP_403_FORBIDDEN
                 "Not enough permissions to view this task"), db))
  ∧ (∀ task_update now,
       (update_task task_id task_update now caller db
        = (Raise (HTTPException HTTP_403_FORBIDDEN
                    "Not enough permissions to update this task"), db)
        ↔ ¬ permitted_write))
  ∧ (∀ now,
       (delete_task task_id now caller db
        = (Raise (HTTPException HTTP_403_FORBIDDEN
                    "Not enough permissions to delete this task"), db)
        ↔ ¬ permitted_write)
       ∧ (permitted_write →
          ∃ db', delete_task task_id now caller db
                 = (Ok "Task deleted successfully", db'))).
Proof.
  intros Hfind permitted_write permitted_read.
  pose proof Hfind as (Hi & [Hid Hlive] & _)%list_find_Some.
  unfold get_task, update_task, delete_task. rewrite Hfind.
  subst permitted_read permitted_write. split_and!.
  - intros Hp. rewrite decide_False; [done|]. intros (? & ? & ?).
    by destruct Hp as [[?|?]|?].
  - intros Hp. rewrite decide_True; [done|]. split_and!; intros ?; apply Hp; eauto.
  - intros task_update now. split.
    + case_decide as Hp; [intros _; tauto|].
      destruct (update_assignee task_update db (update_fields task_update task))
        as [new|e] eqn:Hnew; simpl.
      * destruct (commit_task now i task new db) as [[??]|e] eqn:Hc; [done|].
        intros [= ->]. unfold commit_task in Hc. by repeat case_match.
      * intros [= ->]. unfold update_assignee in Hnew.
        by repeat case_match.
    + intros Hp. rewrite decide_True; [done|]. split; intros ?; apply Hp; eauto.
  - intros now. split.
    + split.
      * case_decide as Hp; [intros _; tauto|].
        rewrite commit_task_same_assignee;
          [done|by destruct task; simpl in *; subst|done].
      * intros Hp. rewrite decide_True; [done|].
        split; intros ?; apply Hp; eauto.
    + intros Hp. rewrite decide_False by tauto.
      rewrite commit_task_same_assignee;
        [eauto|by destruct task; simpl in *; subst|done].
Qed.

Lemma create_task_logs_one task_data now (caller : User.t) db task db' :
  create_task task_data now caller db = (Ok task, db') →
  logs_one now (User.id caller) "TASK_CREATED" (Some (Task.id task)) db db'.
Proof.
  unfold create_task. case_decide; [done|].
  destruct (add_task _ db) as [db1|e] eqn:Hadd; [|done].
  intros [= <- <-].
  assert (audit_logs db1 = audit_logs db) as Ha.
  { unfold add_task in Hadd. repeat case_match; by simplify_eq. }
  pose proof (fresh_id_fresh (AuditLog.id <$> audit_logs db)) as Hfresh.
  eexists. split; [simpl; by rewrite Ha|]. simpl. by rewrite ?Ha.
Qed.

End TaskProperties.

Section AssignmentProperties.
Context (settings : Settings) `{Externals}.

Implicit Types (db : Db) (now : Z).

(** The row a successful [assign_task] leaves at the position of the task
    it found. *)
Lemma assign_task_Ok task_id user_id now (admin_user : User.t) db msg db' :
  assign_task task_id user_id now admin_user db = (Ok msg, db') →
  ∃ i task row user,
    find_task task_id (tasks db) = Some (i, task)
    ∧ query_first (λ u, User.id u = user_id) (users db) = Some user
    ∧ msg = "Task assigned to user " +:+ pretty user_id
    ∧ tasks db' = <[i := row]> (tasks db)
    ∧ Task.id row = task_id ∧ Task.is_deleted row = false
    ∧ Task.assigned_user_id row = Some user_id
    ∧ users db' = users db
    ∧ audit_logs db'
      = audit_logs db
        ++ [AuditLog.mk (fresh_id (AuditLog.id <$> audit_logs db))
              (User.id admin_user) (Some task_id) "TASK_ASSIGNED"
              (Some {[ "assigned_user_id" :=
                         json_opt JInt (Task.assigned_user_id task) ]})
              (Some {[ "assigned_user_id" := JInt user_id ]}) now].
Proof.
  unfold assign_task.
  destruct (find_task _ _) as [[i task]|] eqn:Hfind; [|done].
  destruct (query_first _ _) as [user|] eqn:Hq; [|done].
  pose proof Hfind as (Hi & [Hid Hlive] & _)%list_find_Some.
  pose proof Hq as [Huid Hin]%query_first_elem_of.
  unfold commit_task.
  destruct (decide (Task.set_assigned_user_id task (Some user_id) = task))
    as [Hsame|Hdiff].
  - intros [= <- <-]. exists i, task, task, user. simpl.
    rewrite list_insert_id by done. rewrite Hid.
    split_and!; try done. by rewrite <- Hsame.
  - simpl. rewrite decide_False.
    + intros [= <- <-].
      exists i, task,
        (Task.set_updated_at (Task.set_assigned_user_id task (Some user_id))
           now), user.
      simpl. split_and!; try done. by rewrite Hid.
    + intros [_ Hno]. apply Hno, list_elem_of_fmap. eauto.
Qed.

(** X20. Assigning moves a task between the per-user listings. After a
    successful [assign_task], [get_tasks_assigned_to_user] lists the task
    for the new assignee and for no other user; the answer names the new
    assignee, no task id changes, and one [TASK_ASSIGNED] audit row records
    the task and the caller. *)
Theorem assign_task_then_listed task_id user_id now (admin_user : User.t)
  db msg db' :
  NoDup (Task.id <$> tasks db) →
  assign_task task_id user_id now admin_user db = (Ok msg, db') →
  msg = "Task assigned to user " +:+ pretty user_id
  ∧ Task.id <$> tasks db' = Task.id <$> tasks db
  ∧ (∃ r t, get_tasks_assigned_to_user user_id admin_user db' = (Ok r, db')
            ∧ t ∈ at_tasks r ∧ Task.id t = task_id)
  ∧ (∀ other r t,
       other ≠ user_id →
       get_tasks_assigned_to_user other admin_user db' = (Ok r, db') →
       t ∈ at_tasks r → Task.id t ≠ task_id)
  ∧ (∃ row, audit_logs db' = audit_logs db ++ [row]
            ∧ AuditLog.action row = "TASK_ASSIGNED"
            ∧ AuditLog.user_id row = User.id admin_user
            ∧ AuditLog.task_id row = Some task_id).
Proof.
  intros Hnd Hok.
  apply assign_task_Ok in Hok
    as (i & task & row & user & Hfind & Hq & -> & Ht & Hid & Hlive & Hasg
        & Hu & Ha).
  apply list_find_Some in Hfind as (Hi & [Hid0 _] & _).
  assert (Task.id <$> tasks db' = Task.id <$> tasks db) as Hids.
  { rewrite Ht, list_fmap_insert. apply list_insert_id.
    rewrite list_lookup_fmap, Hi. simpl. congruence. }
  assert (tasks db' !! i = Some row) as Hrow.
  { rewrite Ht. apply list_lookup_insert_Some. left.
    split_and!; [done..|]. by eapply lookup_lt_Some. }
  split_and!; [done|done| | |].
  - unfold get_tasks_assigned_to_user. rewrite Hu, Hq.
    eexists _, row. split; [done|]. simpl. split; [|done].
    apply list_elem_of_filter. split; [done|]. by eapply list_elem_of_lookup_2.
  - intros other r t Hother. unfold get_tasks_assigned_to_user.
    destruct (query_first (λ u, User.id u = other) (users db')); [|done].
    intros [= <-]. simpl.
    intros [[Hto _] [j Hj]%list_elem_of_lookup]%list_elem_of_filter Htid.
    assert (j = i) as ->.
    { eapply (unique_key_lookup Task.id); [by rewrite Hids|done..|congruence]. }
    congruence.
  - eexists. split; [done|]. done.
Qed.

End AssignmentProperties.

Section AuditProperties.
Context (settings : Settings) `{Externals}.

Implicit Types (db : Db) (now : Z).

#[local] Existing Instance timestamp_desc_trans.
#[local] Existing Instance timestamp_desc_total.
#[local] Existing Instance timestamp_asc_trans.
#[local] Existing Instance timestamp_asc_total.

(** X21. The audit queries of the service. [get_user_activities] raises
    the data error of the store for a negative [limit]; for a [limit]
    from 0 up to the largest [bigint] it returns at most [limit] rows, all
    of the user, newest first, and the rows it leaves out are no newer
    than any row it returns; it returns all rows of the user when [limit]
    reaches their number. [get_task_history] returns the rows of the
    task, all of them, oldest first. *)
Theorem audit_service_queries db :
  (∀ user_id limit,
     limit < 0 → get_user_activities user_id limit db = Raise DataError)
  ∧ (∀ user_id limit,
       0 ≤ limit ≤ bigint_max →
       let rows := filter (λ a, AuditLog.user_id a = user_id) (audit_logs db) in
       ∃ l,
         get_user_activities user_id limit db = Ok l
         ∧ (length l ≤ Z.to_nat limit)%nat
         ∧ StronglySorted
             (λ a b, AuditLog.timestamp b ≤ AuditLog.timestamp a) l
         ∧ (∃ rest, l ++ rest ≡ₚ rows
                    ∧ ∀ a b, a ∈ l → b ∈ rest →
                             AuditLog.timestamp b ≤ AuditLog.timestamp a)
         ∧ ((length rows ≤ Z.to_nat limit)%nat → l ≡ₚ rows))
  ∧ (∀ task_id,
       let h := get_task_history task_id db in
       h ≡ₚ filter (λ a, AuditLog.task_id a = Some task_id) (audit_logs db)
       ∧ StronglySorted (λ a b, AuditLog.timestamp a ≤ AuditLog.timestamp b) h).
Proof.
  split_and!.
  - intros user_id limit Hneg. unfold get_user_activities, sql_limit.
    rewrite decide_False; [done|]. lia.
  - intros user_id limit Hrange rows.
    unfold get_user_activities, sql_limit. fold rows.
    rewrite decide_True by done. eexists. split; [reflexivity|].
    pose proof (StronglySorted_merge_sort timestamp_desc rows) as Hs.
    pose proof (merge_sort_Permutation timestamp_desc rows) as Hp.
    split_and!.
    + rewrite length_take. lia.
    + by apply (StronglySorted_take timestamp_desc).
    + exists (drop (Z.to_nat limit) (merge_sort timestamp_desc rows)).
      rewrite take_drop. split; [done|].
      intros a b Ha Hb.
      rewrite <- (take_drop (Z.to_nat limit)) in Hs.
      exact (StronglySorted_app_1_elem_of timestamp_desc _ _ a b Hs Ha Hb).
    + intros Hlen. rewrite take_ge; [done|]. by rewrite Hp.
  - intros task_id h. subst h. unfold get_task_history. split.
    + apply merge_sort_Permutation.
    + apply (StronglySorted_merge_sort timestamp_asc).
Qed.


Lemma count_action_total (m : gmap string nat) a :
  breakdown_total (count_action m a) = S (breakdown_total m).
Proof.
  unfold count_action, breakdown_total.
  destruct (m !! AuditLog.action a) as [k|] eqn:Hk; simpl.
  - rewrite <- insert_delete_eq.
    rewrite map_fold_insert_L;
      [|intros; lia|by rewrite lookup_delete_eq].
    rewrite (map_fold_delete_L _ _ (AuditLog.action a) k m);
      [lia|intros; lia|done].
  - rewrite map_fold_insert_L; [lia|intros; lia|done].
Qed.

Lemma count_action_lookup (m : gmap string nat) a (action : string) :
  default 0%nat (count_action m a !! action)
  = (default 0%nat (m !! action)
     + if decide (AuditLog.action a = action) then 1 else 0)%nat.
Proof.
  unfold count_action. case_decide as Ha.
  - subst action. by rewrite lookup_insert_eq.
  - rewrite lookup_insert_ne by done. lia.
Qed.

Lemma count_action_positive (m : gmap string nat) a :
  map_Forall (λ _ k, (0 < k)%nat) m →
  map_Forall (λ _ k, (0 < k)%nat) (count_action m a).
Proof.
  intros Hm. unfold count_action. apply map_Forall_insert_2; [lia|done].
Qed.

Lemma foldl_count_action (l : list AuditLog.t) (m : gmap string nat) :
  breakdown_total (foldl count_action m l)
  = (breakdown_total m + length l)%nat
  ∧ (∀ action,
       default 0%nat (foldl count_action m l !! action)
       = (default 0%nat (m !! action)
          + length (filter (λ a, AuditLog.action a = action) l))%nat)
  ∧ (map_Forall (λ _ k, (0 < k)%nat) m →
     map_Forall (λ _ k, (0 < k)%nat) (foldl count_action m l)).
Proof.
  revert m. induction l as [|a l IH]; intros m; simpl.
  - split_and!; [lia| |done]. intros action. simpl. lia.
  - destruct (IH (count_action m a)) as (Ht & Hl & Hp). split_and!.
    + rewrite Ht, count_action_total. lia.
    + intros action. rewrite Hl, count_action_lookup, filter_cons.
      case_decide; simpl; lia.
    + intros Hm. by apply Hp, count_action_positive.
Qed.

Lemma filter_length_le {A} (P Q : A → Prop) `{∀ x, Decision (P x)}
  `{∀ x, Decision (Q x)} (l : list A) :
  (∀ x, P x → Q x) →
  (length (filter P l) ≤ length (filter Q l))%nat.
Proof.
  intros HPQ. induction l as [|x l IH]; [done|].
  rewrite !filter_cons.
  destruct (decide (P x)) as [HP|HP].
  - rewrite decide_True by auto. simpl. lia.
  - destruct (decide (Q x)); simpl; lia.
Qed.

(** X23. What [get_user_activity] reports. The user is looked up by id, Not
    Found when there is none. Otherwise, over the audit rows of the user
    in the last [days] days: [total_activities] is their number; the
    breakdown holds for every action the number of rows with that action,
    has an entry exactly for the actions that occur, and its counts add up
    to [total_activities]; [tasks_completed] is at most the count of
    [TASK_UPDATED]. Nothing is written. *)
Theorem get_user_activity_summary user_id days now (admin_user : User.t) db :
  let out := get_user_activity user_id days now admin_user db in
  let window :=
    filter (λ a, AuditLog.user_id a = user_id
                 ∧ now - timedelta_days days ≤ AuditLog.timestamp a)
      (audit_logs db) in
  out.2 = db
  ∧ (out.1 = Raise (HTTPException HTTP_404_NOT_FOUND "User not found")
     ↔ user_id ∉ User.id <$> users db)
  ∧ (∀ e, out.1 = Raise e →
          e = HTTPException HTTP_404_NOT_FOUND "User not found")
  ∧ ∀ r, out.1 = Ok r →
      total_activities r = length window
      ∧ (∀ action,
           default 0%nat (activity_breakdown r !! action)
           = length (filter (λ a, AuditLog.action a = action) window))
      ∧ (∀ action,
           is_Some (activity_breakdown r !! action)
           ↔ ∃ a, a ∈ window ∧ AuditLog.action a = action)
      ∧ breakdown_total (activity_breakdown r) = total_activities r
      ∧ (tasks_completed r
         ≤ default 0%nat (activity_breakdown r !! "TASK_UPDATED"))%nat.
Proof.
  intros out window. subst out. unfold get_user_activity.
  destruct (query_first _ _) as [user|] eqn:Hq; simpl.
  - pose proof Hq as [Huid Hin]%query_first_elem_of.
    split_and!; [done| |done|].
    + split; [done|]. intros Hno. destruct Hno. apply list_elem_of_fmap. eauto.
    + intros r [= <-]. simpl. fold window.
      destruct (foldl_count_action window ∅) as (Ht & Hl & Hp).
      assert (∀ action,
                default 0%nat (foldl count_action ∅ window !! action)
                = length (filter (λ a, AuditLog.action a = action) window))
        as Hcount.
      { intros action. rewrite Hl, lookup_empty. simpl. lia. }
      split_and!.
      * done.
      * done.
      * intros action. specialize (Hcount action). split.
        -- intros [k Hk]. rewrite Hk in Hcount. simpl in Hcount.
           assert (0 < k)%nat as Hpos.
           { eapply (Hp (map_Forall_empty _)). exact Hk. }
           destruct (filter (λ a, AuditLog.action a = action) window)
             as [|a rest] eqn:Hf; [simpl in Hcount; lia|].
           assert (a ∈ filter (λ a, AuditLog.action a = action) window)
             as [? ?]%list_elem_of_filter by (rewrite Hf; left).
           eauto.
        -- intros (a & Ha & Hact).
           assert (a ∈ filter (λ a, AuditLog.action a = action) window) as Hf
             by by apply list_elem_of_filter.
           destruct (foldl count_action ∅ window !! action) as [k|]; [eauto|].
           simpl in Hcount.
           destruct (filter (λ a, AuditLog.action a = action) window);
             [by apply elem_of_nil in Hf|done].
      * rewrite Ht. unfold breakdown_total. rewrite map_fold_empty. lia.
      * rewrite Hcount. subst window. rewrite list_filter_filter.
        apply filter_length_le. tauto.
  - apply query_first_id_None in Hq.
    split_and!; [done|done| |done]. by intros e [= <-].
Qed.

End AuditProperties.

Section ActivityProperties.
Context (settings : Settings) `{Externals}.

Implicit Types (db : Db) (now : Z).

Lemma snapshot_status (task : Task.t) :
  snapshot task !! "status"
  = Some (JStr (TaskStatus_value (Task.status task))).
Proof.
  unfold snapshot.
  rewrite !lookup_insert_ne by done. by rewrite lookup_insert_eq.
Qed.

Lemma TaskStatus_value_done (s : TaskStatus) :
  TaskStatus_value s = "done" ↔ s = DONE.
Proof. by destruct s. Qed.

Lemma filter_length_insert {A} (P : A → Prop) `{∀ x, Decision (P x)}
  (l : list A) i x y :
  l !! i = Some x → (P x ↔ P y) →
  length (filter P (<[i := y]> l)) = length (filter P l).
Proof.
  intros Hi HP.
  rewrite <- (take_drop_middle l i x Hi) at 2.
  rewrite insert_take_drop by by eapply lookup_lt_Some.
  rewrite !filter_app, !filter_cons, !length_app.
  destruct (decide (P x)) as [Hx|Hx].
  - by rewrite decide_True by tauto.
  - by rewrite decide_False by tauto.
Qed.

(** What a successful [update_task] leaves: one row rewritten in place,
    one audit row appended. *)
Lemma update_task_Ok task_id task_update now (caller : User.t) db task' db' :
  update_task task_id task_update now caller db = (Ok task', db') →
  users db' = users db
  ∧ ∃ i task,
      tasks db !! i = Some task ∧ Task.id task = task_id
      ∧ Task.created_by task' = Task.created_by task
      ∧ Task.created_at task' = Task.created_at task
      ∧ Task.id task' = task_id
      ∧ tasks db' = <[i := task']> (tasks db)
      ∧ audit_logs db'
        = audit_logs db
          ++ [AuditLog.mk (fresh_id (AuditLog.id <$> audit_logs db))
                (User.id caller) (Some task_id) "TASK_UPDATED"
                (Some (snapshot task)) (Some (snapshot task')) now].
Proof.
  unfold update_task.
  destruct (find_task _ _) as [[i task]|] eqn:Hfind; [|done].
  pose proof Hfind as (Hi & [Hid Hlive] & _)%list_find_Some.
  case_decide; [done|].
  destruct (update_assignee task_update db (update_fields task_update task))
    as [new|] eqn:Hnew; simpl; [|done].
  destruct (commit_task now i task new db) as [[row db1]|] eqn:Hc; [|done].
  intros [= <- <-].
  pose proof (updated_row_frame task_update db now task new Hnew)
    as (_ & _ & (Hrid & Hrcb & Hrca & _) & _).
  simpl in Hrid, Hrcb, Hrca.
  unfold commit_task in Hc.
  destruct (decide (new = task)) as [->|Hne].
  - injection Hc as <- <-. simpl. split; [done|].
    exists i, task. rewrite list_insert_id by done. by rewrite Hid.
  - assert (row = Task.set_updated_at new now
            ∧ db1 = set_tasks db (<[i := row]> (tasks db))) as [-> ->].
    { destruct (Task.assigned_user_id new); [case_decide; [done|]|];
        by injection Hc as <- <-. }
    simpl. split; [done|].
    exists i, task. rewrite Hrid, Hid. by split_and!.
Qed.

(** X24. How updates feed the activity summary. After a successful
    [update_task] at [now], the summary of the caller over a period that
    includes [now] has one more activity and one more [TASK_UPDATED], the
    same [tasks_created], and one more [tasks_completed] exactly when the
    status of the task after the update is [DONE], whatever it was before
    and whether or not the request named a status. *)
Theorem completed_count_follows_updates task_id task_update now
  (caller : User.t) db task' db' days now2 (admin_user : User.t) r :
  update_task task_id task_update now caller db = (Ok task', db') →
  now2 - timedelta_days days ≤ now →
  get_user_activity (User.id caller) days now2 admin_user db = (Ok r, db) →
  ∃ r',
    get_user_activity (User.id caller) days now2 admin_user db' = (Ok r', db')
    ∧ total_activities r' = S (total_activities r)
    ∧ default 0%nat (activity_breakdown r' !! "TASK_UPDATED")
      = S (default 0%nat (activity_breakdown r !! "TASK_UPDATED"))
    ∧ tasks_created r' = tasks_created r
    ∧ tasks_completed r'
      = (tasks_completed r
         + if decide (Task.status task' = DONE) then 1 else 0)%nat.
Proof.
  intros Hok Hnow Hr.
  apply update_task_Ok in Hok
    as (Hu & i & task & Hi & Hid & Hcb & Hca & Hid' & Ht & Ha).
  unfold get_user_activity in *. rewrite Hu.
  destruct (query_first _ (users db)) as [user|]; [|done].
  injection Hr as <-. eexists. split; [reflexivity|]. simpl.
  rewrite Ha, Ht. rewrite !filter_app, !filter_cons, !filter_nil. simpl.
  rewrite decide_True by done. split_and!.
  - rewrite length_app. simpl. lia.
  - rewrite foldl_app. simpl. rewrite count_action_lookup. simpl. lia.
  - apply (filter_length_insert _ (tasks db) i task task' Hi).
    by rewrite Hcb, Hca.
  - rewrite length_app. f_equal.
    destruct (decide (Task.status task' = DONE)) as [Hdone|Hdone].
    + rewrite decide_True; [done|]. split_and!; try done.
      unfold marks_done. simpl. by rewrite snapshot_status, Hdone.
    + rewrite decide_False; [done|]. intros (_ & _ & _ & Hm).
      unfold marks_done in Hm. simpl in Hm.
      rewrite snapshot_status in Hm. injection Hm as Hm.
      by apply TaskStatus_value_done in Hm.
Qed.

End ActivityProperties.

Section BulkAndTrailProperties.
Context (settings : Settings) `{Externals}.

Implicit Types (db : Db) (now : Z).

Lemma filter_length_fmap {A} (P : A → Prop) `{∀ x, Decision (P x)}
  (f : A → A) (l : list A) :
  (∀ x, P (f x) ↔ P x) →
  length (filter P (f <$> l)) = length (filter P l).
Proof.
  intros Hf. induction l as [|x l IH]; [done|].
  rewrite fmap_cons, !filter_cons.
  destruct (decide (P x)) as [Hx|Hx].
  - rewrite decide_True by by apply Hf. simpl. by rewrite IH.
  - rewrite decide_False by by rewrite Hf. done.
Qed.

Lemma filter_none {A} (P : A → Prop) `{∀ x, Decision (P x)} (l : list A) :
  (∀ x, x ∈ l → ¬ P x) → filter P l = [].
Proof.
  intros Hno. induction l as [|x l IH]; [done|].
  rewrite filter_cons, decide_False by (apply Hno; left).
  apply IH. intros y Hy. apply Hno. by right.
Qed.

Lemma select_tasks_length (task_ids : list Z) (rows : list Task.t) :
  length (select_tasks task_ids rows)
  = length (filter (λ t, Task.id t ∈ task_ids ∧ Task.is_deleted t = false)
              rows).
Proof. by rewrite <- select_tasks_rows, length_fmap. Qed.

Lemma set_tasks_id db : set_tasks db (tasks db) = db.
Proof. by destruct db. Qed.

(** X25. Bulk assignment reaches its goal and is idempotent. After a
    successful [bulk_assign_tasks] every listed task that is not deleted is
    assigned to the user, and the same request again succeeds, reports no
    task updated and the same total, and leaves the state as it is. *)
Theorem bulk_assign_tasks_idempotent (task_ids : list Z) user_id now now2
  (admin_user : User.t) db r db' :
  bulk_assign_tasks task_ids user_id now admin_user db = (Ok r, db') →
  (∀ t, t ∈ tasks db' → Task.id t ∈ task_ids → Task.is_deleted t = false →
        Task.assigned_user_id t = Some user_id)
  ∧ ∃ r2,
      bulk_assign_tasks task_ids user_id now2 admin_user db' = (Ok r2, db')
      ∧ updated_tasks r2 = 0%nat
      ∧ bulk_total_tasks r2 = bulk_total_tasks r.
Proof.
  intros Hok.
  set (sel := λ t : Task.t,
                Task.id t ∈ task_ids ∧ Task.is_deleted t = false).
  set (f := λ t : Task.t,
              if decide (sel t ∧ Task.assigned_user_id t ≠ Some user_id)
              then reassign user_id now t else t).
  pose proof (bulk_assign_tasks_success _ _ _ _ _ _ _ Hok)
    as (Ht & _ & Htotal & Hu & _). fold sel f in Ht.
  assert (∀ t, sel (f t) ↔ sel t) as Hsel.
  { intros t. unfold f. by destruct (decide _). }
  assert (∀ t, ¬ (sel (f t) ∧ Task.assigned_user_id (f t) ≠ Some user_id))
    as Hdone.
  { intros t [Hs Ha]. apply (proj1 (Hsel t)) in Hs. revert Ha. unfold f.
    destruct (decide (sel t ∧ Task.assigned_user_id t ≠ Some user_id))
      as [_|Hno]; simpl; [done|].
    intros Ha. apply Hno. split; [exact Hs|exact Ha]. }
  split.
  - intros t Ht' Hid Hlive. rewrite Ht in Ht'.
    apply list_elem_of_fmap in Ht' as (t0 & -> & _).
    destruct (decide (Task.assigned_user_id (f t0) = Some user_id)); [done|].
    by destruct (Hdone t0).
  - unfold bulk_assign_tasks in Hok |- *. rewrite Hu.
    destruct (query_first _ (users db)) as [user|]; [|done].
    destruct (decide (length (select_tasks task_ids (tasks db))
                      ≠ length task_ids)) as [|Hlen%dec_stable]; [done|].
    assert (length (select_tasks task_ids (tasks db'))
            = length (select_tasks task_ids (tasks db))) as Hsame.
    { rewrite !select_tasks_length, Ht. by apply filter_length_fmap. }
    rewrite decide_False by (rewrite Hsame; by intros []).
    assert (foldl (bulk_assign_step user_id now2) (tasks db', 0%nat)
              (select_tasks task_ids (tasks db'))
            = (((λ t, if decide ((Task.id t ∈ task_ids
                                  ∧ Task.is_deleted t = false)
                                 ∧ Task.assigned_user_id t ≠ Some user_id)
                      then reassign user_id now2 t else t) <$> tasks db'),
               length (filter (λ t, (Task.id t ∈ task_ids
                                     ∧ Task.is_deleted t = false)
                                    ∧ Task.assigned_user_id t ≠ Some user_id)
                         (tasks db')))) as ->
      by exact (bulk_assign_loop task_ids user_id now2 [] (tasks db') 0).
    assert (filter (λ t, (Task.id t ∈ task_ids ∧ Task.is_deleted t = false)
                         ∧ Task.assigned_user_id t ≠ Some user_id) (tasks db')
            = []) as ->.
    { apply filter_none. intros t Hin. rewrite Ht in Hin.
      apply list_elem_of_fmap in Hin as (t0 & -> & _). apply Hdone. }
    assert ((λ t, if decide ((Task.id t ∈ task_ids
                              ∧ Task.is_deleted t = false)
                             ∧ Task.assigned_user_id t ≠ Some user_id)
                  then reassign user_id now2 t else t) <$> tasks db'
            = tasks db') as ->.
    { rewrite <- (list_fmap_id (tasks db')) at 2.
      apply list_fmap_ext. intros i t Hi. simpl.
      rewrite decide_False; [done|].
      rewrite Ht in Hi. apply list_lookup_fmap_Some in Hi as (t0 & -> & _).
      apply Hdone. }
    rewrite set_tasks_id. eexists. split; [reflexivity|]. simpl.
    split; [done|]. rewrite Htotal, Hsame. by rewrite Hlen.
Qed.


(** X27. The audit trail of the task routes. [create_task], [update_task],
    [delete_task] and [assign_task] append exactly one audit row when they
    succeed, carrying the caller, the action, the task and the time of the
    request under an id no stored row has, and leave the trail as it was
    when they fail; [bulk_assign_tasks] writes no audit row at all. *)
Theorem task_writes_audit_trail db now (caller : User.t) :
  (∀ task_data,
     let out := create_task task_data now caller db in
     match out.1 with
     | Ok task => logs_one now (User.id caller) "TASK_CREATED"
                    (Some (Task.id task)) db out.2
     | Raise _ => out.2 = db
     end)
  ∧ (∀ task_id task_update,
       let out := update_task task_id task_update now caller db in
       match out.1 with
       | Ok _ => logs_one now (User.id caller) "TASK_UPDATED" (Some task_id)
                   db out.2
       | Raise _ => out.2 = db
       end)
  ∧ (∀ task_id,
       let out := delete_task task_id now caller db in
       match out.1 with
       | Ok _ => logs_one now (User.id caller) "TASK_DELETED" (Some task_id)
                   db out.2
       | Raise _ => out.2 = db
       end)
  ∧ (∀ task_id user_id,
       let out := assign_task task_id user_id now caller db in
       match out.1 with
       | Ok _ => logs_one now (User.id caller) "TASK_ASSIGNED" (Some task_id)
                   db out.2
       | Raise _ => out.2 = db
       end)
  ∧ (∀ task_ids user_id,
       audit_logs (bulk_assign_tasks task_ids user_id now caller db).2
       = audit_logs db).
Proof.
  pose proof (fresh_id_fresh (AuditLog.id <$> audit_logs db)) as Hfresh.
  split_and!.
  - intros task_data out.
    destruct out as [[task|e] db'] eqn:Hout; subst out; simpl.
    + apply create_task_logs_one in Hout. exact Hout.
    + unfold create_task in Hout. case_decide; [by injection Hout as _ <-|].
      destruct (add_task _ db); [done|by injection Hout as _ <-].
  - intros task_id task_update out.
    destruct out as [[task'|e] db'] eqn:Hout; subst out; simpl.
    + apply update_task_Ok in Hout
        as (_ & i & task & _ & _ & _ & _ & _ & _ & Ha).
      eexists. split; [exact Ha|]. done.
    + unfold update_task in Hout.
      destruct (find_task _ _) as [[i task]|]; [|by injection Hout as _ <-].
      case_decide; [by injection Hout as _ <-|].
      destruct (mbind _ _) as [[??]|]; [done|by injection Hout as _ <-].
  - intros task_id out.
    destruct out as [[msg|e] db'] eqn:Hout; subst out; simpl.
    + unfold delete_task in Hout.
      destruct (find_task _ _) as [[i task]|] eqn:Hfind; [|done].
      apply list_find_Some in Hfind as (_ & [Hid _] & _).
      case_decide; [done|].
      destruct (commit_task _ _ _ _ _) as [[row db1]|] eqn:Hc; [|done].
      injection Hout as _ <-.
      assert (audit_logs db1 = audit_logs db ∧ Task.id row = task_id)
        as [Ha Hrow].
      { unfold commit_task in Hc. repeat case_match; simplify_eq; done. }
      eexists. split; [simpl; by rewrite Ha|]. simpl.
      by rewrite ?Ha, ?Hrow.
    + unfold delete_task in Hout.
      destruct (find_task _ _) as [[i task]|]; [|by injection Hout as _ <-].
      case_decide; [by injection Hout as _ <-|].
      destruct (commit_task _ _ _ _ _) as [[??]|];
        [done|by injection Hout as _ <-].
  - intros task_id user_id out.
    destruct out as [[msg|e] db'] eqn:Hout; subst out; simpl.
    + apply assign_task_Ok in Hout
        as (i & task & row & user & _ & _ & _ & _ & _ & _ & _ & _ & Ha).
      eexists. split; [exact Ha|]. done.
    + unfold assign_task in Hout.
      destruct (find_task _ _) as [[i task]|]; [|by injection Hout as _ <-].
      destruct (query_first _ _); [|by injection Hout as _ <-].
      destruct (commit_task _ _ _ _ _) as [[??]|];
        [done|by injection Hout as _ <-].
  - intros task_ids user_id.
    destruct (bulk_assign_tasks task_ids user_id now caller db)
      as [[r|e] db'] eqn:Hbulk; simpl.
    + by apply bulk_assign_tasks_success in Hbulk as (_ & _ & _ & _ & _ & ->).
    + unfold bulk_assign_tasks in Hbulk.
      destruct (query_first _ _); [|by injection Hbulk as _ <-].
      case_decide; [by injection Hbulk as _ <-|].
      by destruct (foldl _ _ _).
Qed.

End BulkAndTrailProperties.

(** * The further properties on concrete requests *)

Lemma token_round_trip_witness :
  signs_and_verifies default_settings (H := Fixture.externals)
    (update_exp_type (sub_claims 1) (access_expiry default_settings None 100)
       "access")
  ∧ signs_and_verifies default_settings (H := Fixture.externals)
      (update_exp_type (sub_claims 1) (refresh_expiry default_settings 100)
         "refresh")
  ∧ verify_token default_settings (H := Fixture.externals)
      Fixture.alice_access "access" 1000
    = Ok {| sub := Some "1"; exp := Some 1000; type := Some "access" |}
  ∧ raises_status
      (verify_token default_settings (H := Fixture.externals)
         Fixture.alice_access "access" 1001)
      HTTP_401_UNAUTHORIZED.
Proof.
  assert (signs_and_verifies default_settings (H := Fixture.externals)
            (update_exp_type (sub_claims 1)
               (access_expiry default_settings None 100) "access")) as Ha
    by (vm_compute; reflexivity).
  assert (signs_and_verifies default_settings (H := Fixture.externals)
            (update_exp_type (sub_claims 1)
               (refresh_expiry default_settings 100) "refresh")) as Hr
    by (vm_compute; reflexivity).
  split; [exact Ha|]. split; [exact Hr|].
  destruct (token_round_trip default_settings (H := Fixture.externals)
              (sub_claims 1) None 100 1000 Ha Hr) as (Hin & _).
  destruct (token_round_trip default_settings (H := Fixture.externals)
              (sub_claims 1) None 100 1001 Ha Hr) as (_ & Hout & _).
  split.
  - apply Hin. by vm_compute.
  - apply Hout. by vm_compute.
Defined.

Lemma token_kinds_not_interchangeable_witness :
  raises_status
    (get_current_user default_settings (H := Fixture.externals)
       Fixture.alice_refresh 200 Fixture.db0)
    HTTP_401_UNAUTHORIZED
  ∧ refresh_token default_settings (H := Fixture.externals)
      Fixture.alice_access 200 Fixture.db0
    = (Raise (HTTPException HTTP_401_UNAUTHORIZED "Invalid refresh token"),
       None, Fixture.db0).
Proof.
  destruct (token_kinds_not_interchangeable default_settings
              (H := Fixture.externals) (sub_claims 1) None 100 200 Fixture.db0)
    as (Hguard & _ & Hrefresh); [vm_compute; reflexivity..|].
  split; [exact Hguard|exact Hrefresh].
Defined.

Lemma login_then_authenticated_witness :
  NoDup (User.id <$> users Fixture.db0)
  ∧ ∃ resp cookie db',
      login default_settings (H := Fixture.externals) alice_login 1000
        Fixture.db0 = (Ok resp, cookie, db')
      ∧ get_current_active_user default_settings (H := Fixture.externals)
          (access_token resp) 1900 db' = Ok Fixture.alice.
Proof.
  assert (NoDup (User.id <$> users Fixture.db0)) as Hnd by by_compute.
  split; [exact Hnd|].
  eexists _, _, _. split; [vm_compute; reflexivity|].
  eapply (login_then_authenticated default_settings (H := Fixture.externals)
            alice_login 1000 1900 Fixture.db0 _ _ _ Fixture.alice Hnd);
    [vm_compute; reflexivity..|by vm_compute].
Defined.

Lemma same_second_token_collision_witness :
  ∃ resp cookie db',
    login default_settings (H := Fixture.externals) alice_login 1000
      Fixture.db0 = (Ok resp, cookie, db')
    ∧ login default_settings (H := Fixture.externals) alice_login 1000 db'
      = (Raise IntegrityError, None, db').
Proof.
  eexists _, _, _. split; [vm_compute; reflexivity|].
  eapply (same_second_token_collision default_settings
            (H := Fixture.externals) alice_login 1000 Fixture.db0 _ _ _
            Fixture.alice);
    [vm_compute; reflexivity..|by vm_compute].
Defined.

Lemma login_then_refresh_witness :
  ∃ resp cookie db' db'',
    login default_settings (H := Fixture.externals) alice_login 1000
      Fixture.db0 = (Ok resp, cookie, db')
    ∧ refresh_token default_settings (H := Fixture.externals)
        (create_refresh_token default_settings (H := Fixture.externals)
           (sub_claims 1) 1000) 2000 db'
      = (Ok {| access_token :=
                 create_access_token default_settings (H := Fixture.externals)
                   (sub_claims 1) None 2000;
               token_type := "bearer" |},
         Some (refresh_cookie
                 (create_refresh_token default_settings
                    (H := Fixture.externals) (sub_claims 1) 2000)),
         db'').
Proof.
  edestruct (login_then_refresh default_settings (H := Fixture.externals)
               alice_login 1000 2000 Fixture.db0) as [db'' Hok].
  - vm_compute. reflexivity.
  - vm_compute. reflexivity.
  - vm_compute. reflexivity.
  - vm_compute. reflexivity.
  - by vm_compute.
  - by vm_compute.
  - by_compute.
  - eexists _, _, _, db''. split; [vm_compute; reflexivity|exact Hok].
Defined.

Lemma register_keeps_accounts_unique_witness :
  NoDup (User.id <$> users Fixture.db0)
  ∧ NoDup (User.email <$> users Fixture.db0)
  ∧ NoDup (User.username <$> users Fixture.db0)
  ∧ NoDup (User.email
           <$> users (register fixture_pwd_hash carol_register "salt" 50
                        Fixture.db0).2)
  ∧ NoDup (User.email
           <$> users (register fixture_pwd_hash
                        {| reg_email := "alice@example.com";
                           reg_username := "alice2";
                           reg_password := "secret" |} "salt" 50
                        Fixture.db0).2).
Proof.
  assert (NoDup (User.id <$> users Fixture.db0)) as Hid by by_compute.
  assert (NoDup (User.email <$> users Fixture.db0)) as Hem by by_compute.
  assert (NoDup (User.username <$> users Fixture.db0)) as Hun by by_compute.
  split_and!; [exact Hid|exact Hem|exact Hun| |].
  - exact (proj1 (proj2 (register_keeps_accounts_unique fixture_pwd_hash
                           carol_register "salt" 50 Fixture.db0 Hid Hem Hun))).
  - exact (proj1 (proj2 (register_keeps_accounts_unique fixture_pwd_hash
                           {| reg_email := "alice@example.com";
                              reg_username := "alice2";
                              reg_password := "secret" |}
                           "salt" 50 Fixture.db0 Hid Hem Hun))).
Defined.

Lemma register_then_login_witness :
  ∃ user db' db'',
    register fixture_pwd_hash carol_register "salt" 50 Fixture.db0
    = (Ok user, db')
    ∧ User.id user = 4
    ∧ login default_settings (H := Fixture.externals)
        {| login_email := "carol@example.com"; login_password := "secret" |}
        60 db'
      = (Ok {| access_token :=
                 create_access_token default_settings (H := Fixture.externals)
                   (sub_claims 4) None 60;
               token_type := "bearer" |},
         Some (refresh_cookie
                 (create_refresh_token default_settings
                    (H := Fixture.externals) (sub_claims 4) 60)),
         db'').
Proof.
  edestruct (register_then_login default_settings (H := Fixture.externals)
               fixture_pwd_hash carol_register "salt" 50 60 Fixture.db0)
    as [db'' Hok].
  - vm_compute. reflexivity.
  - vm_compute. reflexivity.
  - by_compute.
  - eexists _, _, db''.
    split; [vm_compute; reflexivity|]. split; [reflexivity|]. exact Hok.
Defined.

Lemma logout_revokes_witness :
  NoDup (RefreshToken.token <$> refresh_tokens Fixture.db0)
  ∧ (logout Fixture.alice_refresh Fixture.db0).2 ≠ Fixture.db0
  ∧ ∃ detail,
      refresh_token default_settings (H := Fixture.externals)
        Fixture.alice_refresh 200 (logout Fixture.alice_refresh Fixture.db0).2
      = (Raise (HTTPException HTTP_401_UNAUTHORIZED detail), None,
         (logout Fixture.alice_refresh Fixture.db0).2).
Proof.
  assert (NoDup (RefreshToken.token <$> refresh_tokens Fixture.db0)) as Hnd
    by by_compute.
  split; [exact Hnd|]. split; [by vm_compute|].
  destruct (logout_revokes default_settings (H := Fixture.externals)
              Fixture.alice_refresh Fixture.db0 Hnd)
    as (_ & _ & _ & _ & _ & _ & Hrefresh & _).
  exact (Hrefresh 200).
Defined.

Lemma update_profile_keeps_accounts_unique_witness :
  NoDup (User.id <$> users Fixture.db0)
  ∧ NoDup (User.email <$> users Fixture.db0)
  ∧ NoDup (User.username <$> users Fixture.db0)
  ∧ Fixture.alice ∈ users Fixture.db0
  ∧ raises_status
      (update_current_user_profile
         {| uu_email := Some "bob@example.com"; uu_username := None |} 50
         Fixture.alice Fixture.db0).1 HTTP_400_BAD_REQUEST
  ∧ NoDup (User.username
           <$> users (update_current_user_profile
                        {| uu_email := None; uu_username := Some "alicia" |} 50
                        Fixture.alice Fixture.db0).2).
Proof.
  assert (NoDup (User.id <$> users Fixture.db0)) as Hid by by_compute.
  assert (NoDup (User.email <$> users Fixture.db0)) as Hem by by_compute.
  assert (NoDup (User.username <$> users Fixture.db0)) as Hun by by_compute.
  assert (Fixture.alice ∈ users Fixture.db0) as Hin by by_compute.
  split_and!; [exact Hid|exact Hem|exact Hun|exact Hin| |].
  - destruct (update_profile_keeps_accounts_unique
                {| uu_email := Some "bob@example.com"; uu_username := None |}
                50 Fixture.alice Fixture.db0 Hid Hem Hun Hin)
      as [(Hraise & _)|(user & Hok & _)]; [exact Hraise|].
    exfalso. revert Hok. vm_compute. by intros [=].
  - destruct (update_profile_keeps_accounts_unique
                {| uu_email := None; uu_username := Some "alicia" |}
                50 Fixture.alice Fixture.db0 Hid Hem Hun Hin)
      as [(Hraise & _)|(user & _ & _ & _ & Hnd & _)]; [|exact Hnd].
    exfalso. revert Hraise. vm_compute. by intros [].
Defined.



Lemma fixture_tasks_consistent : tasks_consistent Fixture.db0.
Proof.
  split; [by_compute|].
  intros t a Ht Ha.
  assert (Forall (λ t, ∀ a, Task.assigned_user_id t = Some a →
                            a ∈ User.id <$> users Fixture.db0)
            (tasks Fixture.db0)) as Hall.
  { change (tasks Fixture.db0)
      with [Fixture.task1; Fixture.task2; Fixture.task3].
    repeat (apply Forall_cons; split); [..|apply Forall_nil_2];
      intros ? [= <-]; by_compute. }
  rewrite Forall_forall in Hall. by apply (Hall t).
Defined.

Lemma task_writes_keep_constraints_witness :
  tasks_consistent Fixture.db0
  ∧ tasks_consistent
      (bulk_assign_tasks [1; 2] 2 50 Fixture.root Fixture.db0).2
  ∧ tasks_consistent
      (create_task (mkTaskCreate "plan" None TODO LOW None (Some 0)) 50
         Fixture.alice Fixture.db0).2.
Proof.
  split; [exact fixture_tasks_consistent|].
  destruct (task_writes_keep_constraints (H := Fixture.externals) Fixture.db0
              50 Fixture.root fixture_tasks_consistent)
    as (_ & _ & _ & _ & Hbulk).
  destruct (task_writes_keep_constraints (H := Fixture.externals) Fixture.db0
              50 Fixture.alice fixture_tasks_consistent)
    as (Hcreate & _).
  split; [exact (Hbulk [1; 2] 2)|].
  exact (Hcreate (mkTaskCreate "plan" None TODO LOW None (Some 0))).
Defined.

Lemma create_task_rejects_iff_witness :
  Fixture.alice ∈ users Fixture.db0
  ∧ create_task (mkTaskCreate "plan" None TODO LOW None (Some 9)) 50
      Fixture.alice Fixture.db0
    = (Raise (HTTPException HTTP_400_BAD_REQUEST "Assigned user not found"),
       Fixture.db0)
  ∧ create_task (mkTaskCreate "plan" None TODO LOW None (Some 0)) 50
      Fixture.alice Fixture.db0
    = (Raise IntegrityError, Fixture.db0).
Proof.
  assert (Fixture.alice ∈ users Fixture.db0) as Hin by by_compute.
  split; [exact Hin|]. split.
  - apply (create_task_rejects_iff
             (mkTaskCreate "plan" None TODO LOW None (Some 9)) 50
             Fixture.alice Fixture.db0 Hin).
    exists 9. split; [reflexivity|]. split; [done|by_compute].
  - apply (create_task_rejects_iff
             (mkTaskCreate "plan" None TODO LOW None (Some 0)) 50
             Fixture.alice Fixture.db0 Hin).
    split; [reflexivity|by_compute].
Defined.

Lemma create_task_then_get_witness :
  ∃ task db',
    create_task (mkTaskCreate "plan" None TODO LOW None (Some 2)) 50
      Fixture.alice Fixture.db0 = (Ok task, db')
    ∧ Task.id task = 4
    ∧ get_task 4 Fixture.alice db' = (Ok task, db').
Proof.
  edestruct (create_task_then_get
               (mkTaskCreate "plan" None TODO LOW None (Some 2)) 50
               Fixture.alice Fixture.db0)
    as (_ & _ & _ & _ & _ & _ & _ & _ & _ & _ & Hget);
    [vm_compute; reflexivity|].
  eexists _, _. split; [vm_compute; reflexivity|].
  split; [reflexivity|exact Hget].
Defined.

Lemma delete_task_then_gone_witness :
  NoDup (Task.id <$> tasks Fixture.db0)
  ∧ ∃ msg db',
      delete_task 1 50 Fixture.alice Fixture.db0 = (Ok msg, db')
      ∧ length (tasks db') = 3%nat
      ∧ get_task 1 Fixture.root db' = (task_not_found, db').
Proof.
  assert (NoDup (Task.id <$> tasks Fixture.db0)) as Hnd by by_compute.
  split; [exact Hnd|].
  edestruct (delete_task_then_gone (H := Fixture.externals) 1 50 Fixture.alice
               Fixture.db0) as (_ & _ & _ & Hgone);
    [exact Hnd|vm_compute; reflexivity|].
  eexists _, _. split; [vm_compute; reflexivity|]. split; [reflexivity|].
  exact (proj1 (Hgone Fixture.root 0
                  (mkTaskUpdate None None None None None None) 0)).
Defined.

Lemma task_access_by_role_witness :
  ∃ msg db' i task,
    assign_task 2 1 50 Fixture.root Fixture.db0 = (Ok msg, db')
    ∧ find_task 2 (tasks db') = Some (i, task)
    ∧ get_task 2 Fixture.alice db' = (Ok task, db')
    ∧ delete_task 2 60 Fixture.alice db'
      = (Raise (HTTPException HTTP_403_FORBIDDEN
                  "Not enough permissions to delete this task"), db').
Proof.
  eexists _, _, _, _. split; [vm_compute; reflexivity|].
  split; [vm_compute; reflexivity|].
  match goal with
  | |- get_task _ _ ?db' = (Ok ?task, _) ∧ _ =>
      destruct (task_access_by_role (H := Fixture.externals) 2 Fixture.alice
                  db' 1%nat task) as (Hread & _ & _ & Hdelete);
        [vm_compute; reflexivity|]
  end.
  split.
  - apply Hread. right. reflexivity.
  - apply (Hdelete 60). intros [Hadmin|Hown]; [discriminate Hadmin|].
    revert Hown. by vm_compute.
Defined.

Lemma assign_task_then_listed_witness :
  NoDup (Task.id <$> tasks Fixture.db0)
  ∧ ∃ msg db' r t,
      assign_task 2 1 50 Fixture.root Fixture.db0 = (Ok msg, db')
      ∧ msg = "Task assigned to user 1"
      ∧ get_tasks_assigned_to_user 1 Fixture.root db' = (Ok r, db')
      ∧ t ∈ at_tasks r ∧ Task.id t = 2.
Proof.
  assert (NoDup (Task.id <$> tasks Fixture.db0)) as Hnd by by_compute.
  split; [exact Hnd|].
  edestruct (assign_task_then_listed 2 1 50 Fixture.root Fixture.db0)
    as (Hmsg & _ & (r & t & Hlist & Hin & Hid) & _);
    [exact Hnd|vm_compute; reflexivity|].
  eexists _, _, r, t. split; [vm_compute; reflexivity|].
  split; [reflexivity|]. split; [exact Hlist|]. split; [exact Hin|exact Hid].
Defined.


Lemma completed_count_follows_updates_witness :
  let r := {| ua_user_id := 1; ua_username := "alice"; period_days := 30;
              total_activities := 0; tasks_created := 2;
              tasks_completed := 0; activity_breakdown := ∅ |} in
  get_user_activity 1 30 100 Fixture.root Fixture.db0 = (Ok r, Fixture.db0)
  ∧ ∃ task' db' r',
      update_task (H := Fixture.externals) 1
        (mkTaskUpdate None None (Some DONE) None None None) 50 Fixture.alice
        Fixture.db0 = (Ok task', db')
      ∧ get_user_activity 1 30 100 Fixture.root db' = (Ok r', db')
      ∧ total_activities r' = 1%nat
      ∧ tasks_completed r' = 1%nat.
Proof.
  intros r.
  assert (get_user_activity 1 30 100 Fixture.root Fixture.db0
          = (Ok r, Fixture.db0)) as Hr by (vm_compute; reflexivity).
  split; [exact Hr|].
  edestruct (completed_count_follows_updates (H := Fixture.externals) 1
               (mkTaskUpdate None None (Some DONE) None None None) 50
               Fixture.alice Fixture.db0)
    as (r' & Hr' & Htotal & _ & _ & Hdone).
  3: exact Hr.
  1: vm_compute; reflexivity.
  1: by vm_compute.
  eexists _, _, r'. split; [vm_compute; reflexivity|].
  split; [exact Hr'|]. split; [exact Htotal|exact Hdone].
Defined.

Lemma bulk_assign_tasks_idempotent_witness :
  ∃ r db' r2,
    bulk_assign_tasks [1; 2] 2 50 Fixture.root Fixture.db0 = (Ok r, db')
    ∧ updated_tasks r = 2%nat
    ∧ bulk_assign_tasks [1; 2] 2 60 Fixture.root db' = (Ok r2, db')
    ∧ updated_tasks r2 = 0%nat.
Proof.
  edestruct (bulk_assign_tasks_idempotent [1; 2] 2 50 60 Fixture.root
               Fixture.db0) as (_ & r2 & Hagain & Hzero & _);
    [vm_compute; reflexivity|].
  eexists _, _, r2. split; [vm_compute; reflexivity|].
  split; [reflexivity|]. split; [exact Hagain|exact Hzero].
Defined.

